(** * The [out] operation of the ChartMuseum resource (src/out.ts)

    A shallow embedding of [importGpgKey] and [out] together with the helpers
    of src/index.ts they call ([createFetchHeaders], [createFetchAgent]).

    - JavaScript strings are Rocq strings: a character stands for the UTF-16
      code unit with the same code, so the model covers strings whose code
      units are below 256.
    - Optional properties ([x?: T], tested in the source with [!= null]) are
      [option T].
    - Everything the program obtains from outside (argv, stdin, the file
      system, subprocess results, HTTP responses) and the Node library
      functions it calls ([path.resolve], [path.basename], [semver.satisfies],
      base64 encoding) are fields of a [World].
    - [out] is written in a small monad that threads the log of effects
      performed so far and ends in a value, a [process.exit] or a thrown
      value.
    - What the program reads or awaits from outside may fail where the Node
      call can reject or throw ([lstat], [readFile], [yaml.load], [tmp.dir],
      [exec], [fetch], [json], [rimraf], [semver.satisfies] on a version it
      cannot parse), and the [gpg] child may fail to start; [chdir],
      [writeFile] and [mkdtemp] are taken to succeed.
    - The exit code of a computation is the number the process ends with as
      the program gives it; the parent process receives its low eight bits
      ([exit_status]). *)

From Stdlib Require Import String Ascii List ZArith Lia Bool DecimalString.
Import ListNotations.
Open Scope string_scope.

(* ================================================================== *)
(** ** JavaScript string operations used by the source *)

Module Js.

Definition LF : ascii := "010"%char.
Definition CR : ascii := "013"%char.

(** The line feed and the double quote that the source writes as escapes
    in its string literals. *)
Definition nl : string := String LF EmptyString.
Definition dq : string := String (ascii_of_nat 34) EmptyString.

(** [`${n}`] and [String(n)] for integers. *)
Definition Z_to_string (z : Z) : string := NilZero.string_of_int (Z.to_int z).
Definition N_to_string (n : N) : string := NilZero.string_of_uint (N.to_uint n).

(** [s.startsWith(p)] *)
Definition startsWith (p s : string) : bool := String.prefix p s.

(** [s.includes(p)] *)
Fixpoint includes (p s : string) : bool :=
  startsWith p s ||
  match s with
  | EmptyString => false
  | String _ rest => includes p rest
  end.

(** [xs.join(sep)] *)
Definition join (sep : string) (xs : list string) : string := String.concat sep xs.

Definition starts_with_LF (s : string) : bool :=
  match s with
  | String c _ => Ascii.eqb c LF
  | EmptyString => false
  end.

(** [s.split(/\r?\n/)]: the pieces between line breaks; a carriage return
    belongs to the break only when a line feed follows it. *)
Fixpoint split_lines (s : string) : list string :=
  match s with
  | EmptyString => [EmptyString]
  | String c rest =>
      if Ascii.eqb c LF then EmptyString :: split_lines rest
      else if Ascii.eqb c CR && starts_with_LF rest then split_lines rest
      else match split_lines rest with
           | l :: ls => String c l :: ls
           | [] => [String c EmptyString]
           end
  end.

(** [s.replace(/\r?\n/, empty)]: without the [g] flag only the first line
    break is removed. *)
Fixpoint remove_first_line_break (s : string) : string :=
  match s with
  | EmptyString => EmptyString
  | String c rest =>
      if Ascii.eqb c LF then rest
      else if Ascii.eqb c CR && starts_with_LF rest then
             match rest with
             | String _ rest' => rest'
             | EmptyString => EmptyString
             end
      else String c (remove_first_line_break rest)
  end.

(** The class [\s] of a regular expression, on code units below 256:
    tab, line feed, vertical tab, form feed, carriage return, space and
    the no-break space. *)
Definition is_space (c : ascii) : bool :=
  let n := nat_of_ascii c in
  ((9 <=? n) && (n <=? 13))%nat || (n =? 32)%nat || (n =? 160)%nat.

Fixpoint drop_spaces (s : string) : string :=
  match s with
  | String c rest => if is_space c then drop_spaces rest else s
  | EmptyString => EmptyString
  end.

Fixpoint drop (n : nat) (s : string) : string :=
  match n, s with
  | S n', String _ rest => drop n' rest
  | _, _ => s
  end.

(** The leftmost occurrence of [label] in [s]: the text before it and the
    text after it. *)
Fixpoint cut_at (label s : string) : option (string * string) :=
  if startsWith label s then Some (EmptyString, drop (String.length label) s)
  else match s with
       | EmptyString => None
       | String c rest =>
           match cut_at label rest with
           | Some (before, after) => Some (String c before, after)
           | None => None
           end
       end.

(** [s.split(/version:\s*/)]; every match consumes at least the label, so
    [S (length s)] rounds are enough. *)
Fixpoint split_version_label_aux (fuel : nat) (s : string) : list string :=
  match fuel with
  | O => [s]
  | S fuel' =>
      match cut_at "version:" s with
      | None => [s]
      | Some (before, after) =>
          before :: split_version_label_aux fuel' (drop_spaces after)
      end
  end.

Definition split_version_label (s : string) : list string :=
  split_version_label_aux (S (String.length s)) s.

(** [s.endsWith(p)] together with the text before the suffix. *)
Fixpoint strip_suffix (p s : string) : option string :=
  if String.eqb s p then Some EmptyString
  else match s with
       | EmptyString => None
       | String c rest =>
           match strip_suffix p rest with
           | Some body => Some (String c body)
           | None => None
           end
       end.

Definition strip_prefix (p s : string) : option string :=
  if startsWith p s then Some (drop (String.length p) s) else None.

(** [.] of a regular expression matches anything but a line terminator. *)
Definition is_line_terminator (c : ascii) : bool :=
  Ascii.eqb c LF || Ascii.eqb c CR.

Fixpoint no_line_terminator (s : string) : bool :=
  match s with
  | EmptyString => true
  | String c rest => negb (is_line_terminator c) && no_line_terminator rest
  end.

(** [String.prototype.trim], the reading of the word "trimmed": leading and
    trailing white space removed. *)
Fixpoint drop_trailing_spaces (s : string) : string :=
  match s with
  | EmptyString => EmptyString
  | String c rest =>
      match drop_trailing_spaces rest with
      | EmptyString => if is_space c then EmptyString else String c EmptyString
      | rest' => String c rest'
      end
  end.

Definition trim (s : string) : string := drop_trailing_spaces (drop_spaces s).

(** ASCII lower case, for header names. *)
Definition lower (c : ascii) : ascii :=
  let n := nat_of_ascii c in
  if ((65 <=? n) && (n <=? 90))%nat then ascii_of_nat (n + 32) else c.

Fixpoint toLowerCase (s : string) : string :=
  match s with
  | EmptyString => EmptyString
  | String c rest => String (lower c) (toLowerCase rest)
  end.

End Js.

(* ================================================================== *)
(** ** Data model (src/index.ts) *)

(** [interface Repository] *)
Record Repository := {
  server_url : string;
  basic_auth_username : option string;
  basic_auth_password : option string;
  tls_ca_cert : option string;
  tls_client_cert : option string;
  tls_client_key : option string
}.

(** [interface Source extends Repository] *)
Record Source := {
  repository :> Repository;
  chart_name : string;
  version_range : option string;
  harbor_api : option bool
}.

(** The [params] of [interface OutRequest]; [dependency_repos] keeps the
    order of [Object.entries]. *)
Module Params.
Record t := {
  chart : string;
  sign : option bool;
  key_data : option string;
  key_file : option string;
  key_passphrase : option string;
  version : option string;
  version_file : option string;
  force : option bool;
  dependency_update : option bool;
  dependency_repos : option (list (string * Repository))
}.
End Params.

(** [interface OutRequest extends Request] *)
Record OutRequest := {
  source : Source;
  params : Params.t
}.

(** [interface InResponse], which [OutResponse] extends without change. *)
Module OutResponse.
Record version_t := {
  version : option string;
  digest : option string
}.
Record entry := {
  name : string;
  value : option string
}.
Record t := {
  version_of : version_t;
  metadata : list entry
}.
End OutResponse.

(** What [out] resolves to: [{ data, cleanupCallback }]; the callback is
    represented by the temporary directory it would remove. *)
Record OutResult := {
  data : OutResponse.t;
  cleanupCallback : option string
}.

(** [x === true] on an optional boolean. *)
Definition is_true (b : option bool) : bool :=
  match b with
  | Some true => true
  | _ => false
  end.

(** Truthiness of an optional string ([a && b] in [createFetchHeaders]). *)
Definition truthy (s : option string) : bool :=
  match s with
  | Some EmptyString | None => false
  | Some _ => true
  end.

(** Template interpolation of a value that may be [undefined]. *)
Definition tpl (s : option string) : string :=
  match s with
  | Some t => t
  | None => "undefined"
  end.

(** [a != b] where each side is a string or absent. *)
Definition loose_neq (a b : option string) : bool :=
  match a, b with
  | Some x, Some y => negb (String.eqb x y)
  | None, None => false
  | _, _ => true
  end.

(* ------------------------------------------------------------------ *)
(** *** Values from outside the program *)

(** [fs.Stats] as far as the source looks at it. *)
Inductive FileKind := RegularFile | Directory | OtherKind.

Record Stats := {
  kind : FileKind;
  size : N
}.

Definition isFile (s : Stats) : bool :=
  match kind s with RegularFile => true | _ => false end.

Definition isDirectory (s : Stats) : bool :=
  match kind s with Directory => true | _ => false end.

(** The fields of Chart.yaml the source interpolates. *)
Module ChartInfo.
Record t := {
  name : string;
  version : string
}.
End ChartInfo.

(** A property of the decoded upload reply, whose type the source leaves
    open; objects and arrays behave like any other non-null value in the
    two tests the source performs. *)
Inductive JsVal :=
| JsUndefined
| JsNull
| JsBool (b : bool)
| JsNum (n : Z)
| JsStr (s : string).

(** [v != null] *)
Definition not_nullish (v : JsVal) : bool :=
  match v with
  | JsUndefined | JsNull => false
  | _ => true
  end.

(** [v !== true] *)
Definition strict_neq_true (v : JsVal) : bool :=
  match v with
  | JsBool true => false
  | _ => true
  end.

(** [`${v}`] *)
Definition JsVal_toString (v : JsVal) : string :=
  match v with
  | JsUndefined => "undefined"
  | JsNull => "null"
  | JsBool true => "true"
  | JsBool false => "false"
  | JsNum n => Js.Z_to_string n
  | JsStr s => s
  end.

(** Decoded body of the upload reply. *)
Module UploadReply.
Record t := {
  error : JsVal;
  saved : JsVal
}.
End UploadReply.

(** Decoded body of the chart metadata reply, at the field types of
    [InResponse] (strings); [None] is an absent field.  The Harbor dialect
    nests the chart's fields under [metadata]. *)
Module ChartJson.
Record meta := {
  m_version : option string;
  m_digest : option string;
  m_created : option string;
  m_description : option string
}.
Record t := {
  metadata : option meta;
  version : option string;
  digest : option string;
  created : option string;
  description : option string;
  appVersion : option string;
  home : option string;
  tillerVersion : option string
}.
End ChartJson.

(** A [node-fetch] response; [json] is [None] when decoding the body
    rejects (or yields [null], whose properties cannot be read). *)
Module Response.
Record t (J : Type) := {
  status : Z;
  statusText : string;
  text : string;
  json : option J
}.
Arguments status {J} _.
Arguments statusText {J} _.
Arguments text {J} _.
Arguments json {J} _.

(** [Response.ok] *)
Definition ok {J} (r : t J) : bool :=
  ((200 <=? status r) && (status r <? 300))%Z.
End Response.

(** [Headers] with [append]; names compare without case. *)
Definition Headers := list (string * string).

Definition header_get (name : string) (h : Headers) : option string :=
  match find (fun kv => String.eqb (Js.toLowerCase (fst kv)) (Js.toLowerCase name)) h with
  | Some kv => Some (snd kv)
  | None => None
  end.

(** [AgentOptions] built by [createFetchAgent]. *)
Record Agent := {
  keepAlive : bool;
  ca : option string;
  cert : option string;
  key : option string
}.

(** The request body handed to [fetch]. *)
Inductive Body :=
| FormBody (field : string) (file : string)   (* FormData with one file stream *)
| StreamBody (file : string).                 (* fs.createReadStream(file) *)

(** Result of the promisified [child_process.exec]. *)
Inductive ExecResult :=
| ExecOk (stdout : string) (stderr : option string)
| ExecFail (stderr : option string).

(** One run of the [gpg] child process: the chunks of its stdout, its whole
    stderr and the code of its [close] event ([None] when a signal ended it). *)
Record GpgRun := {
  gpg_stdout : list string;
  gpg_stderr : string;
  gpg_code : option Z
}.

(** What [child_process.spawn] leads to.  The child runs to its [close]
    event; or it cannot be started and emits [error], for which
    [importGpgKey] registers no listener (out.ts 45-62): Node then reports
    the uncaught error on standard error and ends the process with code 1. *)
Inductive Spawned :=
| Closed (run : GpgRun)
| NotStarted (report : string).

(** Values that are thrown or reject a promise. *)
Inductive Thrown :=
| JsError (message : string)                 (* new Error(message) *)
| JsString (text : string)                   (* reject("...") *)
| ExecError (cmd : string) (stderr : option string)
| NodeError (api : string) (arg : string)    (* a rejected library call *)
| TypeError (what : string).

(** [e.stderr] *)
Definition thrown_stderr (e : Thrown) : option string :=
  match e with
  | ExecError _ s => s
  | _ => None
  end.

(** The environment of one invocation. *)
Record World := {
  argv : list string;
  cwd : string;
  stdin_request : option OutRequest;          (* None: JSON.parse throws *)
  (* Node library *)
  path_resolve : string -> list string -> string;   (* working directory, segments *)
  path_basename : string -> string;
  os_tmpdir : string;
  base64 : string -> string;
  semver_satisfies : string -> string -> option bool;   (* None: throws on the version *)
  (* file system *)
  fs_lstat : string -> option Stats;          (* None: rejects *)
  fs_readFile : string -> option string;
  yaml_load : string -> option ChartInfo.t;
  tmp_dir : nat -> option string;             (* the n-th call of tmp.dir *)
  fs_mkdtemp : string -> string;
  rimraf : string -> bool;                    (* false: rejects *)
  (* subprocesses and network *)
  exec : string -> ExecResult;
  gpg : list string -> option string -> Spawned;
  fetch_post : string -> Agent -> Headers -> Body -> option (Response.t UploadReply.t);
  fetch_get : string -> Agent -> Headers -> option (Response.t ChartJson.t)
}.

(* ------------------------------------------------------------------ *)
(** *** Effects *)

Inductive Event :=
| EStderr (text : string)                     (* process.stderr.write *)
| EStderrJson (times : nat) (e : Thrown)      (* ... of JSON.stringify(e), nested [times] deep *)
| EStderrChunk (chunk : string)               (* ... of JSON.stringify(data) of a gpg stdout chunk *)
| EStdout (response : OutResponse.t)          (* process.stdout.write(JSON.stringify(data)) *)
| EChdir (dir : string)
| EWriteFile (path : string) (content : string)
| ETmpDir (path : string)
| EMkdtemp (path : string)
| EDeltree (path : string)
| EExec (cmd : string)
| ESpawn (cmd : string) (args : list string) (stdin : option string)
| EPost (url : string) (agent : Agent) (headers : Headers) (body : Body)
| EGet (url : string) (agent : Agent) (headers : Headers).

Inductive Outcome (A : Type) :=
| Ok (a : A)
| Exit (code : Z)              (* the process ends: process.exit(code), or an uncaught error *)
| Throw (e : Thrown).
Arguments Ok {A} a.
Arguments Exit {A} code.
Arguments Throw {A} e.

(** A computation extends the log of effects and ends in an outcome. *)
Definition M (A : Type) : Type := list Event -> list Event * Outcome A.

Definition ret {A} (a : A) : M A := fun log => (log, Ok a).

Definition bind {A B} (m : M A) (f : A -> M B) : M B :=
  fun log =>
    match m log with
    | (log', Ok a) => f a log'
    | (log', Exit c) => (log', Exit c)
    | (log', Throw e) => (log', Throw e)
    end.

Definition exit {A} (code : Z) : M A := fun log => (log, Exit code).
Definition throw {A} (e : Thrown) : M A := fun log => (log, Throw e).
Definition emit (e : Event) : M unit := fun log => ((log ++ [e])%list, Ok tt).
Definition history : M (list Event) := fun log => (log, Ok log).

(** [try { m } catch (e) { h e }]; [process.exit] is not caught. *)
Definition try_catch {A} (m : M A) (h : Thrown -> M A) : M A :=
  fun log =>
    match m log with
    | (log', Throw e) => h e log'
    | r => r
    end.

(** [try { m } finally { fin }]; [process.exit] ends the process at once. *)
Definition try_finally {A} (m : M A) (fin : M unit) : M A :=
  fun log =>
    match m log with
    | (log', Exit c) => (log', Exit c)
    | (log', r) =>
        match fin log' with
        | (log'', Ok _) => (log'', r)
        | (log'', Exit c) => (log'', Exit c)
        | (log'', Throw e) => (log'', Throw e)
        end
    end.

Definition when (c : bool) (m : M unit) : M unit :=
  if c then m else ret tt.

(** A library call that may throw or reject. *)
Definition await {A} (api arg : string) (r : option A) : M A :=
  match r with
  | Some a => ret a
  | None => throw (NodeError api arg)
  end.

Declare Scope out_scope.
Delimit Scope out_scope with out.
Notation "x <- m ;; k" := (bind m (fun x => k))
  (at level 61, m at next level, right associativity) : out_scope.
Notation "' p <- m ;; k" := (bind m (fun x => match x with p => k end))
  (at level 61, p pattern, m at next level, right associativity) : out_scope.
Notation "m ;; k" := (bind m (fun _ => k))
  (at level 61, right associativity) : out_scope.
Open Scope out_scope.

Definition stderr_write (s : string) : M unit := emit (EStderr s).

(* ================================================================== *)
(** ** The program *)

(** [createFetchHeaders] (src/index.ts) *)
Definition createFetchHeaders (b64 : string -> string) (request : OutRequest) : Headers :=
  if truthy (basic_auth_username (source request)) && truthy (basic_auth_password (source request))
  then
    let basicAuthUsername := tpl (basic_auth_username (source request)) in
    let basicAuthPassword := tpl (basic_auth_password (source request)) in
    [("Authorization", "Basic " ++ b64 (basicAuthUsername ++ ":" ++ basicAuthPassword))]
  else [].

(** [createFetchAgent] (src/index.ts) *)
Definition createFetchAgent (request : OutRequest) : Agent :=
  let src := source request in
  let both := match tls_client_cert src, tls_client_key src with
              | Some _, Some _ => true
              | _, _ => false
              end in
  {| keepAlive := false;
     ca := tls_ca_cert src;
     cert := if both then tls_client_cert src else None;
     key := if both then tls_client_key src else None |}.

(** The regular expression of [importGpgKey] applied to one line: the line
    is [gpg: key ], an identifier without line terminator, and
    [: secret key imported], from its start to its end; the result is the
    captured identifier. *)
Definition key_id_of_line (keyIdLine : string) : option string :=
  match Js.strip_prefix "gpg: key " keyIdLine with
  | None => None
  | Some rest =>
      match Js.strip_suffix ": secret key imported" rest with
      | Some id => if Js.no_line_terminator id then Some id else None
      | None => None
      end
  end.

(** The [close] handler of [importGpgKey] (out.ts 62-78): the promise is
    rejected ([inl]) or resolved with the key identifier ([inr]). *)
Definition import_close (code : option Z) (importResult : string) : Thrown + string :=
  match code with
  | Some 0%Z =>
      match find (Js.includes "secret key imported") (Js.split_lines importResult) with
      | None =>
          inl (JsString "Unable to determine Key ID after successful import: Line with key ID not found.")
      | Some keyIdLine =>
          match key_id_of_line keyIdLine with
          | None =>
              inl (JsString "Unable to determine Key ID after successful import: Regex match failure.")
          | Some id => inr id
          end
      end
  | _ =>
      inl (JsError ("gpg import returned exit code "
                    ++ match code with Some c => Js.Z_to_string c | None => "null" end
                    ++ "."))
  end.

Section Program.

Variable w : World.

(** Every [path.resolve] of [out] after [process.chdir(root)]. *)
Definition resolve (root : string) (segments : list string) : string :=
  path_resolve w root segments.

(** [createTmpDir] (out.ts 27-40): the next temporary directory. *)
Definition createTmpDir : M string :=
  log <- history ;;
  let n := List.length (filter (fun e => match e with ETmpDir _ => true | _ => false end) log) in
  match tmp_dir w n with
  | Some path => emit (ETmpDir path) ;; ret path
  | None => throw (NodeError "tmp.dir" EmptyString)
  end.

Definition writeFile (path content : string) : M unit :=
  emit (EWriteFile path content).

(** The promisified [rimraf] (out.ts 25). *)
Definition deltree (path : string) : M unit :=
  if rimraf w path then emit (EDeltree path) else throw (NodeError "rimraf" path).

Definition lstat (path : string) : M Stats :=
  await "lstat" path (fs_lstat w path).

Definition readFile (path : string) : M string :=
  await "readFile" path (fs_readFile w path).

(** The promisified [child_process.exec]: rejects on a failing command. *)
Definition run_exec (cmd : string) : M (string * option string) :=
  emit (EExec cmd) ;;
  match exec w cmd with
  | ExecOk stdout stderr => ret (stdout, stderr)
  | ExecFail stderr => throw (ExecError cmd stderr)
  end.

(** [importGpgKey] (out.ts 42-80).  Only the [close] event of the child
    settles the promise; when the child cannot be started, what reaches
    standard error is Node's report of the uncaught [error] event. *)
Definition importGpgKey (root gpgHome keyFile : string) (passphrase : option string)
  : M string :=
  let args := ["--batch";
               "--homedir";
               Js.dq ++ resolve root [gpgHome] ++ Js.dq;
               "--import";
               Js.dq ++ resolve root [keyFile] ++ Js.dq] in
  emit (ESpawn "gpg" args passphrase) ;;
  match gpg w args passphrase with
  | NotStarted report =>
      stderr_write report ;;
      exit 1
  | Closed run =>
      fold_right (fun chunk k => emit (EStderrChunk chunk) ;; k) (ret tt) (gpg_stdout run) ;;
      match import_close (gpg_code run) (gpg_stderr run) with
      | inl e => throw e
      | inr keyId => ret keyId
      end
  end.

(** out.ts 111-118: the version from [params.version] or [params.version_file]. *)
Definition resolve_version (root : string) (request : OutRequest) : M (option string) :=
  let version := Params.version (params request) in
  match Params.version_file (params request) with
  | Some version_file =>
      let versionFile := resolve root [version_file] in
      st <- lstat versionFile ;;
      if isFile st then
        content <- readFile versionFile ;;
        ret (Some (Js.remove_first_line_break content))
      else ret version
  | None => ret version
  end.

(** out.ts 119-125: the range check.  [semver.satisfies] throws a
    [TypeError] on a version it cannot parse, outside any [try]. *)
Definition check_version_range (request : OutRequest) (version : option string) : M unit :=
  match version, version_range (source request) with
  | Some v, Some versionRange =>
      match semver_satisfies w v versionRange with
      | None => throw (TypeError ("Invalid Version: " ++ v))
      | Some satisfied =>
          when (negb satisfied)
               (stderr_write ("params.version (" ++ v
                              ++ ") does not satisfy contents of source.version_range ("
                              ++ versionRange ++ ")." ++ Js.nl) ;;
                exit 104)
      end
  | _, _ => ret tt
  end.

(** out.ts 131-180: one round of the loop over [dependency_repos]. *)
Definition add_dependency_repo (root : string) (name : string) (repo : Repository) : M unit :=
  let addCmd := ["helm"; "repo"; "add"] in
  let addCmd :=
    match basic_auth_username repo, basic_auth_password repo with
    | Some username, Some password =>
        (addCmd ++ ["--username"; username; "--password"; password])%list
    | _, _ => addCmd
    end in
  addCmd <- match tls_ca_cert repo with
            | Some ca_cert =>
                caDir <- createTmpDir ;;
                let caFile := resolve root [caDir; "ca.pem"] in
                writeFile caFile ca_cert ;;
                ret (addCmd ++ ["--ca-file"; caFile])%list
            | None => ret addCmd
            end ;;
  addCmd <- match tls_client_cert repo, tls_client_key repo with
            | Some client_cert, Some client_key =>
                tlsDir <- createTmpDir ;;
                let certFile := resolve root [tlsDir; "cert.pem"] in
                writeFile certFile client_cert ;;
                let keyFile := resolve root [tlsDir; "key.pem"] in
                writeFile keyFile client_key ;;
                ret (addCmd ++ ["--cert-file"; certFile; "--key-file"; keyFile])%list
            | _, _ => ret addCmd
            end ;;
  let addCmd := (addCmd ++ [name; server_url repo])%list in
  try_catch
    (stderr_write ("Performing " ++ Js.dq ++ "helm add " ++ name ++ " " ++ server_url repo
                   ++ Js.dq ++ "..." ++ Js.nl) ;;
     run_exec (Js.join " " addCmd) ;;
     ret tt)
    (fun e =>
       match thrown_stderr e with
       | Some text => stderr_write (text ++ Js.nl)
       | None => ret tt
       end ;;
       stderr_write ("Adding Helm Repo failed." ++ Js.nl) ;;
       exit 193).

Fixpoint add_dependency_repos (root : string) (repos : list (string * Repository)) : M unit :=
  match repos with
  | [] => ret tt
  | (name, repo) :: rest =>
      add_dependency_repo root name repo ;;
      add_dependency_repos root rest
  end.

(** out.ts 128-182 *)
Definition register_dependencies (root : string) (request : OutRequest) : M unit :=
  match Params.dependency_repos (params request) with
  | Some repos =>
      stderr_write ("Processing chart Helm Repo Dependencies..." ++ Js.nl) ;;
      add_dependency_repos root repos
  | None => ret tt
  end.

(** out.ts 201-237: the signing switches of the packaging command. *)
Definition sign_chart (root : string) (request : OutRequest) (tmpDir : string)
           (cmd : list string) : M (list string) :=
  let keyData := Params.key_data (params request) in
  let keyFile := Params.key_file (params request) in
  keyFile <- match keyData, keyFile with
             | None, None =>
                 stderr_write "Either key_data or key_file must be specified, when 'sign' is set to true." ;;
                 exit 332
             | Some keyData, _ =>
                 let keyFile := resolve root [tmpDir; "gpg-key.asc"] in
                 writeFile keyFile keyData ;;
                 ret keyFile
             | None, Some keyFile => ret keyFile
             end ;;
  let created := fs_mkdtemp w (resolve root [os_tmpdir w; "concourse-gpg-keyring-"]) in
  emit (EMkdtemp created) ;;
  let gpgHome := resolve root [created] in
  stderr_write ("Using new empty temporary GNUPGHOME: " ++ Js.dq ++ gpgHome ++ Js.dq
                ++ "." ++ Js.nl) ;;
  try_finally
    (try_catch
       (stderr_write ("Importing GPG private key: " ++ Js.dq ++ keyFile ++ Js.dq
                      ++ "..." ++ Js.nl) ;;
        keyId <- try_catch
                   (importGpgKey root gpgHome keyFile (Params.key_passphrase (params request)))
                   (fun e =>
                      stderr_write ("Importing of GPG key " ++ Js.dq ++ keyFile ++ Js.dq
                                    ++ " failed." ++ Js.nl) ;;
                      throw e) ;;
        stderr_write ("GPG key imported successfully. Key ID: " ++ Js.dq ++ keyId ++ Js.dq
                      ++ "." ++ Js.nl) ;;
        ret (cmd ++ ["--sign"; "--key"; keyId; "--keyring";
                     (Js.dq ++ resolve root [gpgHome; "secring.gpg"] ++ Js.dq)%string])%list)
       (fun e =>
          stderr_write ("Signing of chart with GPG private key failed" ++ Js.nl) ;;
          throw e))
    (stderr_write ("Removing temporary GNUPGHOME " ++ Js.dq ++ gpgHome ++ Js.dq
                   ++ "." ++ Js.nl) ;;
     deltree gpgHome).

(** out.ts 238-253: the packaging command is completed and run, and the
    archive it leaves is looked up. *)
Definition run_package (root : string) (version : option string)
           (chartLocation : string) (chartInfo : ChartInfo.t) (tmpDir : string)
           (cmd : list string) : M (string * Stats * option string) :=
  let cmd := match version with
             | Some v => (cmd ++ ["--version"; v])%list
             | None => cmd
             end in
  let cmd := (cmd ++ [chartLocation])%list in
  try_catch
    (stderr_write ("Performing " ++ Js.dq ++ "helm package" ++ Js.dq ++ "..." ++ Js.nl) ;;
     run_exec (Js.join " " cmd) ;;
     ret tt)
    (fun e =>
       match thrown_stderr e with
       | Some text => stderr_write (text ++ Js.nl)
       | None => ret tt
       end ;;
       stderr_write ("Packaging of chart file failed." ++ Js.nl) ;;
       exit 121) ;;
  let chartFile :=
    resolve root [tmpDir;
                  ChartInfo.name chartInfo ++ "-"
                  ++ match version with
                     | Some v => v
                     | None => ChartInfo.version chartInfo
                     end
                  ++ ".tgz"] in
  chartFileStat <- lstat chartFile ;;
  ret (chartFile, chartFileStat, Some tmpDir).

(** out.ts 184-260: the archive to upload, its stats and the cleanup
    callback. *)
Definition package_chart (root : string) (request : OutRequest) (version : option string)
  : M (string * Stats * option string) :=
  let chartLocation := resolve root [Params.chart (params request)] in
  stderr_write ("Processing chart at " ++ Js.dq ++ chartLocation ++ Js.dq ++ "..." ++ Js.nl) ;;
  chartFileStat <- lstat chartLocation ;;
  if isDirectory chartFileStat then
    chartInfo <- await "yaml.load" (resolve root [chartLocation; "Chart.yaml"])
                       (yaml_load w (resolve root [chartLocation; "Chart.yaml"])) ;;
    tmpDir <- createTmpDir ;;
    let cmd := ["helm"; "package"; "--destination"; tmpDir] in
    let cmd := if is_true (Params.dependency_update (params request))
               then (cmd ++ ["--dependency-update"])%list else cmd in
    cmd <- (if is_true (Params.sign (params request))
            then sign_chart root request tmpDir cmd
            else ret cmd) ;;
    run_package root version chartLocation chartInfo tmpDir cmd
  else if isFile chartFileStat then
    ret (chartLocation, chartFileStat, None)
  else
    stderr_write ("Chart file (" ++ chartLocation ++ ") not found." ++ Js.nl) ;;
    exit 110.

(** out.ts 270-276: the version in the text of [helm inspect chart];
    [None] when no line starts with the label. *)
Definition inspected_version (inspectionResult : string) : option (option string) :=
  match find (Js.startsWith "version:") (Js.split_lines inspectionResult) with
  | None => None
  | Some versionLine => Some (nth_error (Js.split_version_label versionLine) 1)
  end.

(** out.ts 262-280: the assignment to [version] after inspection; the
    value [version] had before is an argument only to show that it is
    not read. *)
Definition inspect_chart (chartFile : string) (version : option string) : M (option string) :=
  stderr_write ("Inspecting chart file: " ++ Js.dq ++ chartFile ++ Js.dq ++ "..." ++ Js.nl) ;;
  try_catch
    ('(stdout, stderr) <- run_exec ("helm inspect chart " ++ chartFile) ;;
     match stderr with
     | Some text => when (0 <? String.length text)%nat (stderr_write (text ++ Js.nl))
     | None => ret tt
     end ;;
     match inspected_version stdout with
     | None =>
         stderr_write ("Unable to parse version information from Helm Chart inspection result."
                       ++ Js.nl) ;;
         exit 121
     | Some v => ret v
     end)
    (fun e =>
       stderr_write ("Unable to " ++ Js.dq ++ "inspect" ++ Js.dq ++ " Helm Chart file: "
                     ++ chartFile ++ "." ++ Js.nl) ;;
       exit 120).

(** out.ts 282-291: the headers and the body of the upload. *)
Definition upload_payload (request : OutRequest) (headers : Headers)
           (chartFile : string) (chartFileStat : Stats) : Headers * Body :=
  if is_true (harbor_api (source request)) then
    (headers, FormBody "chart" chartFile)
  else
    ((headers ++ [("Content-length", Js.N_to_string (size chartFileStat));
                  ("Content-Disposition",
                   ("attachment; filename=" ++ Js.dq ++ path_basename w chartFile ++ Js.dq)%string)])%list,
     StreamBody chartFile).

(** out.ts 292-329: the upload and the inspection of its reply. *)
Definition upload_chart (request : OutRequest) (agent : Agent) (headers : Headers)
           (body : Body) (chartFile : string) (version : option string) : M unit :=
  stderr_write ("Uploading chart file: " ++ Js.dq ++ chartFile ++ Js.dq ++ "..." ++ Js.nl) ;;
  postResult <-
    try_catch
      (let postUrl := server_url (source request) in
       let postUrl := if is_true (Params.force (params request))
                      then postUrl ++ "?force=true" else postUrl in
       emit (EPost postUrl agent headers body) ;;
       await "fetch" postUrl (fetch_post w postUrl agent headers body))
      (fun e =>
         stderr_write ("Upload of chart file to " ++ Js.dq ++ server_url (source request)
                       ++ Js.dq ++ " has failed." ++ Js.nl) ;;
         emit (EStderrJson 2 e) ;;
         exit 124) ;;
  when (negb (Response.status postResult =? 201)%Z)
       (stderr_write ("An error occured while uploading the chart to " ++ Js.dq
                      ++ server_url (source request) ++ Js.dq ++ " : " ++ Js.dq
                      ++ Js.Z_to_string (Response.status postResult) ++ " - "
                      ++ Response.statusText postResult ++ Js.dq ++ "." ++ Js.nl) ;;
        exit (Response.status postResult)) ;;
  postResultJson <- await "json" EmptyString (Response.json postResult) ;;
  (if not_nullish (UploadReply.error postResultJson) then
     stderr_write ("An error occured while uploading the chart: " ++ Js.dq
                   ++ JsVal_toString (UploadReply.error postResultJson) ++ Js.dq
                   ++ "." ++ Js.nl) ;;
     exit 602
   else if strict_neq_true (UploadReply.saved postResultJson) then
     stderr_write ("Helm chart has not been saved. (Return value from server: saved="
                   ++ JsVal_toString (UploadReply.saved postResultJson) ++ ")" ++ Js.nl) ;;
     exit 603
   else ret tt) ;;
  stderr_write ("Helm Chart has been uploaded." ++ Js.nl) ;;
  stderr_write ("- Name: " ++ chart_name (source request) ++ Js.nl) ;;
  stderr_write ("- Version: " ++ tpl version ++ Js.nl ++ Js.nl).

(** [chartJson.metadata.x] needs [chartJson.metadata]. *)
Definition metadata_of (chartJson : ChartJson.t) : M ChartJson.meta :=
  match ChartJson.metadata chartJson with
  | Some m => ret m
  | None => throw (TypeError "chartJson.metadata")
  end.

Definition entry (name : string) (value : option string) : OutResponse.entry :=
  {| OutResponse.name := name; OutResponse.value := value |}.

(** out.ts 359-393: the response of each dialect. *)
Definition harbor_response (chartJson : ChartJson.t) (m : ChartJson.meta) : OutResponse.t :=
  {| OutResponse.version_of :=
       {| OutResponse.version := ChartJson.m_version m;
          OutResponse.digest := ChartJson.m_digest m |};
     OutResponse.metadata :=
       [ entry "created" (ChartJson.m_created m);
         entry "description" (ChartJson.m_description m);
         entry "appVersion" (ChartJson.appVersion chartJson) ] |}.

Definition plain_response (chartJson : ChartJson.t) : OutResponse.t :=
  {| OutResponse.version_of :=
       {| OutResponse.version := ChartJson.version chartJson;
          OutResponse.digest := ChartJson.digest chartJson |};
     OutResponse.metadata :=
       [ entry "created" (ChartJson.created chartJson);
         entry "description" (ChartJson.description chartJson);
         entry "appVersion" (ChartJson.appVersion chartJson);
         entry "home" (ChartJson.home chartJson);
         entry "tillerVersion" (ChartJson.tillerVersion chartJson) ] |}.

Definition mismatch_message (got expected : option string) : string :=
  "Version mismatch in uploaded Helm Chart. Got: " ++ tpl got ++ ", expected: "
  ++ tpl expected ++ "." ++ Js.nl.

(** out.ts 331-393: the metadata of the uploaded chart is fetched and
    compared, and the response is built. *)
Definition verify_upload (request : OutRequest) (agent : Agent) (version : option string)
           (cleanup : option string) : M OutResult :=
  let headers := createFetchHeaders (base64 w) request in
  let chartInfoUrl := server_url (source request) ++ "/" ++ chart_name (source request)
                      ++ "/" ++ tpl version in
  stderr_write ("Fetching chart data from " ++ Js.dq ++ chartInfoUrl ++ Js.dq ++ "..." ++ Js.nl) ;;
  emit (EGet chartInfoUrl agent headers) ;;
  chartResp <- await "fetch" chartInfoUrl (fetch_get w chartInfoUrl agent headers) ;;
  when (negb (Response.ok chartResp))
       (stderr_write ("Download of chart information failed." ++ Js.nl) ;;
        stderr_write (Response.text chartResp) ;;
        exit 710) ;;
  chartJson <- await "json" EmptyString (Response.json chartResp) ;;
  (if is_true (harbor_api (source request)) then
     m <- metadata_of chartJson ;;
     when (loose_neq version (ChartJson.m_version m))
          (stderr_write (mismatch_message (ChartJson.m_version m) version) ;;
           exit 203)
   else
     when (loose_neq version (ChartJson.version chartJson))
          (stderr_write (mismatch_message (ChartJson.version chartJson) version) ;;
           exit 203)) ;;
  if is_true (harbor_api (source request)) then
    m <- metadata_of chartJson ;;
    ret {| data := harbor_response chartJson m; cleanupCallback := cleanup |}
  else
    ret {| data := plain_response chartJson; cleanupCallback := cleanup |}.

(** out.ts 127-395: everything after the range check. *)
Definition publish (root : string) (request : OutRequest) (headers : Headers)
           (agent : Agent) (version : option string) : M OutResult :=
  register_dependencies root request ;;
  '(chartFile, chartFileStat, cleanup) <- package_chart root request version ;;
  version <- inspect_chart chartFile version ;;
  let '(headers, body) := upload_payload request headers chartFile chartFileStat in
  upload_chart request agent headers body chartFile version ;;
  verify_upload request agent version cleanup.

(** The working directory [out] descends into (out.ts 91). *)
Definition root_of : string :=
  path_resolve w (cwd w) [nth 2 (argv w) "undefined"].

(** [out] (out.ts 82-395) *)
Definition out : M OutResult :=
  when (negb (List.length (argv w) =? 3)%nat)
       (stderr_write ("Expected exactly one argument (root), got "
                      ++ Js.Z_to_string (Z.of_nat (List.length (argv w)) - 2) ++ "." ++ Js.nl) ;;
        exit 102) ;;
  let root := root_of in
  emit (EChdir root) ;;
  request <- match stdin_request w with
             | Some request => ret request
             | None =>
                 stderr_write ("Unable to retrieve JSON data from stdin." ++ Js.nl) ;;
                 emit (EStderrJson 1 (NodeError "JSON.parse" EmptyString)) ;;
                 exit 502
             end ;;
  let headers := createFetchHeaders (base64 w) request in
  let agent := createFetchAgent request in
  version <- resolve_version root request ;;
  check_version_range request version ;;
  publish root request headers agent version.

(** The top-level wrapper (out.ts 397-415): the effects of the whole
    process and its exit code. *)
Definition main : list Event * Z :=
  match out [] with
  | (log, Ok result) =>
      ((log
          ++ match cleanupCallback result with
             | Some _ => [EStderr ("Cleaning up..." ++ Js.nl)]
             | None => []
             end
          ++ [EStdout (data result)])%list, 0%Z)
  | (log, Exit code) => (log, code)
  | (log, Throw e) =>
      ((log ++ [EStderr (Js.nl ++ Js.nl ++ "An unexpected error occured." ++ Js.nl);
                EStderrJson 1 e])%list, 1%Z)
  end.

End Program.

(* ================================================================== *)
(** ** Reading the log *)

Definition is_subprocess (e : Event) : bool :=
  match e with
  | EExec _ | ESpawn _ _ _ => true
  | _ => false
  end.

Definition is_network (e : Event) : bool :=
  match e with
  | EPost _ _ _ _ | EGet _ _ _ => true
  | _ => false
  end.

(** The key import and what surrounds it: the keyring directory and the
    [gpg] process. *)
Definition is_signing (e : Event) : bool :=
  match e with
  | ESpawn _ _ _ | EMkdtemp _ | EDeltree _ => true
  | _ => false
  end.

Definition remove_dir (p : string) (dirs : list string) : list string :=
  filter (fun d => negb (String.eqb d p)) dirs.

(** The directories made by [mkdtemp] that are on disk after one more
    effect. *)
Definition keyring_step (dirs : list string) (e : Event) : list string :=
  match e with
  | EMkdtemp p => p :: dirs
  | EDeltree p => remove_dir p dirs
  | _ => dirs
  end.

(** The keyring directories on disk after the effects of [log]. *)
Definition keyrings (log : list Event) : list string :=
  fold_left keyring_step log [].

(** No command was run through [exec] while a keyring directory was on
    disk; [dirs] are the directories on disk before [log]. *)
Fixpoint exec_without_keyring (dirs : list string) (log : list Event) : bool :=
  match log with
  | [] => true
  | e :: rest =>
      match e with
      | EExec _ => match dirs with [] => true | _ => false end
      | _ => true
      end && exec_without_keyring (keyring_step dirs e) rest
  end.

(* ================================================================== *)
(** ** The claims' wording, where it differs from the code *)

(** The version-file rule as worded: the trimmed contents of the file. *)
Definition spec_version_from_file (content : string) : string := Js.trim content.

(** The identifier rule as worded: the first line that matches the pattern,
    and its captured identifier. *)
Fixpoint spec_first_matching_line (lines : list string) : option string :=
  match lines with
  | [] => None
  | l :: rest =>
      match key_id_of_line l with
      | Some id => Some id
      | None => spec_first_matching_line rest
      end
  end.

Definition spec_key_identifier (importResult : string) : option string :=
  spec_first_matching_line (Js.split_lines importResult).

(** A request's parameters with other [version] and [version_file]. *)
Definition with_version (v vf : option string) (p : Params.t) : Params.t :=
  {| Params.chart := Params.chart p;
     Params.sign := Params.sign p;
     Params.key_data := Params.key_data p;
     Params.key_file := Params.key_file p;
     Params.key_passphrase := Params.key_passphrase p;
     Params.version := v;
     Params.version_file := vf;
     Params.force := Params.force p;
     Params.dependency_update := Params.dependency_update p;
     Params.dependency_repos := Params.dependency_repos p |}.

(* ================================================================== *)
(** ** Concrete invocations *)

Module Sample.

(** [path.resolve] on the segments the samples use: an absolute segment
    restarts the path, a relative one is appended. *)
Definition resolve (cwd : string) (segments : list string) : string :=
  fold_left (fun acc seg => if Js.startsWith "/" seg then seg else acc ++ "/" ++ seg)
            segments cwd.

(** [path.basename] of a path that does not end in a slash. *)
Fixpoint basename (p : string) : string :=
  match p with
  | EmptyString => EmptyString
  | String c rest =>
      if Js.includes "/" rest then basename rest
      else if Ascii.eqb c "/"%char then rest else p
  end.

(** [semver.satisfies] on the versions and ranges the samples use: a
    version that does not begin with a digit is not parsed; the ranges are
    a caret range on major version 1, the wildcard, and an exact version. *)
Definition satisfies (v range : string) : option bool :=
  match v with
  | String c _ =>
      if (("0" <=? c) && (c <=? "9"))%char then
        Some (if String.eqb range "^1.0.0" then Js.startsWith "1." v
              else if String.eqb range "*" then true
              else String.eqb v range)
      else None
  | EmptyString => Some false
  end.

Definition repo : Repository :=
  {| server_url := "https://charts.example.com/api/charts";
     basic_auth_username := None;
     basic_auth_password := None;
     tls_ca_cert := None;
     tls_client_cert := None;
     tls_client_key := None |}.

Definition src (range : option string) (harbor : option bool) : Source :=
  {| repository := repo;
     chart_name := "demo";
     version_range := range;
     harbor_api := harbor |}.

(** Only [chart] is set. *)
Definition params_of (chart : string) : Params.t :=
  {| Params.chart := chart;
     Params.sign := None;
     Params.key_data := None;
     Params.key_file := None;
     Params.key_passphrase := None;
     Params.version := None;
     Params.version_file := None;
     Params.force := None;
     Params.dependency_update := None;
     Params.dependency_repos := None |}.

Definition with_sign (data file : option string)
           (repos : option (list (string * Repository))) (p : Params.t) : Params.t :=
  {| Params.chart := Params.chart p;
     Params.sign := Some true;
     Params.key_data := data;
     Params.key_file := file;
     Params.key_passphrase := None;
     Params.version := Params.version p;
     Params.version_file := Params.version_file p;
     Params.force := Params.force p;
     Params.dependency_update := Params.dependency_update p;
     Params.dependency_repos := repos |}.

Definition file_stats (n : N) : Stats := {| kind := RegularFile; size := n |}.
Definition dir_stats : Stats := {| kind := Directory; size := 4096 |}.

(** The working tree: a chart directory, a packaged chart, version
    files, a key file, and the archive that packaging leaves in the first
    temporary directory. *)
Definition lstat (path : string) : option Stats :=
  if String.eqb path "/work/chart" then Some dir_stats
  else if String.eqb path "/work/demo-1.0.0.tgz" then Some (file_stats 2048)
  else if String.eqb path "/work/version" then Some (file_stats 6)
  else if String.eqb path "/work/version-padded" then Some (file_stats 7)
  else if String.eqb path "/work/versions" then Some dir_stats
  else if String.eqb path "/work/key.asc" then Some (file_stats 3000)
  else if String.eqb path "/tmp/tmp-0/demo-1.0.0.tgz" then Some (file_stats 2048)
  else None.

Definition readFile (path : string) : option string :=
  if String.eqb path "/work/version" then Some ("1.0.0" ++ Js.nl)
  else if String.eqb path "/work/version-padded" then Some ("1.0.0" ++ Js.nl ++ Js.nl)
  else None.

Definition yaml (path : string) : option ChartInfo.t :=
  if String.eqb path "/work/chart/Chart.yaml"
  then Some {| ChartInfo.name := "demo"; ChartInfo.version := "1.0.0" |}
  else None.

Definition tmp (n : nat) : option string :=
  Some ("/tmp/tmp-" ++ NilZero.string_of_uint (Nat.to_uint n)).

Definition mkdtemp (prefix : string) : string := prefix ++ "k3Yr1n".

(** [helm inspect chart] reports version 1.0.0; every other command
    succeeds silently. *)
Definition run (cmd : string) : ExecResult :=
  if Js.startsWith "helm inspect chart " cmd
  then ExecOk ("name: demo" ++ Js.nl ++ "version: 1.0.0" ++ Js.nl) (Some EmptyString)
  else ExecOk EmptyString (Some EmptyString).

Definition gpg_imported : GpgRun :=
  {| gpg_stdout := [];
     gpg_stderr := "gpg: keybox created" ++ Js.nl
                   ++ "gpg: key 1A2B3C4D: secret key imported" ++ Js.nl;
     gpg_code := Some 0%Z |}.

(** An import that exits with code 0 and reports nothing parseable. *)
Definition gpg_silent : GpgRun :=
  {| gpg_stdout := ["chunk"];
     gpg_stderr := "gpg: Total number processed: 1" ++ Js.nl;
     gpg_code := Some 0%Z |}.

Definition gpg_failed : GpgRun :=
  {| gpg_stdout := [];
     gpg_stderr := "gpg: no valid OpenPGP data found." ++ Js.nl;
     gpg_code := Some 2%Z |}.

Definition reply (status : Z) (error saved : JsVal) : Response.t UploadReply.t :=
  {| Response.status := status;
     Response.statusText := "Created";
     Response.text := EmptyString;
     Response.json := Some {| UploadReply.error := error; UploadReply.saved := saved |} |}.

Definition created : Response.t UploadReply.t := reply 201 JsUndefined (JsBool true).

(** The metadata of demo 1.0.0 in both shapes. *)
Definition chart_json (v : string) : ChartJson.t :=
  {| ChartJson.metadata :=
       Some {| ChartJson.m_version := Some v;
               ChartJson.m_digest := Some "sha256:0f";
               ChartJson.m_created := Some "2019-01-01T00:00:00Z";
               ChartJson.m_description := Some "A demo chart" |};
     ChartJson.version := Some v;
     ChartJson.digest := Some "sha256:0f";
     ChartJson.created := Some "2019-01-01T00:00:00Z";
     ChartJson.description := Some "A demo chart";
     ChartJson.appVersion := Some "3.1";
     ChartJson.home := Some "https://example.com";
     ChartJson.tillerVersion := None |}.

Definition metadata_reply (v : string) : Response.t ChartJson.t :=
  {| Response.status := 200;
     Response.statusText := "OK";
     Response.text := EmptyString;
     Response.json := Some (chart_json v) |}.

(** An invocation [out /work] with the given request, [gpg] run, upload
    reply and published version.  The requests carry no credentials, so
    the base64 encoder is never called. *)
Definition world (request : OutRequest) (g : GpgRun)
           (posted : Response.t UploadReply.t) (published : string) : World :=
  {| argv := ["node"; "/opt/resource/out"; "/work"];
     cwd := "/";
     stdin_request := Some request;
     path_resolve := resolve;
     path_basename := basename;
     os_tmpdir := "/tmp";
     base64 := fun s => s;
     semver_satisfies := satisfies;
     fs_lstat := lstat;
     fs_readFile := readFile;
     yaml_load := yaml;
     tmp_dir := tmp;
     fs_mkdtemp := mkdtemp;
     rimraf := fun _ => true;
     exec := run;
     gpg := fun _ _ => Closed g;
     fetch_post := fun _ _ _ _ => Some posted;
     fetch_get := fun _ _ _ => Some (metadata_reply published) |}.

Definition request_of (range : option string) (harbor : option bool) (p : Params.t)
  : OutRequest :=
  {| source := src range harbor; params := p |}.

(** Scenario 1 and 2: a chart directory, no version override, no
    signing. *)
Definition plain_dir : World :=
  world (request_of None None (params_of "chart")) gpg_imported created "1.0.0".

Definition harbor_dir : World :=
  world (request_of None (Some true) (params_of "chart")) gpg_imported created "1.0.0".

End Sample.

(* ================================================================== *)
(** ** Statements about computations *)

(** [m] keeps an invariant of the log. *)
Definition preserves (I : list Event -> Prop) {A} (m : M A) : Prop :=
  forall log, I log -> I (fst (m log)).

(** The keyring discipline of a log: no keyring directory is left, and no
    command ran while one existed. *)
Definition keyring_discipline (log : list Event) : Prop :=
  keyrings log = [] /\ exec_without_keyring [] log = true.

(** [path.resolve] leaves the absolute path that [mkdtemp] returns as it
    is. *)
Definition keyring_path_resolved (w : World) : Prop :=
  let created := fs_mkdtemp w (resolve w (root_of w) [os_tmpdir w; "concourse-gpg-keyring-"]) in
  resolve w (root_of w) [created] = created.

(** The invocation whose request carries no [version_file]. *)
Definition without_version_file (w : World) : World :=
  {| argv := argv w;
     cwd := cwd w;
     stdin_request :=
       match stdin_request w with
       | Some request =>
           Some {| source := source request;
                   params := with_version (Params.version (params request)) None
                                                 (params request) |}
       | None => None
       end;
     path_resolve := path_resolve w;
     path_basename := path_basename w;
     os_tmpdir := os_tmpdir w;
     base64 := base64 w;
     semver_satisfies := semver_satisfies w;
     fs_lstat := fs_lstat w;
     fs_readFile := fs_readFile w;
     yaml_load := yaml_load w;
     tmp_dir := tmp_dir w;
     fs_mkdtemp := fs_mkdtemp w;
     rimraf := rimraf w;
     exec := exec w;
     gpg := gpg w;
     fetch_post := fetch_post w;
     fetch_get := fetch_get w |}.

(** The line the [close] handler of [importGpgKey] picks. *)
Definition first_import_line (importResult : string) : option string :=
  find (Js.includes "secret key imported") (Js.split_lines importResult).

(** The three rejections of [importGpgKey]. *)
Definition import_failed (code : option Z) : Thrown :=
  JsError ("gpg import returned exit code "
           ++ match code with Some c => Js.Z_to_string c | None => "null" end
           ++ ".").

Definition line_not_found : Thrown :=
  JsString "Unable to determine Key ID after successful import: Line with key ID not found.".

Definition regex_match_failure : Thrown :=
  JsString "Unable to determine Key ID after successful import: Regex match failure.".

(** An import of a key whose user name is the words secret key imported:
    the line about its public part comes first. *)
Definition two_line_import : string :=
  "gpg: key 1A2B3C4D: public key " ++ Js.dq ++ "secret key imported" ++ Js.dq
  ++ " imported" ++ Js.nl
  ++ "gpg: key 1A2B3C4D: secret key imported" ++ Js.nl.

(** The version [out] knows before packaging, or how resolving it ended. *)
Definition version_before_packaging (w : World) (request : OutRequest)
  : Outcome (option string) :=
  snd (resolve_version w (root_of w) request []).

(** The message of the range check (out.ts 122). *)
Definition range_violation (v versionRange : string) : string :=
  "params.version (" ++ v ++ ") does not satisfy contents of source.version_range ("
  ++ versionRange ++ ")." ++ Js.nl.

(** Invocations that name a version file: one whose file ends in two line
    breaks, one whose file does not exist, and one that names a
    directory.  [version] is set as well. *)
Definition version_file_world (version_file : string) : World :=
  Sample.world
    (Sample.request_of None None
       (with_version (Some "1.2.3") (Some version_file) (Sample.params_of "chart")))
    Sample.gpg_imported Sample.created "1.0.0".

(** Scenario 3: version 2.0.0 against the range ^1.0.0. *)
Definition out_of_range_world : World :=
  Sample.world
    (Sample.request_of (Some "^1.0.0") None
       (with_version (Some "2.0.0") None (Sample.params_of "chart")))
    Sample.gpg_imported Sample.created "1.0.0".

Definition in_range_world : World :=
  Sample.world
    (Sample.request_of (Some "^1.0.0") None
       (with_version (Some "1.0.0") None (Sample.params_of "chart")))
    Sample.gpg_imported Sample.created "1.0.0".

(** Scenario 5: the server answers 201 with [saved] false; and a server
    that answers 409, and one that answers 201 with an [error]. *)
Definition upload_world (posted : Response.t UploadReply.t) : World :=
  Sample.world (Sample.request_of None None (Sample.params_of "chart"))
               Sample.gpg_imported posted "1.0.0".

(** A server that publishes the chart under another version than the
    uploaded one, in either dialect. *)
Definition renamed_world (harbor : option bool) : World :=
  Sample.world (Sample.request_of None harbor (Sample.params_of "chart"))
               Sample.gpg_imported Sample.created "1.0.1".

(** The first effects of [verify_upload]. *)
Definition fetching (request : OutRequest) (agent : Agent) (headers : Headers)
           (version : option string) : list Event :=
  let chartInfoUrl := server_url (source request) ++ "/" ++ chart_name (source request)
                      ++ "/" ++ tpl version in
  [EStderr ("Fetching chart data from " ++ Js.dq ++ chartInfoUrl ++ Js.dq ++ "..." ++ Js.nl);
   EGet chartInfoUrl agent headers].

(** The arguments [importGpgKey] hands to [gpg]. *)
Definition gpg_args (w : World) (root gpgHome keyFile : string) : list string :=
  ["--batch"; "--homedir"; Js.dq ++ resolve w root [gpgHome] ++ Js.dq;
   "--import"; Js.dq ++ resolve w root [keyFile] ++ Js.dq].

(** The key file the signing step imports: inline key data is written
    into the packaging directory and wins over [key_file]. *)
Definition signing_key_file (w : World) (root : string) (request : OutRequest)
           (tmpDir : string) : string :=
  match Params.key_data (params request) with
  | Some _ => resolve w root [tmpDir; "gpg-key.asc"]
  | None => tpl (Params.key_file (params request))
  end.

(** The keyring directory as [mkdtemp] returns it. *)
Definition keyring_created (w : World) (root : string) : string :=
  fs_mkdtemp w (resolve w root [os_tmpdir w; "concourse-gpg-keyring-"]).

(** The [gpg] child of the signing step. *)
Definition signing_run (w : World) (root : string) (request : OutRequest)
           (tmpDir : string) : Spawned :=
  gpg w (gpg_args w root (resolve w root [keyring_created w root])
                  (signing_key_file w root request tmpDir))
      (Params.key_passphrase (params request)).

(** The effects of the signing step once a key is at hand, up to the spawn
    of [gpg]. *)
Definition sign_start (w : World) (root : string) (request : OutRequest)
           (tmpDir : string) : list Event :=
  let keyFile := signing_key_file w root request tmpDir in
  let gpgHome := resolve w root [keyring_created w root] in
  (match Params.key_data (params request) with
   | Some keyData => [EWriteFile keyFile keyData]
   | None => []
   end
   ++ [EMkdtemp (keyring_created w root);
       EStderr ("Using new empty temporary GNUPGHOME: " ++ Js.dq ++ gpgHome ++ Js.dq
                ++ "." ++ Js.nl);
       EStderr ("Importing GPG private key: " ++ Js.dq ++ keyFile ++ Js.dq ++ "..." ++ Js.nl);
       ESpawn "gpg" (gpg_args w root gpgHome keyFile) (Params.key_passphrase (params request))])%list.

(** Its effects from the [close] event of the child [run] up to the
    announcement of the removal. *)
Definition sign_close (w : World) (root : string) (request : OutRequest)
           (tmpDir : string) (run : GpgRun) : list Event :=
  let keyFile := signing_key_file w root request tmpDir in
  let gpgHome := resolve w root [keyring_created w root] in
  (map EStderrChunk (gpg_stdout run)
   ++ match import_close (gpg_code run) (gpg_stderr run) with
      | inr keyId =>
          [EStderr ("GPG key imported successfully. Key ID: " ++ Js.dq ++ keyId ++ Js.dq
                    ++ "." ++ Js.nl)]
      | inl _ =>
          [EStderr ("Importing of GPG key " ++ Js.dq ++ keyFile ++ Js.dq ++ " failed." ++ Js.nl);
           EStderr ("Signing of chart with GPG private key failed" ++ Js.nl)]
      end
   ++ [EStderr ("Removing temporary GNUPGHOME " ++ Js.dq ++ gpgHome ++ Js.dq ++ "." ++ Js.nl)])%list.

(** All effects of the signing step once a key is at hand. *)
Definition sign_events (w : World) (root : string) (request : OutRequest)
           (tmpDir : string) : list Event :=
  let gpgHome := resolve w root [keyring_created w root] in
  (sign_start w root request tmpDir
   ++ match signing_run w root request tmpDir with
      | NotStarted report => [EStderr report]
      | Closed run =>
          sign_close w root request tmpDir run
          ++ if rimraf w gpgHome then [EDeltree gpgHome] else []
      end)%list.

(** How the signing step ends once a key is at hand: with the packaging
    command [cmd] and the signing switches, or not. *)
Definition sign_outcome (w : World) (root : string) (request : OutRequest)
           (tmpDir : string) (cmd : list string) : Outcome (list string) :=
  let gpgHome := resolve w root [keyring_created w root] in
  match signing_run w root request tmpDir with
  | NotStarted _ => Exit 1%Z
  | Closed run =>
      if rimraf w gpgHome then
        match import_close (gpg_code run) (gpg_stderr run) with
        | inr keyId =>
            Ok (cmd ++ ["--sign"; "--key"; keyId; "--keyring";
                        (Js.dq ++ resolve w root [gpgHome; "secring.gpg"] ++ Js.dq)%string])%list
        | inl e => Throw e
        end
      else Throw (NodeError "rimraf" gpgHome)
  end.

Definition is_exec (e : Event) : bool :=
  match e with
  | EExec _ => true
  | _ => false
  end.

Definition is_keyring_change (e : Event) : bool :=
  match e with
  | EMkdtemp _ | EDeltree _ => true
  | _ => false
  end.

(** Requests that ask for a signature: a chart directory with inline key
    data, whose import succeeds or reports no key; a packaged chart; both
    kinds of key at once; and no key at all, with a dependency repository. *)
Definition signing_world (g : GpgRun) : World :=
  Sample.world
    (Sample.request_of None None
       (Sample.with_sign (Some "KEY") None None (Sample.params_of "chart")))
    g Sample.created "1.0.0".

Definition signed_file_world : World :=
  Sample.world
    (Sample.request_of None None
       (Sample.with_sign (Some "KEY") None None (Sample.params_of "demo-1.0.0.tgz")))
    Sample.gpg_imported Sample.created "1.0.0".

Definition both_keys_world : World :=
  Sample.world
    (Sample.request_of None None
       (Sample.with_sign (Some "KEY") (Some "key.asc") None (Sample.params_of "chart")))
    Sample.gpg_imported Sample.created "1.0.0".

Definition no_key_world : World :=
  Sample.world
    (Sample.request_of None None
       (Sample.with_sign None None (Some [("stable", Sample.repo)])
                         (Sample.params_of "chart")))
    Sample.gpg_imported Sample.created "1.0.0".

(** A packaged chart of version 1.0.0 offered with [version] 2.0.0. *)
Definition other_version_world : World :=
  Sample.world
    (Sample.request_of None None
       (with_version (Some "2.0.0") None (Sample.params_of "demo-1.0.0.tgz")))
    Sample.gpg_imported Sample.created "1.0.0".

(** Effects that neither run a command nor make or remove a keyring. *)
Definition quiet (e : Event) : bool := negb (is_exec e) && negb (is_keyring_change e).

(** The number of temporary directories made so far, as [createTmpDir]
    counts them. *)
Definition tmp_dirs_made (log : list Event) : nat :=
  List.length (filter (fun e => match e with ETmpDir _ => true | _ => false end) log).

(** The message of the missing key (out.ts 206). *)
Definition missing_key : string :=
  "Either key_data or key_file must be specified, when 'sign' is set to true.".

(* ================================================================== *)
(** ** Orders of effects in a log *)

Definition is_stdout (e : Event) : bool :=
  match e with
  | EStdout _ => true
  | _ => false
  end.

Definition is_post (e : Event) : bool :=
  match e with
  | EPost _ _ _ _ => true
  | _ => false
  end.

Definition is_get (e : Event) : bool :=
  match e with
  | EGet _ _ _ => true
  | _ => false
  end.

(** Effects on the machine [out] runs on: the working directory, files,
    directories and child processes. *)
Definition is_local_effect (e : Event) : bool :=
  match e with
  | EChdir _ | EWriteFile _ _ | ETmpDir _ | EMkdtemp _ | EDeltree _
  | EExec _ | ESpawn _ _ _ => true
  | _ => false
  end.

(** No [later] effect comes after a [first] one; [seen] tells whether a
    [first] effect came before [log]. *)
Fixpoint never_after (first later : Event -> bool) (seen : bool) (log : list Event) : bool :=
  match log with
  | [] => true
  | e :: rest =>
      negb (seen && later e) && never_after first later (seen || first e) rest
  end.

(** Every [needs] effect comes after some [trigger] effect. *)
Fixpoint only_after (trigger needs : Event -> bool) (seen : bool) (log : list Event) : bool :=
  match log with
  | [] => true
  | e :: rest =>
      (if needs e then seen else true) && only_after trigger needs (seen || trigger e) rest
  end.

(** A POST that the server answered with 201, no [error] and [saved]
    true. *)
Definition accepted_post (w : World) (e : Event) : bool :=
  match e with
  | EPost url agent headers body =>
      match fetch_post w url agent headers body with
      | Some postResult =>
          (Response.status postResult =? 201)%Z
          && match Response.json postResult with
             | Some reply =>
                 negb (not_nullish (UploadReply.error reply))
                 && negb (strict_neq_true (UploadReply.saved reply))
             | None => false
             end
      | None => false
      end
  | _ => false
  end.

(** How many effects of a log pass [p]. *)
Definition count_of (p : Event -> bool) (log : list Event) : nat :=
  List.length (filter p log).

(** [m], started on a log with [P], ends on a log with [Q], however it
    ends. *)
Definition triple (P : list Event -> Prop) {A} (m : M A) (Q : list Event -> Prop) : Prop :=
  forall log, P log -> Q (fst (m log)).

(** All effects of a log pass [ok]. *)
Definition all_ok (ok : Event -> bool) (log : list Event) : Prop :=
  forallb ok log = true.

(** A report of several lines, each ended by a line feed, before the text
    [last]. *)
Definition report (lines : list string) (last : string) : string :=
  fold_right (fun line text => line ++ Js.nl ++ text) last lines.

(** A report of [helm inspect chart]. *)
Definition sample_report : string :=
  report ["apiVersion: v1"; "appVersion: 3.1"; "name: demo"]
         ("version:" ++ "  " ++ "1.0.0-rc.1 " ++ Js.nl ++ "home: https://example.com").

(** An invocation with other arguments and another standard input. *)
Definition with_process (arguments : list string) (stdin : option OutRequest) (w : World)
  : World :=
  {| argv := arguments;
     cwd := cwd w;
     stdin_request := stdin;
     path_resolve := path_resolve w;
     path_basename := path_basename w;
     os_tmpdir := os_tmpdir w;
     base64 := base64 w;
     semver_satisfies := semver_satisfies w;
     fs_lstat := fs_lstat w;
     fs_readFile := fs_readFile w;
     yaml_load := yaml_load w;
     tmp_dir := tmp_dir w;
     fs_mkdtemp := fs_mkdtemp w;
     rimraf := rimraf w;
     exec := exec w;
     gpg := gpg w;
     fetch_post := fetch_post w;
     fetch_get := fetch_get w |}.

(** The messages of the two failures at the start of [out] (out.ts 88, 98). *)
Definition wrong_arguments (w : World) : string :=
  "Expected exactly one argument (root), got "
  ++ Js.Z_to_string (Z.of_nat (List.length (argv w)) - 2) ++ "." ++ Js.nl.

Definition no_request : string := "Unable to retrieve JSON data from stdin." ++ Js.nl.

(** A chart directory that declares version 1.0.0, no version override,
    and the range ^2.0.0. *)
Definition declared_out_of_range_world : World :=
  Sample.world (Sample.request_of (Some "^2.0.0") None (Sample.params_of "chart"))
               Sample.gpg_imported Sample.created "1.0.0".

(** A repository as the registrar reads it: a user name without password,
    a password without user name, a client certificate without key and a
    key without certificate are left out. *)
Definition paired_only (repo : Repository) : Repository :=
  let credentials := match basic_auth_username repo, basic_auth_password repo with
                     | Some _, Some _ => true
                     | _, _ => false
                     end in
  let client := match tls_client_cert repo, tls_client_key repo with
                | Some _, Some _ => true
                | _, _ => false
                end in
  {| server_url := server_url repo;
     basic_auth_username := if credentials then basic_auth_username repo else None;
     basic_auth_password := if credentials then basic_auth_password repo else None;
     tls_ca_cert := tls_ca_cert repo;
     tls_client_cert := if client then tls_client_cert repo else None;
     tls_client_key := if client then tls_client_key repo else None |}.

(** The packaging command, complete (out.ts 238-241). *)
Definition package_command (version : option string) (chartLocation : string)
           (cmd : list string) : string :=
  Js.join " " ((match version with
                | Some v => cmd ++ ["--version"; v]
                | None => cmd
                end) ++ [chartLocation])%list.

(** The archive that packaging is expected to leave (out.ts 252). *)
Definition expected_archive (w : World) (root : string) (version : option string)
           (chartInfo : ChartInfo.t) (tmpDir : string) : string :=
  resolve w root [tmpDir;
                  ChartInfo.name chartInfo ++ "-"
                  ++ match version with
                     | Some v => v
                     | None => ChartInfo.version chartInfo
                     end
                  ++ ".tgz"].

(** The diagnostics of a failed command: its own text, if it has any,
    and then [message]. *)
Definition failure_report (stderr : option string) (message : string) : list Event :=
  (match stderr with
   | Some text => [EStderr (text ++ Js.nl)]
   | None => []
   end ++ [EStderr (message ++ Js.nl)])%list.

(** An invocation on another network: what the POST and the GET are
    answered with. *)
Definition with_network (posted : option (Response.t UploadReply.t))
           (fetched : option (Response.t ChartJson.t)) (w : World) : World :=
  {| argv := argv w;
     cwd := cwd w;
     stdin_request := stdin_request w;
     path_resolve := path_resolve w;
     path_basename := path_basename w;
     os_tmpdir := os_tmpdir w;
     base64 := base64 w;
     semver_satisfies := semver_satisfies w;
     fs_lstat := fs_lstat w;
     fs_readFile := fs_readFile w;
     yaml_load := yaml_load w;
     tmp_dir := tmp_dir w;
     fs_mkdtemp := fs_mkdtemp w;
     rimraf := rimraf w;
     exec := exec w;
     gpg := gpg w;
     fetch_post := fun _ _ _ _ => posted;
     fetch_get := fun _ _ _ => fetched |}.

(** The URL of the upload (out.ts 296-299). *)
Definition post_url (request : OutRequest) : string :=
  if is_true (Params.force (params request))
  then server_url (source request) ++ "?force=true"
  else server_url (source request).

(** The first effects of [upload_chart]. *)
Definition uploading (request : OutRequest) (agent : Agent) (headers : Headers)
           (body : Body) (chartFile : string) : list Event :=
  [EStderr ("Uploading chart file: " ++ Js.dq ++ chartFile ++ Js.dq ++ "..." ++ Js.nl);
   EPost (post_url request) agent headers body].

(** A reply without a body that decodes, and a reply 404 with a text. *)
Definition undecodable {J : Type} (status : Z) (text : string) : Response.t J :=
  {| Response.status := status;
     Response.statusText := EmptyString;
     Response.text := text;
     Response.json := None |}.

(* ================================================================== *)
(** ** The end of the process *)

(** The exit status the parent process receives: the low eight bits of the
    code the process ends with. *)
Definition exit_status (code : Z) : Z := code mod 256.

(** The exit status of the whole invocation. *)
Definition process_status (w : World) : Z := exit_status (snd (main w)).

(** [m], started on a log with [I], keeps [I] when it returns, and leaves
    [E] when it ends the process ([inl code]) or throws ([inr e]). *)
Definition ends (I : list Event -> Prop) (E : list Event -> Z + Thrown -> Prop)
           {A} (m : M A) : Prop :=
  forall log, I log ->
    match m log with
    | (log', Ok _) => I log'
    | (log', Exit code) => E log' (inl code)
    | (log', Throw e) => E log' (inr e)
    end.

(** How a log is left when [out] does not return: no command ran while a
    keyring directory existed, and a keyring directory is on disk only
    because the [gpg] child could not be started, or because its removal
    was rejected. *)
Definition keyring_left (w : World) (log : list Event) (how : Z + Thrown) : Prop :=
  exec_without_keyring [] log = true
  /\ (keyrings log = []
      \/ exists g,
           keyrings log = [g]
           /\ match how with
              | inl code =>
                  code = 1%Z
                  /\ exists args stdin report,
                      In (ESpawn "gpg" args stdin) log
                      /\ gpg w args stdin = NotStarted report
              | inr e => e = NodeError "rimraf" g /\ rimraf w g = false
              end).

(** An invocation with another [gpg] child and another [rimraf]. *)
Definition with_signer (child : Spawned) (removable : bool) (w : World) : World :=
  {| argv := argv w;
     cwd := cwd w;
     stdin_request := stdin_request w;
     path_resolve := path_resolve w;
     path_basename := path_basename w;
     os_tmpdir := os_tmpdir w;
     base64 := base64 w;
     semver_satisfies := semver_satisfies w;
     fs_lstat := fs_lstat w;
     fs_readFile := fs_readFile w;
     yaml_load := yaml_load w;
     tmp_dir := tmp_dir w;
     fs_mkdtemp := fs_mkdtemp w;
     rimraf := fun _ => removable;
     exec := exec w;
     gpg := fun _ _ => child;
     fetch_post := fetch_post w;
     fetch_get := fetch_get w |}.

(** An invocation in which the commands run through [exec] end
    otherwise. *)
Definition with_exec (run : string -> ExecResult) (w : World) : World :=
  {| argv := argv w;
     cwd := cwd w;
     stdin_request := stdin_request w;
     path_resolve := path_resolve w;
     path_basename := path_basename w;
     os_tmpdir := os_tmpdir w;
     base64 := base64 w;
     semver_satisfies := semver_satisfies w;
     fs_lstat := fs_lstat w;
     fs_readFile := fs_readFile w;
     yaml_load := yaml_load w;
     tmp_dir := tmp_dir w;
     fs_mkdtemp := fs_mkdtemp w;
     rimraf := rimraf w;
     exec := run;
     gpg := gpg w;
     fetch_post := fetch_post w;
     fetch_get := fetch_get w |}.

(** A version that [semver] does not parse, against the range ^1.0.0. *)
Definition unparsable_version_world : World :=
  Sample.world
    (Sample.request_of (Some "^1.0.0") None
       (with_version (Some "latest") None (Sample.params_of "chart")))
    Sample.gpg_imported Sample.created "1.0.0".

(** A signing request on a machine without [gpg], and one on which the
    keyring directory cannot be removed. *)
Definition no_gpg_world : World :=
  with_signer (NotStarted "Error: spawn gpg ENOENT") true
              (signing_world Sample.gpg_imported).

Definition stuck_keyring_world : World :=
  with_signer (Closed Sample.gpg_imported) false (signing_world Sample.gpg_imported).

(** A machine on which [helm repo add] fails for the repository named
    broken. *)
Definition broken_repo_world : World :=
  with_exec (fun cmd => if Js.startsWith "helm repo add broken " cmd
                        then ExecFail (Some "Error: not a valid chart repository")
                        else exec Sample.plain_dir cmd)
            Sample.plain_dir.

(* ================================================================== *)
(** ** The [in] operation (in.ts)

    The script fetches the metadata of one chart version, downloads the
    archive and its provenance file, writes them with the metadata into
    the destination directory and prints the response.  It has one
    [process.exit]; a rejected [await] rejects the whole script.  The two
    branches of the source differ only in where the fields of the metadata
    are read; [download] is their common tail. *)

Module In.

(** [s.replace(pattern, empty)] with a string pattern: the first occurrence
    is removed. *)
Definition remove_first (pattern s : string) : string :=
  match Js.cut_at pattern s with
  | Some (before, after) => before ++ after
  | None => s
  end.

(** [interface InRequest]; [params] is tested against null by the
    script. *)
Module Request.
Record t := {
  source : Source;
  version : string;
  digest : string;
  params : option (option string)        (* params, and in it target_basename *)
}.
End Request.

(** The decoded metadata, with the fields the script reads. *)
Module Chart.
Record meta := {
  m_name : option string;
  m_version : option string;
  m_digest : option string;
  m_created : option string;
  m_description : option string
}.
Record t := {
  metadata : option meta;
  name : option string;
  version : option string;
  digest : option string;
  created : option string;
  description : option string;
  appVersion : option string;
  home : option string;
  tillerVersion : option string
}.
End Chart.

Record World := {
  argv : list string;
  cwd : string;
  stdin_request : option Request.t;                 (* None: JSON.parse throws *)
  path_resolve : string -> list string -> string;   (* working directory, segments *)
  base64 : string -> string;
  fetch : string -> Headers -> option (Response.t Chart.t)   (* None: rejects *)
}.

Inductive Effect :=
| Stderr (text : string)
| Fetch (url : string) (headers : Headers)
| WriteFile (path : string) (content : string)      (* a downloaded body *)
| WriteJson (path : string) (chartJson : Chart.t)    (* JSON.stringify(chartJson) *)
| Stdout (response : OutResponse.t).                (* JSON.stringify(response, null, 2) *)

Inductive End :=
| Finished
| Exited (code : Z)
| Rejected (e : Thrown).

(** [createFetchHeaders] (src/index.ts) on the request of [in]. *)
Definition createFetchHeaders (b64 : string -> string) (request : Request.t) : Headers :=
  if truthy (basic_auth_username (Request.source request))
     && truthy (basic_auth_password (Request.source request))
  then
    let basicAuthUsername := tpl (basic_auth_username (Request.source request)) in
    let basicAuthPassword := tpl (basic_auth_password (Request.source request)) in
    [("Authorization", "Basic " ++ b64 (basicAuthUsername ++ ":" ++ basicAuthPassword))]
  else [].

(** The name of the files, without extension. *)
Definition target_basename (request : Request.t) (default : string) : string :=
  match Request.params request with
  | Some (Some target_basename) => target_basename
  | _ => default
  end.

(** The tail of both branches: the two downloads, the three files and the
    response.  [done] are the effects so far. *)
Definition download (w : World) (destination : string) (request : Request.t)
           (headers : Headers) (chartJson : Chart.t) (targetBasename : string)
           (version : option string) (response : OutResponse.t) (done : list Effect)
  : list Effect * End :=
  let non_api_server_url := remove_first "api/" (server_url (Request.source request)) in
  let tgzUrl := non_api_server_url ++ "/" ++ chart_name (Request.source request) ++ "-"
                ++ tpl version ++ ".tgz" in
  match fetch w tgzUrl headers with
  | None => ((done ++ [Fetch tgzUrl headers])%list, Rejected (NodeError "fetch" tgzUrl))
  | Some tgzResp =>
      let provUrl := non_api_server_url ++ "/" ++ chart_name (Request.source request) ++ "-"
                     ++ tpl version ++ ".tgz.prov" in
      match fetch w provUrl headers with
      | None =>
          ((done ++ [Fetch tgzUrl headers;
                     WriteFile (path_resolve w (cwd w) [destination; (targetBasename ++ ".tgz")%string])
                               (Response.text tgzResp);
                     Fetch provUrl headers])%list,
           Rejected (NodeError "fetch" provUrl))
      | Some provResp =>
          ((done ++ [Fetch tgzUrl headers;
                     WriteFile (path_resolve w (cwd w) [destination; (targetBasename ++ ".tgz")%string])
                               (Response.text tgzResp);
                     Fetch provUrl headers;
                     WriteFile (path_resolve w (cwd w)
                                             [destination; (targetBasename ++ ".tgz.prov")%string])
                               (Response.text provResp);
                     WriteJson (path_resolve w (cwd w)
                                             [destination; (targetBasename ++ ".json")%string])
                               chartJson;
                     Stdout response])%list,
           Finished)
      end
  end.

(** The response of each dialect (in.ts 40-49, 72-84). *)
Definition harbor_response (m : Chart.meta) : OutResponse.t :=
  {| OutResponse.version_of :=
       {| OutResponse.version := Chart.m_version m;
          OutResponse.digest := Chart.m_digest m |};
     OutResponse.metadata :=
       [ entry "created" (Chart.m_created m);
         entry "description" (Chart.m_description m) ] |}.

Definition plain_response (chartJson : Chart.t) : OutResponse.t :=
  {| OutResponse.version_of :=
       {| OutResponse.version := Chart.version chartJson;
          OutResponse.digest := Chart.digest chartJson |};
     OutResponse.metadata :=
       [ entry "created" (Chart.created chartJson);
         entry "description" (Chart.description chartJson);
         entry "appVersion" (Chart.appVersion chartJson);
         entry "home" (Chart.home chartJson);
         entry "tillerVersion" (Chart.tillerVersion chartJson) ] |}.

(** The script (in.ts 15-97). *)
Definition main (w : World) : list Effect * End :=
  if negb (List.length (argv w) =? 3)%nat then
    ([Stderr ("Expected exactly one argument (destination), got "
              ++ Js.Z_to_string (Z.of_nat (List.length (argv w)) - 2) ++ ".")],
     Exited 2%Z)
  else
    let destination := path_resolve w (cwd w) [nth 2 (argv w) "undefined"] in
    match stdin_request w with
    | None => ([], Rejected (NodeError "JSON.parse" EmptyString))
    | Some request =>
        let headers := createFetchHeaders (base64 w) request in
        let chartUrl := server_url (Request.source request) ++ "/"
                        ++ chart_name (Request.source request) ++ "/"
                        ++ Request.version request in
        match fetch w chartUrl headers with
        | None => ([Fetch chartUrl headers], Rejected (NodeError "fetch" chartUrl))
        | Some chartResp =>
            match Response.json chartResp with
            | None => ([Fetch chartUrl headers], Rejected (NodeError "json" EmptyString))
            | Some chartJson =>
                if is_true (harbor_api (Request.source request)) then
                  match Chart.metadata chartJson with
                  | None => ([Fetch chartUrl headers], Rejected (TypeError "chartJson.metadata"))
                  | Some m =>
                      download w destination request headers chartJson
                               (target_basename request
                                                (tpl (Chart.m_name m) ++ "-"
                                                 ++ tpl (Chart.m_version m)))
                               (Chart.m_version m) (harbor_response m)
                               [Fetch chartUrl headers]
                  end
                else
                  download w destination request headers chartJson
                           (target_basename request
                                            (tpl (Chart.name chartJson) ++ "-"
                                             ++ tpl (Chart.version chartJson)))
                           (Chart.version chartJson) (plain_response chartJson)
                           [Fetch chartUrl headers]
            end
        end
    end.

(** Reading a run: the files written, in order; the responses printed. *)
Definition written (log : list Effect) : list string :=
  flat_map (fun e => match e with
                     | WriteFile path _ | WriteJson path _ => [path]
                     | _ => []
                     end) log.

Definition is_stdout (e : Effect) : bool :=
  match e with Stdout _ => true | _ => false end.

Definition is_metadata_file (e : Effect) : bool :=
  match e with WriteJson _ _ => true | _ => false end.

(** The same invocation on a server that answers everything with
    [status]. *)
Definition with_status (status : Z) (w : World) : World :=
  {| argv := argv w;
     cwd := cwd w;
     stdin_request := stdin_request w;
     path_resolve := path_resolve w;
     base64 := base64 w;
     fetch := fun url headers =>
                match fetch w url headers with
                | Some r => Some {| Response.status := status;
                                    Response.statusText := Response.statusText r;
                                    Response.text := Response.text r;
                                    Response.json := Response.json r |}
                | None => None
                end |}.

(** The same invocation with no server to reach. *)
Definition offline (w : World) : World :=
  {| argv := argv w;
     cwd := cwd w;
     stdin_request := stdin_request w;
     path_resolve := path_resolve w;
     base64 := base64 w;
     fetch := fun _ _ => None |}.

(** A Harbor server whose URL holds [api/] twice, and the chart demo
    1.0.0 on it. *)
Definition demo : Chart.t :=
  {| Chart.metadata := Some {| Chart.m_name := Some "demo";
                               Chart.m_version := Some "1.0.0";
                               Chart.m_digest := Some "sha256:0f";
                               Chart.m_created := Some "2019-01-01T00:00:00Z";
                               Chart.m_description := Some "A demo chart" |};
     Chart.name := None;
     Chart.version := None;
     Chart.digest := None;
     Chart.created := None;
     Chart.description := None;
     Chart.appVersion := Some "3.1";
     Chart.home := None;
     Chart.tillerVersion := None |}.

Definition harbor_request (basename : option (option string)) : Request.t :=
  {| Request.source :=
       {| repository := {| server_url := "https://harbor.example.com/api/chartrepo/api/charts";
                           basic_auth_username := None;
                           basic_auth_password := None;
                           tls_ca_cert := None;
                           tls_client_cert := None;
                           tls_client_key := None |};
          chart_name := "demo";
          version_range := None;
          harbor_api := Some true |};
     Request.version := "1.0.0";
     Request.digest := "sha256:0f";
     Request.params := basename |}.

Definition harbor_world (basename : option (option string)) : World :=
  {| argv := ["node"; "/opt/resource/in"; "/dest"];
     cwd := "/";
     stdin_request := Some (harbor_request basename);
     path_resolve := Sample.resolve;
     base64 := fun s => s;
     fetch := fun url _ =>
                if String.eqb url "https://harbor.example.com/api/chartrepo/api/charts/demo/1.0.0"
                then Some {| Response.status := 200; Response.statusText := "OK";
                             Response.text := EmptyString; Response.json := Some demo |}
                else if String.eqb url
                          "https://harbor.example.com/chartrepo/api/charts/demo-1.0.0.tgz"
                     then Some {| Response.status := 200; Response.statusText := "OK";
                                  Response.text := "archive"; Response.json := None |}
                     else Some {| Response.status := 404; Response.statusText := "Not Found";
                                  Response.text := "not found"; Response.json := None |} |}.

End In.

(* ================================================================== *)
(** * Proofs *)

(** ** The monad *)

Lemma bind_ok {A B} (m : M A) (f : A -> M B) log log1 a :
  m log = (log1, Ok a) -> bind m f log = f a log1.
Proof. unfold bind; intros ->; reflexivity. Qed.

Lemma bind_exit {A B} (m : M A) (f : A -> M B) log log1 c :
  m log = (log1, Exit c) -> bind m f log = (log1, Exit c).
Proof. unfold bind; intros ->; reflexivity. Qed.

Lemma bind_throw {A B} (m : M A) (f : A -> M B) log log1 e :
  m log = (log1, Throw e) -> bind m f log = (log1, Throw e).
Proof. unfold bind; intros ->; reflexivity. Qed.

Lemma bind_ret_l {A B} (a : A) (f : A -> M B) : bind (ret a) f = f a.
Proof. reflexivity. Qed.

Section Preservation.

Variable I : list Event -> Prop.

Lemma preserves_ret {A} (a : A) : preserves I (ret a).
Proof. intros log H; exact H. Qed.

Lemma preserves_exit {A} c : preserves I (@exit A c).
Proof. intros log H; exact H. Qed.

Lemma preserves_throw {A} e : preserves I (@throw A e).
Proof. intros log H; exact H. Qed.

Lemma preserves_history : preserves I history.
Proof. intros log H; exact H. Qed.

Lemma preserves_await {A} api arg (r : option A) : preserves I (await api arg r).
Proof. destruct r; intros log H; exact H. Qed.

Lemma preserves_bind {A B} (m : M A) (f : A -> M B) :
  preserves I m -> (forall a, preserves I (f a)) -> preserves I (bind m f).
Proof.
  intros Hm Hf log H. unfold bind.
  specialize (Hm log H). destruct (m log) as [log1 [a | c | e]]; simpl in *; auto.
  apply Hf; assumption.
Qed.

Lemma preserves_try_catch {A} (m : M A) h :
  preserves I m -> (forall e, preserves I (h e)) -> preserves I (try_catch m h).
Proof.
  intros Hm Hh log H. unfold try_catch.
  specialize (Hm log H). destruct (m log) as [log1 [a | c | e]]; simpl in *; auto.
  apply Hh; assumption.
Qed.

Lemma preserves_try_finally {A} (m : M A) fin :
  preserves I m -> preserves I fin -> preserves I (try_finally m fin).
Proof.
  intros Hm Hf log H. unfold try_finally.
  specialize (Hm log H). destruct (m log) as [log1 [a | c | e]]; simpl in *; auto.
  - specialize (Hf log1 Hm). destruct (fin log1) as [log2 [[] | c | e]]; simpl in *; auto.
  - specialize (Hf log1 Hm). destruct (fin log1) as [log2 [[] | c | e']]; simpl in *; auto.
Qed.

Lemma preserves_when c m : preserves I m -> preserves I (when c m).
Proof. destruct c; simpl; auto using preserves_ret. Qed.

(** Every effect other than those of the signing step keeps [I]. *)
Hypothesis I_emit :
  forall e log, is_signing e = false -> I log -> I (log ++ [e]).

Lemma preserves_emit e : is_signing e = false -> preserves I (emit e).
Proof. intros He log H. simpl. auto. Qed.

Ltac preserve :=
  repeat (intros;
          first [ assumption
                | match goal with
                  | H : forall _, _ |- preserves _ _ => apply H
                  end
                | progress cbv zeta
                | apply preserves_ret
                | apply preserves_exit
                | apply preserves_throw
                | apply preserves_history
                | apply preserves_await
                | apply preserves_emit; reflexivity
                | apply preserves_bind
                | apply preserves_try_catch
                | apply preserves_try_finally
                | apply preserves_when
                | match goal with
                  | |- preserves _ (match ?x with _ => _ end) => destruct x
                  end ]).

Variable w : World.

Lemma resolve_version_preserves root request :
  preserves I (resolve_version w root request).
Proof. unfold resolve_version, lstat, readFile. preserve. Qed.

Lemma check_version_range_preserves request version :
  preserves I (check_version_range w request version).
Proof. unfold check_version_range, stderr_write. preserve. Qed.

Lemma createTmpDir_preserves : preserves I (createTmpDir w).
Proof. unfold createTmpDir. preserve. Qed.

Lemma run_exec_preserves cmd : preserves I (run_exec w cmd).
Proof. unfold run_exec. preserve. Qed.

Lemma add_dependency_repo_preserves root name repo :
  preserves I (add_dependency_repo w root name repo).
Proof.
  unfold add_dependency_repo, writeFile, stderr_write.
  pose proof createTmpDir_preserves. pose proof run_exec_preserves.
  preserve.
Qed.

Lemma register_dependencies_preserves root request :
  preserves I (register_dependencies w root request).
Proof.
  unfold register_dependencies, stderr_write.
  destruct (Params.dependency_repos (params request)) as [repos |]; [| preserve].
  apply preserves_bind; [preserve | intros _].
  induction repos as [| [name repo] rest IH]; simpl; [preserve |].
  apply preserves_bind; [apply add_dependency_repo_preserves | intros _; exact IH].
Qed.

Lemma inspect_chart_preserves chartFile version :
  preserves I (inspect_chart w chartFile version).
Proof.
  unfold inspect_chart, stderr_write. pose proof run_exec_preserves. preserve.
Qed.

Lemma upload_chart_preserves request agent headers body chartFile version :
  preserves I (upload_chart w request agent headers body chartFile version).
Proof. unfold upload_chart, stderr_write. preserve. Qed.

Lemma verify_upload_preserves request agent version cleanup :
  preserves I (verify_upload w request agent version cleanup).
Proof. unfold verify_upload, metadata_of, stderr_write. preserve. Qed.

Lemma run_package_preserves root version chartLocation chartInfo tmpDir cmd :
  preserves I (run_package w root version chartLocation chartInfo tmpDir cmd).
Proof.
  unfold run_package, lstat, stderr_write. pose proof run_exec_preserves. preserve.
Qed.

(** The packaging step keeps [I] when its signing step does, or is not
    entered. *)
Lemma package_chart_preserves root request version :
  (forall tmpDir cmd st,
      is_true (Params.sign (params request)) = true ->
      fs_lstat w (resolve w root [Params.chart (params request)]) = Some st ->
      isDirectory st = true ->
      preserves I (sign_chart w root request tmpDir cmd)) ->
  preserves I (package_chart w root request version).
Proof.
  intros Hsign. unfold package_chart, stderr_write.
  pose proof createTmpDir_preserves. pose proof run_package_preserves.
  apply preserves_bind; [preserve | intros _].
  intros log Hlog. unfold bind at 1, lstat at 1, await.
  destruct (fs_lstat w (resolve w root [Params.chart (params request)])) as [st |] eqn:Hst;
    [| exact Hlog].
  unfold ret at 1. cbv beta iota. revert log Hlog.
  match goal with
  | |- forall log, I log -> I (fst (?m log)) => change (preserves I m)
  end.
  destruct (isDirectory st) eqn:Hdir; [| preserve].
  destruct (is_true (Params.sign (params request))) eqn:Hs.
  - specialize (fun tmpDir cmd => Hsign tmpDir cmd st eq_refl eq_refl Hdir).
    unfold lstat. preserve.
  - unfold lstat. preserve.
Qed.

Lemma publish_preserves root request headers agent version :
  (forall tmpDir cmd st,
      is_true (Params.sign (params request)) = true ->
      fs_lstat w (resolve w root [Params.chart (params request)]) = Some st ->
      isDirectory st = true ->
      preserves I (sign_chart w root request tmpDir cmd)) ->
  preserves I (publish w root request headers agent version).
Proof.
  intros Hsign. unfold publish.
  apply preserves_bind; [apply register_dependencies_preserves | intros _].
  apply preserves_bind; [apply package_chart_preserves; exact Hsign | intros [[chartFile st] cleanup]].
  apply preserves_bind; [apply inspect_chart_preserves | intros v].
  destruct (upload_payload w request headers chartFile st) as [h b].
  apply preserves_bind; [apply upload_chart_preserves | intros _].
  apply verify_upload_preserves.
Qed.

(** [out] keeps [I] when the signing step of its request does. *)
Lemma out_preserves :
  (forall request tmpDir cmd st,
      stdin_request w = Some request ->
      is_true (Params.sign (params request)) = true ->
      fs_lstat w (resolve w (root_of w) [Params.chart (params request)]) = Some st ->
      isDirectory st = true ->
      preserves I (sign_chart w (root_of w) request tmpDir cmd)) ->
  preserves I (out w).
Proof.
  intros Hsign. unfold out, stderr_write.
  apply preserves_bind; [preserve | intros _]. cbv zeta.
  apply preserves_bind; [preserve | intros _].
  destruct (stdin_request w) as [request |] eqn:Hreq.
  2: { intros log Hlog. cbv [bind emit exit fst].
       apply I_emit; [reflexivity |]. apply I_emit; [reflexivity | exact Hlog]. }
  rewrite bind_ret_l.
  apply preserves_bind; [apply resolve_version_preserves | intros version].
  apply preserves_bind; [apply check_version_range_preserves | intros _].
  apply publish_preserves. intros tmpDir cmd st Hs Hst Hdir.
  exact (Hsign request tmpDir cmd st eq_refl Hs Hst Hdir).
Qed.

End Preservation.


(* ------------------------------------------------------------------ *)
(** ** Strings *)

Lemma prefix_append p x : String.prefix p (p ++ x) = true.
Proof.
  induction p as [| c p IH]; simpl.
  - destruct x; reflexivity.
  - destruct (ascii_dec c c); [exact IH | congruence].
Qed.

Lemma prefix_split p s : String.prefix p s = true -> s = p ++ Js.drop (String.length p) s.
Proof.
  revert s. induction p as [| c p IH]; intros s H; simpl in *.
  - destruct s; reflexivity.
  - destruct s as [| d s]; simpl in H; [discriminate H |].
    destruct (ascii_dec c d); [subst | discriminate H].
    simpl. f_equal. apply IH. exact H.
Qed.

Lemma drop_append p x : Js.drop (String.length p) (p ++ x) = x.
Proof.
  induction p as [| c p IH]; simpl; [destruct x; reflexivity | exact IH].
Qed.

Lemma strip_prefix_sound p s r : Js.strip_prefix p s = Some r -> s = p ++ r.
Proof.
  unfold Js.strip_prefix, Js.startsWith. destruct (String.prefix p s) eqn:H; [| discriminate].
  intros [= <-]. apply prefix_split. exact H.
Qed.

Lemma strip_prefix_append p x : Js.strip_prefix p (p ++ x) = Some x.
Proof.
  unfold Js.strip_prefix, Js.startsWith. rewrite prefix_append, drop_append. reflexivity.
Qed.

Lemma strip_suffix_equation p s :
  Js.strip_suffix p s =
  if String.eqb s p then Some EmptyString
  else match s with
       | EmptyString => None
       | String c rest =>
           match Js.strip_suffix p rest with
           | Some body => Some (String c body)
           | None => None
           end
       end.
Proof. destruct s; reflexivity. Qed.

Lemma strip_suffix_sound p s b : Js.strip_suffix p s = Some b -> s = b ++ p.
Proof.
  revert b. induction s as [| c s IH]; intros b; rewrite strip_suffix_equation.
  - destruct (String.eqb EmptyString p) eqn:E; [| discriminate].
    intros [= <-]. apply String.eqb_eq in E. exact E.
  - destruct (String.eqb (String c s) p) eqn:E.
    + intros [= <-]. apply String.eqb_eq in E. exact E.
    + destruct (Js.strip_suffix p s) as [body |]; [| discriminate].
      intros [= <-]. simpl. f_equal. apply IH. reflexivity.
Qed.

Lemma length_append_string a b : String.length (a ++ b) = String.length a + String.length b.
Proof. induction a as [| c a IH]; simpl; [reflexivity | rewrite IH; reflexivity]. Qed.

Lemma strip_suffix_append p b : Js.strip_suffix p (b ++ p) = Some b.
Proof.
  induction b as [| c b IH]; rewrite strip_suffix_equation.
  - simpl. rewrite String.eqb_refl. reflexivity.
  - destruct (String.eqb (String c b ++ p) p) eqn:E.
    + apply String.eqb_eq in E. apply (f_equal String.length) in E.
      simpl in E. rewrite length_append_string in E. lia.
    + simpl. rewrite IH. reflexivity.
Qed.

(** The regular expression of [importGpgKey], as an equation on the line. *)
Lemma key_id_of_line_spec l id :
  key_id_of_line l = Some id <->
  l = "gpg: key " ++ id ++ ": secret key imported" /\ Js.no_line_terminator id = true.
Proof.
  unfold key_id_of_line. split.
  - destruct (Js.strip_prefix "gpg: key " l) as [rest |] eqn:Hp; [| discriminate].
    destruct (Js.strip_suffix ": secret key imported" rest) as [body |] eqn:Hs; [| discriminate].
    destruct (Js.no_line_terminator body) eqn:Hn; [| discriminate].
    intros [= <-]. apply strip_prefix_sound in Hp. apply strip_suffix_sound in Hs.
    subst. split; [reflexivity | exact Hn].
  - intros [-> Hn].
    rewrite (strip_prefix_append "gpg: key ").
    rewrite (strip_suffix_append ": secret key imported"), Hn. reflexivity.
Qed.

(* ------------------------------------------------------------------ *)
(** ** The key import *)

Lemma emit_chunks_run (chunks : list string) (log : list Event) :
  fold_right (fun chunk k => emit (EStderrChunk chunk) ;; k) (ret tt) chunks log
  = ((log ++ map EStderrChunk chunks)%list, Ok tt).
Proof.
  revert log. induction chunks as [| chunk chunks IH]; intros log; simpl.
  - rewrite app_nil_r. reflexivity.
  - unfold bind at 1, emit at 1. rewrite IH, <- app_assoc. reflexivity.
Qed.

(** The whole run of [importGpgKey]. *)
Lemma importGpgKey_run w root gpgHome keyFile passphrase log :
  importGpgKey w root gpgHome keyFile passphrase log
  = match gpg w (gpg_args w root gpgHome keyFile) passphrase with
    | NotStarted report =>
        ((log ++ [ESpawn "gpg" (gpg_args w root gpgHome keyFile) passphrase;
                  EStderr report])%list,
         Exit 1%Z)
    | Closed run =>
        ((log ++ ESpawn "gpg" (gpg_args w root gpgHome keyFile) passphrase
              :: map EStderrChunk (gpg_stdout run))%list,
         match import_close (gpg_code run) (gpg_stderr run) with
         | inl e => Throw e
         | inr keyId => Ok keyId
         end)
    end.
Proof.
  unfold importGpgKey. cbv zeta. fold (gpg_args w root gpgHome keyFile).
  unfold bind at 1, emit at 1.
  destruct (gpg w (gpg_args w root gpgHome keyFile) passphrase) as [run | report].
  - unfold bind at 1. rewrite emit_chunks_run.
    rewrite <- app_assoc. simpl.
    destruct (import_close _ _); reflexivity.
  - unfold stderr_write, bind, emit, exit. rewrite <- app_assoc. reflexivity.
Qed.

(** C6 (as amended).  The key identifier comes from the first line of the
    import output that contains the words secret key imported, and that one
    line must be [gpg: key <id>: secret key imported] from start to end: an
    exit code other than 0 rejects with the import-failed error; exit code 0
    rejects with the line-not-found message when no line contains the
    words, and with the regex-failure message when the first such line has
    not that form (other lines are not looked at); otherwise the import
    resolves to the identifier.  The three rejections differ, and
    [importGpgKey] throws them; the handler is run by the [close] event of
    the child, and a child that cannot be started ends the process
    instead. *)
Theorem C6_key_identifier_from_first_import_line
        (code : option Z) (importResult : string) :
  (code <> Some 0%Z -> import_close code importResult = inl (import_failed code))
  /\ (code = Some 0%Z -> first_import_line importResult = None ->
      import_close code importResult = inl line_not_found)
  /\ (forall l, code = Some 0%Z -> first_import_line importResult = Some l ->
                (forall id, l = "gpg: key " ++ id ++ ": secret key imported" ->
                            Js.no_line_terminator id = false) ->
                import_close code importResult = inl regex_match_failure)
  /\ (forall id, code = Some 0%Z ->
                 first_import_line importResult
                 = Some ("gpg: key " ++ id ++ ": secret key imported") ->
                 Js.no_line_terminator id = true ->
                 import_close code importResult = inr id)
  /\ (import_failed code <> line_not_found
      /\ import_failed code <> regex_match_failure
      /\ line_not_found <> regex_match_failure)
  /\ (forall w root gpgHome keyFile passphrase log,
         snd (importGpgKey w root gpgHome keyFile passphrase log)
         = match gpg w ["--batch"; "--homedir";
                        Js.dq ++ resolve w root [gpgHome] ++ Js.dq;
                        "--import";
                        Js.dq ++ resolve w root [keyFile] ++ Js.dq] passphrase with
           | Closed run =>
               match import_close (gpg_code run) (gpg_stderr run) with
               | inl e => Throw e
               | inr keyId => Ok keyId
               end
           | NotStarted _ => Exit 1%Z
           end).
Proof.
  unfold first_import_line. repeat split.
  - intros Hc. unfold import_close, import_failed.
    destruct code as [[| c | c] |]; try reflexivity. congruence.
  - intros -> H. unfold import_close. rewrite H. reflexivity.
  - intros l -> H Hl. unfold import_close. rewrite H.
    destruct (key_id_of_line l) as [id |] eqn:Hk; [| reflexivity].
    apply key_id_of_line_spec in Hk. destruct Hk as [Heq Hn].
    rewrite (Hl id Heq) in Hn. discriminate.
  - intros id -> H Hn. unfold import_close. rewrite H.
    assert (Hk : key_id_of_line ("gpg: key " ++ id ++ ": secret key imported") = Some id)
      by (apply key_id_of_line_spec; split; [reflexivity | exact Hn]).
    rewrite Hk. reflexivity.
  - unfold import_failed, line_not_found. discriminate.
  - unfold import_failed, regex_match_failure. discriminate.
  - unfold line_not_found, regex_match_failure. discriminate.
  - intros w root gpgHome keyFile passphrase log.
    rewrite importGpgKey_run. unfold gpg_args. destruct (gpg w _ passphrase); reflexivity.
Qed.

(** C6 at concrete imports: a reported key, a failed import, an import
    that reports nothing, and an import whose first line about a secret key
    is not the line naming the key; and the failed import as
    [importGpgKey] throws it. *)
Lemma C6_key_identifier_witness :
  import_close (Some 0%Z) (gpg_stderr Sample.gpg_imported) = inr "1A2B3C4D"
  /\ import_close (Some 2%Z) (gpg_stderr Sample.gpg_failed) = inl (import_failed (Some 2%Z))
  /\ import_close (Some 0%Z) (gpg_stderr Sample.gpg_silent) = inl line_not_found
  /\ import_close (Some 0%Z) two_line_import = inl regex_match_failure
  /\ snd (importGpgKey (signing_world Sample.gpg_failed) "/work"
                       "/tmp/concourse-gpg-keyring-k3Yr1n" "key.asc" None [])
     = Throw (import_failed (Some 2%Z)).
Proof.
  split; [| split; [| split; [| split]]].
  5: { destruct (C6_key_identifier_from_first_import_line (Some 2%Z) EmptyString)
         as (_ & _ & _ & _ & _ & H).
       exact (H (signing_world Sample.gpg_failed) "/work"
                "/tmp/concourse-gpg-keyring-k3Yr1n" "key.asc" None []). }
  - destruct (C6_key_identifier_from_first_import_line
                (Some 0%Z) (gpg_stderr Sample.gpg_imported)) as (_ & _ & _ & H & _).
    apply (H "1A2B3C4D"); reflexivity.
  - destruct (C6_key_identifier_from_first_import_line
                (Some 2%Z) (gpg_stderr Sample.gpg_failed)) as (H & _).
    apply H. discriminate.
  - destruct (C6_key_identifier_from_first_import_line
                (Some 0%Z) (gpg_stderr Sample.gpg_silent)) as (_ & H & _).
    apply H; reflexivity.
  - destruct (C6_key_identifier_from_first_import_line
                (Some 0%Z) two_line_import) as (_ & _ & H & _).
    apply (H ("gpg: key 1A2B3C4D: public key " ++ Js.dq ++ "secret key imported" ++ Js.dq
              ++ " imported"));
      [reflexivity | reflexivity |].
    intros id Hid. destruct (Js.no_line_terminator id) eqn:Hn; [| reflexivity].
    assert (Hk : key_id_of_line ("gpg: key 1A2B3C4D: public key " ++ Js.dq
                                 ++ "secret key imported" ++ Js.dq ++ " imported")
                 = Some id)
      by (apply key_id_of_line_spec; split; assumption).
    vm_compute in Hk. discriminate Hk.
Defined.

(** C6 as stated fails: the second line of this import matches the pattern
    and names key 1A2B3C4D, yet the import is rejected, because the first
    line that contains the words secret key imported is another one. *)
Lemma C6_first_matching_line_counterexample :
  spec_key_identifier two_line_import = Some "1A2B3C4D"
  /\ import_close (Some 0%Z) two_line_import = inl regex_match_failure.
Proof. split; reflexivity. Qed.

(* ------------------------------------------------------------------ *)
(** ** The version before packaging *)

Lemma resolve_version_stateless w root request log :
  resolve_version w root request log = (log, snd (resolve_version w root request [])).
Proof.
  unfold resolve_version, lstat, readFile, await, bind, ret, throw.
  destruct (Params.version_file (params request)) as [vf |]; [| reflexivity].
  destruct (fs_lstat w (resolve w root [vf])) as [st |]; [| reflexivity].
  destruct (isFile st); [| reflexivity].
  destruct (fs_readFile w (resolve w root [vf])); reflexivity.
Qed.

Lemma remove_first_line_break_single_line v :
  Js.no_line_terminator v = true -> Js.remove_first_line_break (v ++ Js.nl) = v.
Proof.
  induction v as [| c v IH]; simpl; [reflexivity |].
  unfold Js.is_line_terminator. intros H.
  apply andb_true_iff in H. destruct H as [Hc Hv].
  apply negb_true_iff, orb_false_iff in Hc. destruct Hc as [Hlf Hcr].
  rewrite Hlf, Hcr. simpl. rewrite (IH Hv). reflexivity.
Qed.

(** C2 (as amended).  With [version_file] set, a regular file there and a
    successful read, the version is the file's contents with the first
    line break removed (for a file that holds one line and its line break,
    that line), whatever [version] is; with [version_file] absent, or
    present and not a regular file, it is [version], unset when that is
    absent; when [lstat] or the read fails the resolution throws. *)
Theorem C2_version_priority (w : World) (root : string) (request : OutRequest)
        (log : list Event) :
  (forall vf st content,
      Params.version_file (params request) = Some vf ->
      fs_lstat w (resolve w root [vf]) = Some st ->
      isFile st = true ->
      fs_readFile w (resolve w root [vf]) = Some content ->
      resolve_version w root request log
      = (log, Ok (Some (Js.remove_first_line_break content)))
      /\ forall v, Js.no_line_terminator v = true -> content = v ++ Js.nl ->
                   resolve_version w root request log = (log, Ok (Some v)))
  /\ (forall vf st,
         Params.version_file (params request) = Some vf ->
         fs_lstat w (resolve w root [vf]) = Some st ->
         isFile st = false ->
         resolve_version w root request log = (log, Ok (Params.version (params request))))
  /\ (Params.version_file (params request) = None ->
      resolve_version w root request log = (log, Ok (Params.version (params request))))
  /\ (forall vf,
         Params.version_file (params request) = Some vf ->
         fs_lstat w (resolve w root [vf]) = None ->
         resolve_version w root request log
         = (log, Throw (NodeError "lstat" (resolve w root [vf]))))
  /\ (forall vf st,
         Params.version_file (params request) = Some vf ->
         fs_lstat w (resolve w root [vf]) = Some st ->
         isFile st = true ->
         fs_readFile w (resolve w root [vf]) = None ->
         resolve_version w root request log
         = (log, Throw (NodeError "readFile" (resolve w root [vf])))).
Proof.
  unfold resolve_version, lstat, readFile, await, bind, ret, throw.
  split; [| split; [| split; [| split]]].
  - intros vf st content -> -> -> ->. split; [reflexivity |].
    intros v Hv ->. rewrite (remove_first_line_break_single_line v Hv). reflexivity.
  - intros vf st -> -> ->. reflexivity.
  - intros ->. reflexivity.
  - intros vf -> ->. reflexivity.
  - intros vf st -> -> -> ->. reflexivity.
Qed.

(** C2 at concrete requests, each with [version] set to 1.2.3: a version
    file holding 1.0.0 and a line break, a directory in its place, and no
    version file. *)
Lemma C2_version_priority_witness :
  resolve_version (version_file_world "version") "/work"
                  (Sample.request_of None None
                     (with_version (Some "1.2.3") (Some "version")
                                          (Sample.params_of "chart"))) []
  = ([], Ok (Some "1.0.0"))
  /\ resolve_version (version_file_world "versions") "/work"
                     (Sample.request_of None None
                        (with_version (Some "1.2.3") (Some "versions")
                                             (Sample.params_of "chart"))) []
     = ([], Ok (Some "1.2.3"))
  /\ resolve_version (version_file_world "version") "/work"
                     (Sample.request_of None None
                        (with_version (Some "1.2.3") None
                                             (Sample.params_of "chart"))) []
     = ([], Ok (Some "1.2.3")).
Proof.
  split; [| split].
  - destruct (C2_version_priority
                (version_file_world "version") "/work"
                (Sample.request_of None None
                   (with_version (Some "1.2.3") (Some "version")
                                        (Sample.params_of "chart"))) [])
      as (H & _).
    destruct (H "version" (Sample.file_stats 6) ("1.0.0" ++ Js.nl)
                eq_refl eq_refl eq_refl eq_refl) as [_ H1].
    apply (H1 "1.0.0"); reflexivity.
  - destruct (C2_version_priority
                (version_file_world "versions") "/work"
                (Sample.request_of None None
                   (with_version (Some "1.2.3") (Some "versions")
                                        (Sample.params_of "chart"))) [])
      as (_ & H & _).
    apply (H "versions" Sample.dir_stats); reflexivity.
  - destruct (C2_version_priority
                (version_file_world "version") "/work"
                (Sample.request_of None None
                   (with_version (Some "1.2.3") None
                                        (Sample.params_of "chart"))) [])
      as (_ & _ & H & _).
    apply H; reflexivity.
Defined.

(** C2 as stated fails: a version file that ends in two line breaks yields
    its first line and one line break, not the trimmed contents; and a
    version file that does not exist, or one that cannot be read, ends the
    invocation instead of leaving the choice to [version], here 1.2.3. *)
Lemma C2_trimmed_contents_counterexample :
  (fs_readFile (version_file_world "version-padded") "/work/version-padded"
   = Some ("1.0.0" ++ Js.nl ++ Js.nl)
   /\ version_before_packaging (version_file_world "version-padded")
                               (Sample.request_of None None
                                  (with_version (Some "1.2.3") (Some "version-padded")
                                                (Sample.params_of "chart")))
      = Ok (Some ("1.0.0" ++ Js.nl))
   /\ version_before_packaging (version_file_world "version-padded")
                               (Sample.request_of None None
                                  (with_version (Some "1.2.3") (Some "version-padded")
                                                (Sample.params_of "chart")))
      <> Ok (Some (spec_version_from_file ("1.0.0" ++ Js.nl ++ Js.nl))))
  /\ (fs_lstat (version_file_world "missing") "/work/missing" = None
      /\ version_before_packaging (version_file_world "missing")
                                  (Sample.request_of None None
                                     (with_version (Some "1.2.3") (Some "missing")
                                                   (Sample.params_of "chart")))
         = Throw (NodeError "lstat" "/work/missing")
      /\ snd (main (version_file_world "missing")) = 1%Z)
  /\ (fs_readFile (version_file_world "key.asc") "/work/key.asc" = None
      /\ version_before_packaging (version_file_world "key.asc")
                                  (Sample.request_of None None
                                     (with_version (Some "1.2.3") (Some "key.asc")
                                                   (Sample.params_of "chart")))
         = Throw (NodeError "readFile" "/work/key.asc")).
Proof.
  repeat split; try (vm_compute; reflexivity).
  vm_compute. discriminate.
Qed.

(** The start of [out] when the argument count is right and the request
    decodes: the range check follows the version resolution. *)
Lemma out_to_range_check w request :
  List.length (argv w) = 3%nat ->
  stdin_request w = Some request ->
  out w [] =
  match version_before_packaging w request with
  | Ok version =>
      bind (check_version_range w request version)
           (fun _ => publish w (root_of w) request (createFetchHeaders (base64 w) request)
                             (createFetchAgent request) version)
           [EChdir (root_of w)]
  | Exit c => ([EChdir (root_of w)], Exit c)
  | Throw e => ([EChdir (root_of w)], Throw e)
  end.
Proof.
  intros Hargv Hreq. unfold out, version_before_packaging.
  rewrite Hargv, Hreq. simpl.
  unfold bind at 1, ret at 1. unfold bind at 1, emit at 1. simpl.
  unfold bind at 1, ret at 1. unfold bind at 1.
  rewrite resolve_version_stateless.
  destruct (snd (resolve_version w (root_of w) request [])); reflexivity.
Qed.

Lemma out_wrong_argv w :
  List.length (argv w) <> 3%nat ->
  out w [] =
  ([EStderr ("Expected exactly one argument (root), got "
             ++ Js.Z_to_string (Z.of_nat (List.length (argv w)) - 2) ++ "." ++ Js.nl)],
   Exit 102%Z).
Proof.
  intros H. apply Nat.eqb_neq in H. unfold out. rewrite H. reflexivity.
Qed.

(** C3 (as amended).  When a version is known before packaging and a range
    is configured: if [semver] finds the version outside the range, [out]
    ends with exit code 104 after changing directory and reporting the
    violation, so without any subprocess or network call; if it finds the
    version inside the range, [out] goes on with the rest of the pipeline;
    if it cannot parse the version, its [TypeError] is thrown out of [out]
    at the same place: the process reports an unexpected error and exits
    with code 1, without the range-violation message and again without any
    subprocess or network call. *)
Theorem C3_range_check_before_packaging (w : World) (request : OutRequest)
        (v versionRange : string) :
  List.length (argv w) = 3%nat ->
  stdin_request w = Some request ->
  version_before_packaging w request = Ok (Some v) ->
  version_range (source request) = Some versionRange ->
  (semver_satisfies w v versionRange = Some false ->
   out w [] = ([EChdir (root_of w); EStderr (range_violation v versionRange)], Exit 104%Z)
   /\ Forall (fun e => is_subprocess e = false /\ is_network e = false) (fst (out w []))
   /\ snd (main w) = 104%Z)
  /\ (semver_satisfies w v versionRange = Some true ->
      out w [] = publish w (root_of w) request (createFetchHeaders (base64 w) request)
                         (createFetchAgent request) (Some v) [EChdir (root_of w)])
  /\ (semver_satisfies w v versionRange = None ->
      out w [] = ([EChdir (root_of w)], Throw (TypeError ("Invalid Version: " ++ v)))
      /\ main w
         = ([EChdir (root_of w);
             EStderr (Js.nl ++ Js.nl ++ "An unexpected error occured." ++ Js.nl);
             EStderrJson 1 (TypeError ("Invalid Version: " ++ v))], 1%Z)).
Proof.
  intros Hargv Hreq Hv Hrange.
  pose proof (out_to_range_check w request Hargv Hreq) as Hout.
  rewrite Hv in Hout. unfold check_version_range in Hout. rewrite Hrange in Hout.
  split; [| split]; intros Hsat; rewrite Hsat in Hout; simpl in Hout.
  - assert (Hlog : out w [] = ([EChdir (root_of w); EStderr (range_violation v versionRange)],
                               Exit 104%Z)) by exact Hout.
    split; [exact Hlog |]. split.
    + rewrite Hlog. simpl. repeat constructor.
    + unfold main. rewrite Hlog. reflexivity.
  - exact Hout.
  - assert (Hlog : out w [] = ([EChdir (root_of w)],
                               Throw (TypeError ("Invalid Version: " ++ v)))) by exact Hout.
    split; [exact Hlog |]. unfold main. rewrite Hlog. reflexivity.
Qed.

(** C3 on scenario 3 (version 2.0.0, range ^1.0.0), on version 1.0.0 with
    the same range, and on a version that is no version at all. *)
Lemma C3_range_check_witness :
  out out_of_range_world []
  = ([EChdir "/work"; EStderr (range_violation "2.0.0" "^1.0.0")], Exit 104%Z)
  /\ out in_range_world []
     = publish in_range_world "/work"
               (Sample.request_of (Some "^1.0.0") None
                  (with_version (Some "1.0.0") None (Sample.params_of "chart")))
               [] (createFetchAgent (Sample.request_of None None (Sample.params_of "chart")))
               (Some "1.0.0") [EChdir "/work"]
  /\ out unparsable_version_world []
     = ([EChdir "/work"], Throw (TypeError "Invalid Version: latest")).
Proof.
  split; [| split].
  - destruct (C3_range_check_before_packaging
                out_of_range_world
                (Sample.request_of (Some "^1.0.0") None
                   (with_version (Some "2.0.0") None (Sample.params_of "chart")))
                "2.0.0" "^1.0.0" eq_refl eq_refl eq_refl eq_refl) as [H _].
    destruct (H eq_refl) as [H1 _]. exact H1.
  - destruct (C3_range_check_before_packaging
                in_range_world
                (Sample.request_of (Some "^1.0.0") None
                   (with_version (Some "1.0.0") None (Sample.params_of "chart")))
                "1.0.0" "^1.0.0" eq_refl eq_refl eq_refl eq_refl) as (_ & H & _).
    exact (H eq_refl).
  - destruct (C3_range_check_before_packaging
                unparsable_version_world
                (Sample.request_of (Some "^1.0.0") None
                   (with_version (Some "latest") None (Sample.params_of "chart")))
                "latest" "^1.0.0" eq_refl eq_refl eq_refl eq_refl) as (_ & _ & H).
    destruct (H eq_refl) as [H1 _]. exact H1.
Defined.

(** C3 as stated fails: the version latest is known before packaging, the
    range ^1.0.0 is configured and the version does not satisfy it, yet the
    process ends with code 1 and never writes the range-violation
    message. *)
Lemma C3_unparsable_version_counterexample :
  version_before_packaging unparsable_version_world
                           (Sample.request_of (Some "^1.0.0") None
                              (with_version (Some "latest") None (Sample.params_of "chart")))
  = Ok (Some "latest")
  /\ semver_satisfies unparsable_version_world "latest" "^1.0.0" <> Some true
  /\ snd (main unparsable_version_world) = 1%Z
  /\ ~ In (EStderr (range_violation "latest" "^1.0.0")) (fst (main unparsable_version_world)).
Proof.
  split; [reflexivity |]. split; [discriminate |]. split; [reflexivity |].
  vm_compute. intros [H | [H | [H | []]]]; discriminate H.
Qed.

(** C10.  A [version_file] that exists and is not a regular file is passed
    over without a word: the version is [params.version], and the whole
    invocation runs as it does for the same request without
    [version_file]. *)
Theorem C10_non_regular_version_file_is_skipped (w : World) (request : OutRequest)
        (vf : string) (st : Stats) :
  stdin_request w = Some request ->
  Params.version_file (params request) = Some vf ->
  fs_lstat w (resolve w (root_of w) [vf]) = Some st ->
  isFile st = false ->
  (forall log, resolve_version w (root_of w) request log
               = (log, Ok (Params.version (params request))))
  /\ out w [] = out (without_version_file w) []
  /\ main w = main (without_version_file w).
Proof.
  intros Hreq Hvf Hst Hfile.
  assert (Hres : forall log, resolve_version w (root_of w) request log
                             = (log, Ok (Params.version (params request)))).
  { intros log. unfold resolve_version, lstat, await, bind, ret.
    rewrite Hvf, Hst, Hfile. reflexivity. }
  assert (Hout : out w [] = out (without_version_file w) []).
  { destruct (Nat.eq_dec (List.length (argv w)) 3) as [Hargv | Hargv].
    - rewrite (out_to_range_check w request Hargv Hreq).
      assert (Hreq' : stdin_request (without_version_file w)
                      = Some {| source := source request;
                                params := with_version
                                            (Params.version (params request)) None
                                            (params request) |})
        by (unfold without_version_file; simpl; rewrite Hreq; reflexivity).
      rewrite (out_to_range_check (without_version_file w) _ Hargv Hreq').
      unfold version_before_packaging. rewrite Hres. reflexivity.
    - rewrite (out_wrong_argv w Hargv).
      rewrite (out_wrong_argv (without_version_file w) Hargv). reflexivity. }
  split; [exact Hres |]. split; [exact Hout |].
  unfold main. rewrite Hout. reflexivity.
Qed.

(** C10 on a request whose [version_file] names a directory and whose
    [version] is 1.2.3. *)
Lemma C10_non_regular_version_file_witness :
  out (version_file_world "versions") []
  = out (without_version_file (version_file_world "versions")) [].
Proof.
  destruct (C10_non_regular_version_file_is_skipped
              (version_file_world "versions")
              (Sample.request_of None None
                 (with_version (Some "1.2.3") (Some "versions")
                                      (Sample.params_of "chart")))
              "versions" Sample.dir_stats eq_refl eq_refl eq_refl eq_refl) as (_ & H & _).
  exact H.
Defined.

(* ------------------------------------------------------------------ *)
(** ** The upload *)

Lemma createFetchHeaders_cases b64 request :
  createFetchHeaders b64 request = []
  \/ exists credentials, createFetchHeaders b64 request = [("Authorization", credentials)].
Proof.
  unfold createFetchHeaders.
  destruct (truthy (basic_auth_username (source request))
            && truthy (basic_auth_password (source request))); eauto.
Qed.

(** The POST carries the headers and the body it is given. *)
Lemma upload_chart_posts w request agent headers body chartFile version log :
  exists rest,
    fst (upload_chart w request agent headers body chartFile version log)
    = (log ++ [EStderr ("Uploading chart file: " ++ Js.dq ++ chartFile ++ Js.dq ++ "..." ++ Js.nl);
               EPost (if is_true (Params.force (params request))
                      then server_url (source request) ++ "?force=true"
                      else server_url (source request))
                     agent headers body] ++ rest)%list.
Proof.
  unfold upload_chart, stderr_write, bind, try_catch, emit, await, when, ret, throw, exit.
  cbv zeta.
  set (postUrl := if is_true (Params.force (params request))
                  then server_url (source request) ++ "?force=true"
                  else server_url (source request)).
  destruct (fetch_post w postUrl agent headers body) as [resp |]; simpl.
  - destruct (negb (Response.status resp =? 201)%Z); simpl.
    + eexists. rewrite <- !app_assoc. simpl. reflexivity.
    + destruct (Response.json resp) as [reply |]; simpl.
      * destruct (not_nullish (UploadReply.error reply)); simpl;
          [| destruct (strict_neq_true (UploadReply.saved reply)); simpl];
          eexists; rewrite <- !app_assoc; simpl; reflexivity.
      * eexists. rewrite <- !app_assoc. simpl. reflexivity.
  - eexists. rewrite <- !app_assoc. simpl. reflexivity.
Qed.

Lemma bind_ok_inv {A B} (m : M A) (f : A -> M B) log log' b :
  bind m f log = (log', Ok b) ->
  exists a log1, m log = (log1, Ok a) /\ f a log1 = (log', Ok b).
Proof.
  unfold bind. destruct (m log) as [log1 [a | c | e]]; try discriminate. eauto.
Qed.

(** The stats that the packaging step returns are those of the archive it
    returns. *)
Lemma package_chart_stats w root request version log log' chartFile st cleanup :
  package_chart w root request version log = (log', Ok (chartFile, st, cleanup)) ->
  fs_lstat w chartFile = Some st.
Proof.
  unfold package_chart. cbv zeta. intros H.
  apply bind_ok_inv in H. destruct H as (_ & log1 & _ & H).
  apply bind_ok_inv in H. destruct H as (st0 & log2 & Hst0 & H).
  unfold lstat, await, ret, throw in Hst0.
  destruct (fs_lstat w (resolve w root [Params.chart (params request)])) as [st1 |] eqn:Hl;
    [| discriminate].
  injection Hst0 as _ ->.
  destruct (isDirectory st0).
  - apply bind_ok_inv in H. destruct H as (chartInfo & log3 & _ & H).
    apply bind_ok_inv in H. destruct H as (tmpDir & log4 & _ & H).
    apply bind_ok_inv in H. destruct H as (cmd & log5 & _ & H).
    unfold run_package in H. cbv zeta in H.
    apply bind_ok_inv in H. destruct H as (_ & log6 & _ & H).
    apply bind_ok_inv in H. destruct H as (st2 & log7 & Hst2 & H).
    unfold lstat, await, ret, throw in Hst2. unfold ret in H.
    injection H as _ <- <- _.
    match type of Hst2 with
    | context [fs_lstat w ?path] =>
        destruct (fs_lstat w path) as [st3 |] eqn:Hl2; [| discriminate Hst2]
    end.
    injection Hst2 as _ ->. exact Hl2.
  - destruct (isFile st0); [| discriminate].
    unfold ret in H. injection H as _ <- <- _. exact Hl.
Qed.

(** C7.  The payload of the upload is decided by [harbor_api] alone: when
    it is true, a form with the archive as its one field and the request
    headers as they were, so without a content length; otherwise the
    archive itself as the body, with a content length that is the size in
    the archive's stats and a content disposition that names the archive's
    base name.  The POST of [upload_chart] carries that payload, and the
    stats that the packaging step hands on are those of the archive. *)
Theorem C7_upload_payload_by_dialect (w : World) (request : OutRequest)
        (chartFile : string) (chartFileStat : Stats) :
  let headers := createFetchHeaders (base64 w) request in
  let payload := upload_payload w request headers chartFile chartFileStat in
  (is_true (harbor_api (source request)) = true ->
   payload = (headers, FormBody "chart" chartFile)
   /\ header_get "Content-Length" (fst payload) = None)
  /\ (is_true (harbor_api (source request)) = false ->
      snd payload = StreamBody chartFile
      /\ header_get "Content-Length" (fst payload)
         = Some (Js.N_to_string (size chartFileStat))
      /\ header_get "Content-Disposition" (fst payload)
         = Some ("attachment; filename=" ++ Js.dq ++ path_basename w chartFile ++ Js.dq))
  /\ (forall agent version log,
         exists url rest,
           fst (upload_chart w request agent (fst payload) (snd payload)
                             chartFile version log)
           = (log ++ [EStderr ("Uploading chart file: " ++ Js.dq ++ chartFile ++ Js.dq
                               ++ "..." ++ Js.nl);
                      EPost url agent (fst payload) (snd payload)] ++ rest)%list)
  /\ (forall root version log log' cleanup,
         package_chart w root request version log
         = (log', Ok (chartFile, chartFileStat, cleanup)) ->
         fs_lstat w chartFile = Some chartFileStat).
Proof.
  cbv zeta. unfold upload_payload. split; [| split; [| split]].
  4: { intros root version log log' cleanup. apply package_chart_stats. }
  - intros ->. split; [reflexivity |].
    destruct (createFetchHeaders_cases (base64 w) request) as [-> | [c ->]]; reflexivity.
  - intros ->. split; [reflexivity |].
    destruct (createFetchHeaders_cases (base64 w) request) as [-> | [c ->]];
      split; reflexivity.
  - intros agent version log. eexists. apply upload_chart_posts.
Qed.

(** C7 on scenario 2 (Harbor dialect) and scenario 1 (plain dialect), for
    the archive that packaging leaves behind, 2048 bytes long. *)
Lemma C7_upload_payload_witness :
  upload_payload Sample.harbor_dir
                 (Sample.request_of None (Some true) (Sample.params_of "chart"))
                 [] "/tmp/tmp-0/demo-1.0.0.tgz" (Sample.file_stats 2048)
  = ([], FormBody "chart" "/tmp/tmp-0/demo-1.0.0.tgz")
  /\ header_get "Content-Length"
                (fst (upload_payload Sample.plain_dir
                        (Sample.request_of None None (Sample.params_of "chart"))
                        [] "/tmp/tmp-0/demo-1.0.0.tgz" (Sample.file_stats 2048)))
     = Some "2048"
  /\ header_get "Content-Disposition"
                (fst (upload_payload Sample.plain_dir
                        (Sample.request_of None None (Sample.params_of "chart"))
                        [] "/tmp/tmp-0/demo-1.0.0.tgz" (Sample.file_stats 2048)))
     = Some ("attachment; filename=" ++ Js.dq ++ "demo-1.0.0.tgz" ++ Js.dq).
Proof.
  split.
  - destruct (C7_upload_payload_by_dialect
                Sample.harbor_dir
                (Sample.request_of None (Some true) (Sample.params_of "chart"))
                "/tmp/tmp-0/demo-1.0.0.tgz" (Sample.file_stats 2048)) as (H & _).
    destruct (H eq_refl) as [H1 _]. exact H1.
  - destruct (C7_upload_payload_by_dialect
                Sample.plain_dir
                (Sample.request_of None None (Sample.params_of "chart"))
                "/tmp/tmp-0/demo-1.0.0.tgz" (Sample.file_stats 2048)) as (_ & H & _).
    destruct (H eq_refl) as (_ & H1 & H2). split; [exact H1 | exact H2].
Defined.

(** C8 (as amended).  Given the reply to the POST: a status other than 201
    ends the process with that status as the code given to [process.exit];
    status 201 with a non-null [error] ends it with 602; status 201 without
    [error] and with [saved] other than the boolean true ends it with 603;
    the upload step is passed only on status 201, no [error] and [saved]
    true.  An exit of the upload step is the exit of whatever follows it.
    The parent process receives the low eight bits of the code [out] ends
    with: the status modulo 256 (the status itself only when it is below
    256), 90 for 602 and 91 for 603; these two differ, and they differ
    from the exit status of every reply whose status is not 90 or 91
    modulo 256. *)
Theorem C8_upload_reply (w : World) (request : OutRequest) (agent : Agent)
        (headers : Headers) (body : Body) (chartFile : string)
        (version : option string) (log : list Event)
        (postResult : Response.t UploadReply.t) :
  fetch_post w (if is_true (Params.force (params request))
                then server_url (source request) ++ "?force=true"
                else server_url (source request)) agent headers body
  = Some postResult ->
  let result := snd (upload_chart w request agent headers body chartFile version log) in
  (Response.status postResult <> 201%Z -> result = Exit (Response.status postResult))
  /\ (forall reply,
         Response.status postResult = 201%Z ->
         Response.json postResult = Some reply ->
         not_nullish (UploadReply.error reply) = true ->
         result = Exit 602%Z)
  /\ (forall reply,
         Response.status postResult = 201%Z ->
         Response.json postResult = Some reply ->
         not_nullish (UploadReply.error reply) = false ->
         UploadReply.saved reply <> JsBool true ->
         result = Exit 603%Z)
  /\ (result = Ok tt ->
      Response.status postResult = 201%Z
      /\ exists reply, Response.json postResult = Some reply
                       /\ not_nullish (UploadReply.error reply) = false
                       /\ UploadReply.saved reply = JsBool true)
  /\ (forall (B : Type) (next : M B) c,
         result = Exit c ->
         snd (bind (upload_chart w request agent headers body chartFile version)
                   (fun _ => next) log) = Exit c)
  /\ (forall c, snd (out w []) = Exit c -> process_status w = (c mod 256)%Z)
  /\ (exit_status 602 = 90%Z
      /\ exit_status 603 = 91%Z
      /\ exit_status (Response.status postResult) = (Response.status postResult mod 256)%Z
      /\ ((0 <= Response.status postResult < 256)%Z ->
          exit_status (Response.status postResult) = Response.status postResult)
      /\ ((Response.status postResult mod 256 <> 90)%Z ->
          exit_status (Response.status postResult) <> exit_status 602)
      /\ ((Response.status postResult mod 256 <> 91)%Z ->
          exit_status (Response.status postResult) <> exit_status 603)).
Proof.
  intros Hpost. cbv zeta.
  assert (Hrun : snd (upload_chart w request agent headers body chartFile version log)
                 = if negb (Response.status postResult =? 201)%Z
                   then Exit (Response.status postResult)
                   else match Response.json postResult with
                        | None => Throw (NodeError "json" EmptyString)
                        | Some reply =>
                            if not_nullish (UploadReply.error reply) then Exit 602%Z
                            else if strict_neq_true (UploadReply.saved reply) then Exit 603%Z
                                 else Ok tt
                        end).
  { unfold upload_chart, stderr_write, bind, try_catch, emit, await, when, ret, throw, exit.
    cbv zeta. rewrite Hpost. simpl.
    destruct (negb (Response.status postResult =? 201)%Z); simpl; [reflexivity |].
    destruct (Response.json postResult) as [reply |]; simpl; [| reflexivity].
    destruct (not_nullish (UploadReply.error reply)); simpl; [reflexivity |].
    destruct (strict_neq_true (UploadReply.saved reply)); reflexivity. }
  split; [| split; [| split; [| split; [| split; [| split]]]]].
  7: { unfold exit_status. split; [reflexivity |]. split; [reflexivity |].
       split; [reflexivity |]. split; [intros Hs; apply Z.mod_small; exact Hs |].
       split; intros Hs; exact Hs. }
  6: { intros c Hc. unfold process_status, main.
       destruct (out w []) as [log1 [a | c' | e]]; simpl in Hc; try discriminate.
       injection Hc as ->. reflexivity. }
  - intros Hs. rewrite Hrun. apply Z.eqb_neq in Hs. rewrite Hs. reflexivity.
  - intros reply Hs Hj He. rewrite Hrun, Hs, Hj, He. reflexivity.
  - intros reply Hs Hj He Hsaved. rewrite Hrun, Hs, Hj, He. simpl.
    destruct (UploadReply.saved reply) as [| | [|] | |]; try reflexivity. congruence.
  - rewrite Hrun. destruct (Response.status postResult =? 201)%Z eqn:Hs; simpl;
      [| discriminate].
    apply Z.eqb_eq in Hs. destruct (Response.json postResult) as [reply |]; [| discriminate].
    destruct (not_nullish (UploadReply.error reply)) eqn:He; [discriminate |].
    destruct (UploadReply.saved reply) as [| | [|] | |] eqn:Hsaved; simpl; try discriminate.
    intros _. split; [exact Hs |]. exists reply. rewrite Hsaved. auto.
  - intros B next c Hc. unfold bind.
    destruct (upload_chart w request agent headers body chartFile version log)
      as [log1 [[] | c' | e]]; simpl in Hc; try discriminate.
    injection Hc as ->. reflexivity.
Qed.

(** C8 on scenario 5 (201 with [saved] false), on a 409 reply and on a 201
    reply that carries an [error]; and what the parent process receives
    for the 409 reply. *)
Lemma C8_upload_reply_witness :
  snd (upload_chart (upload_world (Sample.reply 201 JsUndefined (JsBool false)))
                    (Sample.request_of None None (Sample.params_of "chart"))
                    (createFetchAgent (Sample.request_of None None (Sample.params_of "chart")))
                    [] (StreamBody "a.tgz") "a.tgz" (Some "1.0.0") [])
  = Exit 603%Z
  /\ snd (upload_chart (upload_world (Sample.reply 409 JsUndefined JsUndefined))
                       (Sample.request_of None None (Sample.params_of "chart"))
                       (createFetchAgent (Sample.request_of None None (Sample.params_of "chart")))
                       [] (StreamBody "a.tgz") "a.tgz" (Some "1.0.0") [])
     = Exit 409%Z
  /\ snd (upload_chart (upload_world (Sample.reply 201 (JsStr "bad chart") (JsBool true)))
                       (Sample.request_of None None (Sample.params_of "chart"))
                       (createFetchAgent (Sample.request_of None None (Sample.params_of "chart")))
                       [] (StreamBody "a.tgz") "a.tgz" (Some "1.0.0") [])
     = Exit 602%Z
  /\ process_status (upload_world (Sample.reply 409 JsUndefined JsUndefined))
     = (409 mod 256)%Z.
Proof.
  split; [| split; [| split]].
  - destruct (C8_upload_reply
                (upload_world (Sample.reply 201 JsUndefined (JsBool false)))
                (Sample.request_of None None (Sample.params_of "chart"))
                (createFetchAgent (Sample.request_of None None (Sample.params_of "chart")))
                [] (StreamBody "a.tgz") "a.tgz" (Some "1.0.0") []
                (Sample.reply 201 JsUndefined (JsBool false)) eq_refl) as (_ & _ & H & _).
    apply (H {| UploadReply.error := JsUndefined; UploadReply.saved := JsBool false |});
      [reflexivity | reflexivity | reflexivity | discriminate].
  - destruct (C8_upload_reply
                (upload_world (Sample.reply 409 JsUndefined JsUndefined))
                (Sample.request_of None None (Sample.params_of "chart"))
                (createFetchAgent (Sample.request_of None None (Sample.params_of "chart")))
                [] (StreamBody "a.tgz") "a.tgz" (Some "1.0.0") []
                (Sample.reply 409 JsUndefined JsUndefined) eq_refl) as (H & _).
    apply H. discriminate.
  - destruct (C8_upload_reply
                (upload_world (Sample.reply 201 (JsStr "bad chart") (JsBool true)))
                (Sample.request_of None None (Sample.params_of "chart"))
                (createFetchAgent (Sample.request_of None None (Sample.params_of "chart")))
                [] (StreamBody "a.tgz") "a.tgz" (Some "1.0.0") []
                (Sample.reply 201 (JsStr "bad chart") (JsBool true)) eq_refl) as (_ & H & _).
    apply (H {| UploadReply.error := JsStr "bad chart"; UploadReply.saved := JsBool true |});
      reflexivity.
  - destruct (C8_upload_reply
                (upload_world (Sample.reply 409 JsUndefined JsUndefined))
                (Sample.request_of None None (Sample.params_of "chart"))
                (createFetchAgent (Sample.request_of None None (Sample.params_of "chart")))
                [] (StreamBody "a.tgz") "a.tgz" (Some "1.0.0") []
                (Sample.reply 409 JsUndefined JsUndefined) eq_refl)
      as (_ & _ & _ & _ & _ & H & _).
    apply H. reflexivity.
Defined.

(** C8 as stated fails: the status is not what the parent process
    receives.  A 409 reply is received as 153; a 512 reply is received as
    0, the exit status of success; and a 346 reply is received as 90, as
    is a 201 reply that carries an [error]. *)
Lemma C8_exit_status_counterexample :
  (snd (main (upload_world (Sample.reply 409 JsUndefined JsUndefined))) = 409%Z
   /\ process_status (upload_world (Sample.reply 409 JsUndefined JsUndefined)) = 153%Z)
  /\ process_status (upload_world (Sample.reply 512 JsUndefined JsUndefined)) = 0%Z
  /\ (process_status (upload_world (Sample.reply 346 JsUndefined JsUndefined)) = 90%Z
      /\ process_status (upload_world (Sample.reply 201 (JsStr "bad chart") (JsBool true)))
         = 90%Z).
Proof. repeat split. Qed.

(** The exit codes of whole invocations with these replies. *)
Example scenario_5_not_saved :
  snd (main (upload_world (Sample.reply 201 JsUndefined (JsBool false)))) = 603%Z
  /\ snd (main (upload_world (Sample.reply 409 JsUndefined JsUndefined))) = 409%Z
  /\ snd (main (upload_world (Sample.reply 201 (JsStr "bad chart") (JsBool true)))) = 602%Z.
Proof. repeat split. Qed.

(* ------------------------------------------------------------------ *)
(** ** The verification *)

Lemma loose_neq_false a b : loose_neq a b = false <-> a = b.
Proof.
  destruct a as [x |], b as [y |]; simpl; split; try discriminate; try reflexivity.
  - intros H. apply negb_false_iff, String.eqb_eq in H. congruence.
  - intros [= ->]. rewrite String.eqb_refl. reflexivity.
Qed.

Lemma loose_neq_true a b : loose_neq a b = true <-> a <> b.
Proof.
  split.
  - intros H Heq. apply loose_neq_false in Heq. congruence.
  - intros H. destruct (loose_neq a b) eqn:E; [reflexivity |].
    apply loose_neq_false in E. contradiction.
Qed.

(** C9.  [verify_upload] first fetches chart_name/version below the server
    URL with headers built anew from the request.  Given a successful reply
    that decodes: in the plain dialect the body's [version], in the Harbor
    dialect its [metadata.version], must be equal to the version; any other
    value ends the process with exit code 203 (a Harbor body without
    [metadata] throws).  On equality the result is the version and digest
    of the body with the entries created, description, appVersion, home and
    tillerVersion in the plain dialect, and created, description and
    appVersion in the Harbor dialect, in this order. *)
Theorem C9_publish_verification (w : World) (request : OutRequest) (agent : Agent)
        (version : option string) (cleanup : option string) (log : list Event) :
  let headers := createFetchHeaders (base64 w) request in
  let chartInfoUrl := server_url (source request) ++ "/" ++ chart_name (source request)
                      ++ "/" ++ tpl version in
  let run := verify_upload w request agent version cleanup log in
  (exists rest, fst run = (log ++ fetching request agent headers version ++ rest)%list)
  /\ (forall chartResp chartJson,
         fetch_get w chartInfoUrl agent headers = Some chartResp ->
         Response.ok chartResp = true ->
         Response.json chartResp = Some chartJson ->
         (is_true (harbor_api (source request)) = false ->
          (ChartJson.version chartJson = version ->
           run = ((log ++ fetching request agent headers version)%list,
                  Ok {| data := plain_response chartJson; cleanupCallback := cleanup |}))
          /\ (ChartJson.version chartJson <> version -> snd run = Exit 203%Z))
         /\ (is_true (harbor_api (source request)) = true ->
             (forall m, ChartJson.metadata chartJson = Some m ->
                        (ChartJson.m_version m = version ->
                         run = ((log ++ fetching request agent headers version)%list,
                                Ok {| data := harbor_response chartJson m;
                                      cleanupCallback := cleanup |}))
                        /\ (ChartJson.m_version m <> version -> snd run = Exit 203%Z))
             /\ (ChartJson.metadata chartJson = None ->
                 snd run = Throw (TypeError "chartJson.metadata"))))
  /\ (forall chartJson m,
         map OutResponse.name (OutResponse.metadata (plain_response chartJson))
         = ["created"; "description"; "appVersion"; "home"; "tillerVersion"]
         /\ map OutResponse.name (OutResponse.metadata (harbor_response chartJson m))
            = ["created"; "description"; "appVersion"]
         /\ OutResponse.version_of (plain_response chartJson)
            = {| OutResponse.version := ChartJson.version chartJson;
                 OutResponse.digest := ChartJson.digest chartJson |}
         /\ OutResponse.version_of (harbor_response chartJson m)
            = {| OutResponse.version := ChartJson.m_version m;
                 OutResponse.digest := ChartJson.m_digest m |}).
Proof.
  cbv zeta. unfold fetching. split; [| split].
  - unfold verify_upload, metadata_of, stderr_write, bind, emit, await, when, ret, throw, exit.
    cbv zeta.
    destruct (fetch_get w _ agent (createFetchHeaders (base64 w) request)) as [resp |];
      simpl; [| exists []; rewrite <- !app_assoc; reflexivity].
    destruct (negb (Response.ok resp)); simpl;
      [eexists; rewrite <- !app_assoc; simpl; reflexivity |].
    destruct (Response.json resp) as [j |]; simpl;
      [| exists []; rewrite <- !app_assoc; reflexivity].
    destruct (is_true (harbor_api (source request))); simpl.
    + destruct (ChartJson.metadata j) as [m |]; simpl;
        [| exists []; rewrite <- !app_assoc; reflexivity].
      destruct (loose_neq version (ChartJson.m_version m)); simpl;
        eexists; rewrite <- !app_assoc; simpl; reflexivity.
    + destruct (loose_neq version (ChartJson.version j)); simpl;
        eexists; rewrite <- !app_assoc; simpl; reflexivity.
  - intros chartResp chartJson Hget Hok Hjson.
    unfold verify_upload, metadata_of, stderr_write, bind, emit, await, when, ret, throw, exit.
    cbv zeta. rewrite Hget. simpl. rewrite Hok. simpl. rewrite Hjson. simpl.
    split.
    + intros ->. split.
      * intros Hv. symmetry in Hv. apply loose_neq_false in Hv. rewrite Hv. simpl.
        rewrite <- !app_assoc. reflexivity.
      * intros Hv. assert (Hn : version <> ChartJson.version chartJson) by congruence.
        apply loose_neq_true in Hn. rewrite Hn. reflexivity.
    + intros ->. split.
      * intros m ->. simpl. split.
        -- intros Hv. symmetry in Hv. apply loose_neq_false in Hv. rewrite Hv. simpl.
           rewrite <- !app_assoc. reflexivity.
        -- intros Hv. assert (Hn : version <> ChartJson.m_version m) by congruence.
           apply loose_neq_true in Hn. rewrite Hn. reflexivity.
      * intros ->. reflexivity.
  - intros chartJson m. repeat split.
Qed.

(* ------------------------------------------------------------------ *)
(** ** The signing step *)

Lemma sign_chart_without_key w root request tmpDir cmd log :
  Params.key_data (params request) = None ->
  Params.key_file (params request) = None ->
  sign_chart w root request tmpDir cmd log
  = ((log ++ [EStderr "Either key_data or key_file must be specified, when 'sign' is set to true."])%list,
     Exit 332%Z).
Proof.
  intros Hd Hf. unfold sign_chart. rewrite Hd, Hf. reflexivity.
Qed.

Lemma sign_chart_run w root request tmpDir cmd log :
  Params.key_data (params request) <> None \/ Params.key_file (params request) <> None ->
  sign_chart w root request tmpDir cmd log
  = ((log ++ sign_events w root request tmpDir)%list,
     sign_outcome w root request tmpDir cmd).
Proof.
  intros Hkey.
  unfold sign_chart, sign_events, sign_start, sign_close, sign_outcome, signing_run,
    signing_key_file, keyring_created.
  destruct (Params.key_data (params request)) as [keyData |] eqn:Hd;
    [| destruct (Params.key_file (params request)) as [keyFile |] eqn:Hf;
       [| destruct Hkey; congruence]].
  all: cbv zeta;
    unfold writeFile, deltree, stderr_write, try_finally, try_catch, bind, emit, ret, throw;
    rewrite importGpgKey_run; cbv zeta; simpl tpl;
    destruct (gpg w _ _) as [run | report];
    [ destruct (rimraf w _); destruct (import_close _ _) | ];
    simpl; rewrite <- ?app_assoc; simpl; rewrite <- ?app_assoc; reflexivity.
Qed.

(* ------------------------------------------------------------------ *)
(** ** Keyring directories in a log *)

Lemma keyrings_app l1 l2 : keyrings (l1 ++ l2) = fold_left keyring_step l2 (keyrings l1).
Proof. unfold keyrings. apply fold_left_app. Qed.

Lemma exec_without_keyring_app dirs l1 l2 :
  exec_without_keyring dirs (l1 ++ l2)
  = exec_without_keyring dirs l1
    && exec_without_keyring (fold_left keyring_step l1 dirs) l2.
Proof.
  revert dirs. induction l1 as [| e l1 IH]; intros dirs; simpl; [reflexivity |].
  rewrite IH, andb_assoc. reflexivity.
Qed.

Lemma quiet_fold l dirs :
  forallb quiet l = true -> fold_left keyring_step l dirs = dirs.
Proof.
  revert dirs. induction l as [| e l IH]; intros dirs H; simpl in *; [reflexivity |].
  apply andb_true_iff in H. destruct H as [He Hl].
  rewrite IH by exact Hl. destruct e; simpl in He; try discriminate; reflexivity.
Qed.

Lemma quiet_exec l dirs :
  forallb quiet l = true -> exec_without_keyring dirs l = true.
Proof.
  revert dirs. induction l as [| e l IH]; intros dirs H; simpl in *; [reflexivity |].
  apply andb_true_iff in H. destruct H as [He Hl].
  rewrite IH by exact Hl. destruct e; simpl in He; try discriminate; reflexivity.
Qed.

Lemma remove_dir_self p : remove_dir p [p] = [].
Proof. unfold remove_dir. simpl. rewrite String.eqb_refl. reflexivity. Qed.

(** Quiet effects change neither the keyrings on disk nor what is known
    of the commands run so far. *)
Lemma keyrings_quiet log l : forallb quiet l = true -> keyrings (log ++ l) = keyrings log.
Proof. intros H. rewrite keyrings_app. apply quiet_fold. exact H. Qed.

Lemma exec_without_keyring_quiet log l :
  forallb quiet l = true ->
  exec_without_keyring [] (log ++ l) = exec_without_keyring [] log.
Proof.
  intros H. rewrite exec_without_keyring_app, (quiet_exec l) by exact H.
  apply andb_true_r.
Qed.

Lemma keyrings_mkdtemp log g : keyrings (log ++ [EMkdtemp g]) = g :: keyrings log.
Proof. rewrite keyrings_app. reflexivity. Qed.

Lemma exec_without_keyring_change log e :
  is_exec e = false ->
  exec_without_keyring [] (log ++ [e]) = exec_without_keyring [] log.
Proof.
  intros He. rewrite exec_without_keyring_app. simpl.
  destruct e; simpl in He; try discriminate; rewrite ?andb_true_r; reflexivity.
Qed.

(** The signing step up to the spawn: one keyring is made, and [gpg] is
    spawned on it. *)
Lemma sign_start_shape w root request tmpDir :
  exists before between,
    sign_start w root request tmpDir
    = (before ++ EMkdtemp (keyring_created w root)
              :: between
              ++ [ESpawn "gpg"
                         (gpg_args w root (resolve w root [keyring_created w root])
                                   (signing_key_file w root request tmpDir))
                         (Params.key_passphrase (params request))])%list
    /\ forallb quiet before = true
    /\ forallb quiet between = true.
Proof.
  unfold sign_start. cbv zeta.
  match goal with
  | |- context [(?b ++ [EMkdtemp ?c; ?e1; ?e2; ?e3])%list] => exists b, [e1; e2]
  end.
  split; [reflexivity |]. split; [| reflexivity].
  destruct (Params.key_data (params request)); reflexivity.
Qed.

Lemma sign_start_quiet_after w root request tmpDir log :
  keyrings log = [] ->
  keyrings (log ++ sign_start w root request tmpDir) = [keyring_created w root]
  /\ exec_without_keyring [] (log ++ sign_start w root request tmpDir)
     = exec_without_keyring [] log.
Proof.
  intros Hk.
  destruct (sign_start_shape w root request tmpDir) as (before & between & -> & Hb & Hm).
  change (EMkdtemp (keyring_created w root) :: between ++ ?tail)%list
    with ([EMkdtemp (keyring_created w root)] ++ between ++ tail)%list.
  rewrite !app_assoc. split.
  - rewrite keyrings_quiet by reflexivity. rewrite keyrings_quiet by exact Hm.
    rewrite keyrings_mkdtemp, keyrings_quiet by exact Hb. rewrite Hk. reflexivity.
  - rewrite exec_without_keyring_quiet by reflexivity.
    rewrite exec_without_keyring_quiet by exact Hm.
    rewrite exec_without_keyring_change by reflexivity.
    apply exec_without_keyring_quiet. exact Hb.
Qed.

Lemma sign_close_quiet w root request tmpDir run :
  forallb quiet (sign_close w root request tmpDir run) = true.
Proof.
  unfold sign_close. cbv zeta. rewrite !forallb_app.
  assert (Hchunks : forallb quiet (map EStderrChunk (gpg_stdout run)) = true)
    by (induction (gpg_stdout run); simpl; auto).
  rewrite Hchunks. destruct (import_close (gpg_code run) (gpg_stderr run)); reflexivity.
Qed.

Lemma spawn_in_sign_events w root request tmpDir :
  In (ESpawn "gpg"
             (gpg_args w root (resolve w root [keyring_created w root])
                       (signing_key_file w root request tmpDir))
             (Params.key_passphrase (params request)))
     (sign_events w root request tmpDir).
Proof.
  unfold sign_events, sign_start. cbv zeta. rewrite !in_app_iff. simpl. tauto.
Qed.

(** The signing step whose child runs to its [close] event and whose
    keyring can be removed: one keyring is made, [gpg] is spawned while it
    exists, and it is removed as the last effect. *)
Lemma sign_events_shape w root request tmpDir run :
  signing_run w root request tmpDir = Closed run ->
  rimraf w (resolve w root [keyring_created w root]) = true ->
  exists before between after,
    sign_events w root request tmpDir
    = (before ++ EMkdtemp (keyring_created w root)
              :: between
              ++ ESpawn "gpg"
                        (gpg_args w root (resolve w root [keyring_created w root])
                                  (signing_key_file w root request tmpDir))
                        (Params.key_passphrase (params request))
              :: after ++ [EDeltree (resolve w root [keyring_created w root])])%list
    /\ forallb quiet (before ++ between ++ after) = true.
Proof.
  intros Hrun Hrm. unfold sign_events. cbv zeta. rewrite Hrun, Hrm.
  destruct (sign_start_shape w root request tmpDir) as (before & between & -> & Hb & Hm).
  exists before, between, (sign_close w root request tmpDir run). split.
  - rewrite <- !app_assoc. cbn [app]. rewrite <- !app_assoc. reflexivity.
  - rewrite !forallb_app, Hb, Hm, sign_close_quiet. reflexivity.
Qed.

Lemma keyring_discipline_emit e log :
  is_signing e = false -> keyring_discipline log -> keyring_discipline (log ++ [e]).
Proof.
  intros He [Hk Hx]. split.
  - rewrite keyrings_app, Hk. destruct e; simpl in He; try discriminate; reflexivity.
  - rewrite exec_without_keyring_app, Hx. fold (keyrings log). rewrite Hk.
    destruct e; reflexivity.
Qed.

Lemma keyring_discipline_left w log how : keyring_discipline log -> keyring_left w log how.
Proof. intros [Hk Hx]. split; [exact Hx | left; exact Hk]. Qed.

(** The signing step returns with no keyring on disk, and does not return
    with one except in the two ways of [keyring_left]. *)
Lemma sign_chart_ends w root request tmpDir cmd :
  resolve w root [keyring_created w root] = keyring_created w root ->
  ends keyring_discipline (keyring_left w) (sign_chart w root request tmpDir cmd).
Proof.
  intros Hpath log [Hk Hx].
  destruct (Params.key_data (params request)) as [keyData |] eqn:Hd.
  2: destruct (Params.key_file (params request)) as [keyFile |] eqn:Hf.
  3: { rewrite sign_chart_without_key by assumption.
       apply keyring_discipline_left. apply keyring_discipline_emit; [reflexivity |].
       split; assumption. }
  all: rewrite sign_chart_run by (rewrite ?Hd, ?Hf; first [left; discriminate | right; discriminate]);
    unfold sign_events, sign_outcome; cbv zeta; rewrite Hpath;
    destruct (sign_start_quiet_after w root request tmpDir log Hk) as [Hk1 Hx1];
    rewrite Hx in Hx1;
    destruct (signing_run w root request tmpDir) as [run | report] eqn:Hrun;
    [ destruct (rimraf w (keyring_created w root)) eqn:Hrm | ];
    rewrite !app_assoc.
  all: try match goal with
           | |- context [(?l ++ [EDeltree ?g])%list] =>
               assert (Hend : keyring_discipline (l ++ [EDeltree g])%list)
                 by (split;
                     [ rewrite keyrings_app, keyrings_quiet, Hk1 by apply sign_close_quiet;
                       apply remove_dir_self
                     | rewrite exec_without_keyring_change by reflexivity;
                       rewrite exec_without_keyring_quiet by apply sign_close_quiet;
                       exact Hx1 ]);
               destruct (import_close _ _);
               [apply keyring_discipline_left; exact Hend | exact Hend]
           end.
  all: try (rewrite app_nil_r; split;
            [ rewrite exec_without_keyring_quiet by apply sign_close_quiet; exact Hx1
            | right; exists (keyring_created w root); split;
              [ rewrite keyrings_quiet by apply sign_close_quiet; exact Hk1
              | split; [reflexivity | exact Hrm] ] ]).
  all: split;
    [ rewrite exec_without_keyring_quiet by reflexivity; exact Hx1
    | right; exists (keyring_created w root); split;
      [ rewrite keyrings_quiet by reflexivity; exact Hk1
      | split; [reflexivity |];
        unfold signing_run in Hrun; rewrite Hpath in Hrun;
        do 3 eexists; split; [| exact Hrun];
        apply in_or_app; left; apply in_or_app; right;
        unfold sign_start; cbv zeta; rewrite Hpath, !in_app_iff; simpl; tauto ] ].
Qed.

Section Ends.

Variable I : list Event -> Prop.
Variable E : list Event -> Z + Thrown -> Prop.

Hypothesis I_emit :
  forall e log, is_signing e = false -> I log -> I (log ++ [e]).

Hypothesis I_E : forall log how, I log -> E log how.

Lemma ends_lift {A} (m : M A) : preserves I m -> ends I E m.
Proof.
  intros Hm log Hlog. specialize (Hm log Hlog).
  destruct (m log) as [log1 [a | c | e]]; simpl in Hm; auto.
Qed.

Lemma ends_bind {A B} (m : M A) (f : A -> M B) :
  ends I E m -> (forall a, ends I E (f a)) -> ends I E (bind m f).
Proof.
  intros Hm Hf log Hlog. unfold bind. specialize (Hm log Hlog).
  destruct (m log) as [log1 [a | c | e]]; [| exact Hm | exact Hm].
  apply Hf. exact Hm.
Qed.

Variable w : World.

Lemma package_chart_ends root request version :
  (forall tmpDir cmd, ends I E (sign_chart w root request tmpDir cmd)) ->
  ends I E (package_chart w root request version).
Proof.
  intros Hsign. unfold package_chart, stderr_write. cbv zeta.
  apply ends_bind; [apply ends_lift; apply preserves_emit; try exact I_emit; reflexivity | intros _].
  apply ends_bind; [apply ends_lift, preserves_await | intros st].
  destruct (isDirectory st).
  - apply ends_bind; [apply ends_lift, preserves_await | intros chartInfo].
    apply ends_bind; [apply ends_lift; apply createTmpDir_preserves; try exact I_emit | intros tmpDir].
    apply ends_bind.
    + destruct (is_true (Params.sign (params request)));
        [apply Hsign | apply ends_lift, preserves_ret].
    + intros cmd. apply ends_lift; apply run_package_preserves; try exact I_emit.
  - apply ends_lift. destruct (isFile st); [apply preserves_ret |].
    apply preserves_bind; [apply preserves_emit; [exact I_emit | reflexivity] | intros _].
    apply preserves_exit.
Qed.

Lemma publish_ends root request headers agent version :
  (forall tmpDir cmd, ends I E (sign_chart w root request tmpDir cmd)) ->
  ends I E (publish w root request headers agent version).
Proof.
  intros Hsign. unfold publish.
  apply ends_bind;
    [apply ends_lift; apply register_dependencies_preserves; try exact I_emit | intros _].
  apply ends_bind; [apply package_chart_ends; exact Hsign | intros [[chartFile st] cleanup]].
  apply ends_bind; [apply ends_lift; apply inspect_chart_preserves; try exact I_emit | intros v].
  destruct (upload_payload w request headers chartFile st) as [h b].
  apply ends_bind; [apply ends_lift; apply upload_chart_preserves; try exact I_emit | intros _].
  apply ends_lift; apply verify_upload_preserves; try exact I_emit.
Qed.

Lemma out_ends :
  (forall request tmpDir cmd, ends I E (sign_chart w (root_of w) request tmpDir cmd)) ->
  ends I E (out w).
Proof.
  intros Hsign. unfold out, stderr_write.
  apply ends_bind; [| intros _].
  { apply ends_lift, preserves_when.
    apply preserves_bind; [apply preserves_emit; [exact I_emit | reflexivity] | intros _].
    apply preserves_exit. }
  cbv zeta.
  apply ends_bind; [apply ends_lift; apply preserves_emit; try exact I_emit; reflexivity | intros _].
  apply ends_bind; [| intros request].
  { apply ends_lift. destruct (stdin_request w); [apply preserves_ret |].
    apply preserves_bind; [apply preserves_emit; [exact I_emit | reflexivity] | intros _].
    apply preserves_bind; [apply preserves_emit; [exact I_emit | reflexivity] | intros _].
    apply preserves_exit. }
  apply ends_bind; [apply ends_lift; apply resolve_version_preserves; try exact I_emit | intros version].
  apply ends_bind;
    [apply ends_lift; apply check_version_range_preserves; try exact I_emit | intros _].
  apply publish_ends. intros tmpDir cmd. apply Hsign.
Qed.

End Ends.

(** A keyring that was made and is not on disk later was removed in
    between. *)
Lemma keyring_still_there g post dirs :
  In g dirs -> In (EDeltree g) post \/ In g (fold_left keyring_step post dirs).
Proof.
  revert dirs. induction post as [| e post IH]; intros dirs Hin; simpl; [right; exact Hin |].
  assert (Hkeep : In g (keyring_step dirs e) -> (e = EDeltree g \/ In (EDeltree g) post)
                                                \/ In g (fold_left keyring_step post (keyring_step dirs e)))
    by (intros H; destruct (IH _ H); auto).
  destruct e; simpl in *; try (apply Hkeep; exact Hin).
  - apply Hkeep. right. exact Hin.
  - destruct (String.eqb g path) eqn:E.
    + apply String.eqb_eq in E. subst. left. left. reflexivity.
    + apply Hkeep. unfold remove_dir. apply filter_In. split; [exact Hin |].
      rewrite E. reflexivity.
Qed.




(** Scenario 4: the import reports no key; the invocation ends with the
    line-not-found rejection and exit code 1, the keyring removed. *)
Example scenario_4_identifier_not_found :
  snd (out (signing_world Sample.gpg_silent) []) = Throw line_not_found
  /\ snd (main (signing_world Sample.gpg_silent)) = 1%Z
  /\ In (EDeltree "/tmp/concourse-gpg-keyring-k3Yr1n")
        (fst (main (signing_world Sample.gpg_silent))).
Proof. repeat split. vm_compute. tauto. Qed.

(* ------------------------------------------------------------------ *)
(** ** When the signing step runs *)

Lemma no_signing_emit e log :
  is_signing e = false ->
  Forall (fun e => is_signing e = false) log ->
  Forall (fun e => is_signing e = false) (log ++ [e]).
Proof. intros He Hlog. apply Forall_app. split; [exact Hlog | repeat constructor; exact He]. Qed.

(** The packaging of a directory up to the signing step. *)
Lemma package_chart_enters_signing w root request version log st chartInfo tmpDir :
  fs_lstat w (resolve w root [Params.chart (params request)]) = Some st ->
  isDirectory st = true ->
  yaml_load w (resolve w root [resolve w root [Params.chart (params request)]; "Chart.yaml"])
  = Some chartInfo ->
  tmp_dir w (tmp_dirs_made log) = Some tmpDir ->
  is_true (Params.sign (params request)) = true ->
  package_chart w root request version log
  = bind (sign_chart w root request tmpDir
                     (if is_true (Params.dependency_update (params request))
                      then ["helm"; "package"; "--destination"; tmpDir; "--dependency-update"]
                      else ["helm"; "package"; "--destination"; tmpDir]))
         (run_package w root version (resolve w root [Params.chart (params request)])
                      chartInfo tmpDir)
         (log ++ [EStderr ("Processing chart at " ++ Js.dq
                           ++ resolve w root [Params.chart (params request)]
                           ++ Js.dq ++ "..." ++ Js.nl);
                  ETmpDir tmpDir])%list.
Proof.
  intros Hst Hdir Hyaml Htmp Hsign.
  unfold package_chart. cbv zeta.
  unfold bind at 1, stderr_write at 1, emit at 1.
  unfold bind at 1, lstat at 1, await at 1. rewrite Hst. unfold ret at 1.
  rewrite Hdir.
  unfold bind at 1, await at 1. rewrite Hyaml. unfold ret at 1.
  unfold bind at 1, createTmpDir at 1. unfold bind at 1, history at 1.
  unfold tmp_dirs_made in Htmp. rewrite filter_app, length_app. simpl.
  rewrite Nat.add_0_r, Htmp.
  unfold bind at 1, emit at 1, ret at 1.
  rewrite Hsign. rewrite <- app_assoc. simpl.
  destruct (is_true (Params.dependency_update (params request))); reflexivity.
Qed.

Lemma still_in_log (e0 : Event) :
  forall e log, is_signing e = false -> In e0 log -> In e0 (log ++ [e]).
Proof. intros e log _ H. apply in_or_app. left. exact H. Qed.




(* ------------------------------------------------------------------ *)
(** ** The version after inspection *)

Lemma bind_assoc {A B C} (m : M A) (f : A -> M B) (g : B -> M C) log :
  bind (bind m f) g log = bind m (fun a => bind (f a) g) log.
Proof. unfold bind. destruct (m log) as [log1 [a | c | e]]; reflexivity. Qed.

Lemma cut_at_equation label s :
  Js.cut_at label s =
  if Js.startsWith label s then Some (EmptyString, Js.drop (String.length label) s)
  else match s with
       | EmptyString => None
       | String c rest =>
           match Js.cut_at label rest with
           | Some (before, after) => Some (String c before, after)
           | None => None
           end
       end.
Proof. destruct s; reflexivity. Qed.

Lemma split_version_label_aux_nonempty fuel s :
  exists piece pieces, Js.split_version_label_aux fuel s = piece :: pieces.
Proof.
  destruct fuel as [| fuel]; simpl; [eauto |].
  destruct (Js.cut_at "version:" s) as [[before after] |]; eauto.
Qed.

(** A line that starts with the label always has text, possibly empty,
    after it. *)
Lemma inspected_version_defined stdout v :
  inspected_version stdout = Some v -> exists t, v = Some t.
Proof.
  unfold inspected_version.
  destruct (find (Js.startsWith "version:") (Js.split_lines stdout)) as [line |] eqn:Hfind;
    [| discriminate].
  intros [= <-]. apply find_some in Hfind. destruct Hfind as [_ Hstart].
  unfold Js.split_version_label. cbn [Js.split_version_label_aux].
  rewrite cut_at_equation, Hstart.
  destruct (split_version_label_aux_nonempty
              (String.length line) (Js.drop_spaces (Js.drop (String.length "version:") line)))
    as (piece & pieces & ->).
  exists piece. reflexivity.
Qed.

Lemma inspect_chart_ok w chartFile version log log' v :
  inspect_chart w chartFile version log = (log', Ok v) ->
  exists stdout stderr,
    exec w ("helm inspect chart " ++ chartFile) = ExecOk stdout stderr
    /\ inspected_version stdout = Some v.
Proof.
  unfold inspect_chart, run_exec, stderr_write, try_catch, bind, emit, when, ret, throw, exit.
  destruct (exec w ("helm inspect chart " ++ chartFile)) as [stdout stderr | stderr];
    [| discriminate].
  intros H. exists stdout, stderr. split; [reflexivity |].
  destruct stderr as [text |]; [destruct (0 <? String.length text)%nat |];
    destruct (inspected_version stdout) as [v' |]; simpl in H;
    try discriminate; injection H as _ ->; reflexivity.
Qed.

(** C1 (as amended).  Once an archive is at hand and its inspection
    succeeds, the version reported by the inspection (the text after the
    label on the first line of the report that starts with it) is the
    version of everything that follows, upload and verification; the
    version resolved before is not compared with it: whatever it was, the
    inspection ends the same way. *)
Theorem C1_inspected_version_is_effective (w : World) (root : string)
        (request : OutRequest) (headers : Headers) (agent : Agent)
        (version : option string) (log log1 log2 : list Event)
        (chartFile : string) (chartFileStat : Stats) (cleanup : option string)
        (inspected : option string) :
  bind (register_dependencies w root request)
       (fun _ => package_chart w root request version) log
  = (log1, Ok (chartFile, chartFileStat, cleanup)) ->
  inspect_chart w chartFile version log1 = (log2, Ok inspected) ->
  (exists stdout stderr t,
      exec w ("helm inspect chart " ++ chartFile) = ExecOk stdout stderr
      /\ inspected_version stdout = Some inspected
      /\ inspected = Some t)
  /\ (forall previous, inspect_chart w chartFile previous log1 = (log2, Ok inspected))
  /\ publish w root request headers agent version log
     = (let '(headers, body) := upload_payload w request headers chartFile chartFileStat in
        bind (upload_chart w request agent headers body chartFile inspected)
             (fun _ => verify_upload w request agent inspected cleanup)) log2.
Proof.
  intros Hpackage Hinspect. split; [| split].
  - destruct (inspect_chart_ok _ _ _ _ _ _ Hinspect) as (stdout & stderr & Hexec & Hv).
    destruct (inspected_version_defined _ _ Hv) as [t Ht].
    exists stdout, stderr, t. auto.
  - intros previous. exact Hinspect.
  - unfold publish.
    rewrite <- (bind_assoc (register_dependencies w root request)
                           (fun _ => package_chart w root request version)).
    rewrite (bind_ok _ _ _ _ _ Hpackage).
    rewrite (bind_ok _ _ _ _ _ Hinspect).
    reflexivity.
Qed.

(** C1 on a packaged chart of version 1.0.0 that is offered with
    [version] 2.0.0: upload and verification run with 1.0.0. *)
Lemma C1_inspected_version_witness :
  publish other_version_world "/work"
          (Sample.request_of None None
             (with_version (Some "2.0.0") None (Sample.params_of "demo-1.0.0.tgz")))
          [] (createFetchAgent (Sample.request_of None None (Sample.params_of "chart")))
          (Some "2.0.0") []
  = (let '(headers, body) :=
       upload_payload other_version_world
                      (Sample.request_of None None
                         (with_version (Some "2.0.0") None
                                              (Sample.params_of "demo-1.0.0.tgz")))
                      [] "/work/demo-1.0.0.tgz" (Sample.file_stats 2048) in
     bind (upload_chart other_version_world
                        (Sample.request_of None None
                           (with_version (Some "2.0.0") None
                                                (Sample.params_of "demo-1.0.0.tgz")))
                        (createFetchAgent (Sample.request_of None None (Sample.params_of "chart")))
                        headers body "/work/demo-1.0.0.tgz" (Some "1.0.0"))
          (fun _ =>
             verify_upload other_version_world
                           (Sample.request_of None None
                              (with_version (Some "2.0.0") None
                                                   (Sample.params_of "demo-1.0.0.tgz")))
                           (createFetchAgent (Sample.request_of None None (Sample.params_of "chart")))
                           (Some "1.0.0") None))
      [EStderr ("Processing chart at " ++ Js.dq ++ "/work/demo-1.0.0.tgz" ++ Js.dq
                ++ "..." ++ Js.nl);
       EStderr ("Inspecting chart file: " ++ Js.dq ++ "/work/demo-1.0.0.tgz" ++ Js.dq
                ++ "..." ++ Js.nl);
       EExec "helm inspect chart /work/demo-1.0.0.tgz"].
Proof.
  refine (proj2 (proj2 (C1_inspected_version_is_effective
                          other_version_world "/work" _ [] _ (Some "2.0.0") []
                          [EStderr ("Processing chart at " ++ Js.dq ++ "/work/demo-1.0.0.tgz"
                                    ++ Js.dq ++ "..." ++ Js.nl)]
                          _ "/work/demo-1.0.0.tgz" (Sample.file_stats 2048) None
                          (Some "1.0.0") _ _))); reflexivity.
Defined.

(** C1 as stated fails: a packaged chart of version 1.0.0 offered with
    [version] 2.0.0 is published as 1.0.0, the invocation ending with exit
    code 0; the mismatch of the two versions stops nothing. *)
Lemma C1_version_mismatch_counterexample :
  version_before_packaging
    other_version_world
    (Sample.request_of None None
       (with_version (Some "2.0.0") None (Sample.params_of "demo-1.0.0.tgz")))
  = Ok (Some "2.0.0")
  /\ exec other_version_world "helm inspect chart /work/demo-1.0.0.tgz"
     = ExecOk ("name: demo" ++ Js.nl ++ "version: 1.0.0" ++ Js.nl) (Some EmptyString)
  /\ inspected_version ("name: demo" ++ Js.nl ++ "version: 1.0.0" ++ Js.nl)
     = Some (Some "1.0.0")
  /\ snd (main other_version_world) = 0%Z
  /\ In (EGet "https://charts.example.com/api/charts/demo/1.0.0"
              (createFetchAgent (Sample.request_of None None (Sample.params_of "chart"))) [])
        (fst (main other_version_world)).
Proof. vm_compute. tauto. Qed.

(** C9 on scenario 1 (plain dialect), scenario 2 (Harbor dialect) and a
    server that publishes version 1.0.1 for the uploaded 1.0.0. *)
Lemma C9_publish_verification_witness :
  snd (verify_upload Sample.plain_dir
                     (Sample.request_of None None (Sample.params_of "chart"))
                     (createFetchAgent (Sample.request_of None None (Sample.params_of "chart")))
                     (Some "1.0.0") (Some "/tmp/tmp-0") [])
  = Ok {| data := plain_response (Sample.chart_json "1.0.0");
          cleanupCallback := Some "/tmp/tmp-0" |}
  /\ snd (verify_upload Sample.harbor_dir
                        (Sample.request_of None (Some true) (Sample.params_of "chart"))
                        (createFetchAgent (Sample.request_of None None (Sample.params_of "chart")))
                        (Some "1.0.0") (Some "/tmp/tmp-0") [])
     = Ok {| data := harbor_response
                       (Sample.chart_json "1.0.0")
                       {| ChartJson.m_version := Some "1.0.0";
                          ChartJson.m_digest := Some "sha256:0f";
                          ChartJson.m_created := Some "2019-01-01T00:00:00Z";
                          ChartJson.m_description := Some "A demo chart" |};
             cleanupCallback := Some "/tmp/tmp-0" |}
  /\ snd (verify_upload (renamed_world None)
                        (Sample.request_of None None (Sample.params_of "chart"))
                        (createFetchAgent (Sample.request_of None None (Sample.params_of "chart")))
                        (Some "1.0.0") (Some "/tmp/tmp-0") [])
     = Exit 203%Z.
Proof.
  split; [| split].
  - destruct (C9_publish_verification
                Sample.plain_dir
                (Sample.request_of None None (Sample.params_of "chart"))
                (createFetchAgent (Sample.request_of None None (Sample.params_of "chart")))
                (Some "1.0.0") (Some "/tmp/tmp-0") []) as (_ & H & _).
    destruct (H (Sample.metadata_reply "1.0.0") (Sample.chart_json "1.0.0")
                eq_refl eq_refl eq_refl) as [Hplain _].
    destruct (Hplain eq_refl) as [Hsame _]. rewrite (Hsame eq_refl). reflexivity.
  - destruct (C9_publish_verification
                Sample.harbor_dir
                (Sample.request_of None (Some true) (Sample.params_of "chart"))
                (createFetchAgent (Sample.request_of None None (Sample.params_of "chart")))
                (Some "1.0.0") (Some "/tmp/tmp-0") []) as (_ & H & _).
    destruct (H (Sample.metadata_reply "1.0.0") (Sample.chart_json "1.0.0")
                eq_refl eq_refl eq_refl) as [_ Hharbor].
    destruct (Hharbor eq_refl) as [Hmeta _].
    destruct (Hmeta _ eq_refl) as [Hsame _]. rewrite (Hsame eq_refl). reflexivity.
  - destruct (C9_publish_verification
                (renamed_world None)
                (Sample.request_of None None (Sample.params_of "chart"))
                (createFetchAgent (Sample.request_of None None (Sample.params_of "chart")))
                (Some "1.0.0") (Some "/tmp/tmp-0") []) as (_ & H & _).
    destruct (H (Sample.metadata_reply "1.0.1") (Sample.chart_json "1.0.1")
                eq_refl eq_refl eq_refl) as [Hplain _].
    destruct (Hplain eq_refl) as [_ Hother]. apply Hother. discriminate.
Defined.

(** Scenarios 1 and 2 as whole invocations: exit code 0 and the entries
    of each dialect on standard output. *)
Example scenario_1_and_2 :
  main Sample.plain_dir
  = (fst (main Sample.plain_dir), 0%Z)
  /\ In (EStdout (plain_response (Sample.chart_json "1.0.0"))) (fst (main Sample.plain_dir))
  /\ snd (main Sample.harbor_dir) = 0%Z
  /\ snd (main (renamed_world (Some true))) = 203%Z.
Proof. vm_compute. tauto. Qed.


(* ================================================================== *)
(** * More of the code *)

(** ** Which effects each step performs *)

Lemma triple_bind {A B} P R Q (m : M A) (f : A -> M B) :
  triple P m R -> (forall log, R log -> Q log) -> (forall a, triple R (f a) Q) ->
  triple P (bind m f) Q.
Proof.
  intros Hm HRQ Hf log Hlog. unfold bind. specialize (Hm log Hlog).
  destruct (m log) as [log1 [a | c | e]]; simpl in *; auto.
  apply Hf. exact Hm.
Qed.

Section Footprint.

Variable I : list Event -> Prop.
Variable ok : Event -> bool.

Hypothesis I_ok : forall e log, ok e = true -> I log -> I (log ++ [e]).

Hypothesis ok_stderr : forall text, ok (EStderr text) = true.
Hypothesis ok_json : forall times e, ok (EStderrJson times e) = true.
Hypothesis ok_chunk : forall chunk, ok (EStderrChunk chunk) = true.
Hypothesis ok_chdir : forall dir, ok (EChdir dir) = true.
Hypothesis ok_write : forall path content, ok (EWriteFile path content) = true.
Hypothesis ok_tmp : forall path, ok (ETmpDir path) = true.
Hypothesis ok_mkdtemp : forall path, ok (EMkdtemp path) = true.
Hypothesis ok_deltree : forall path, ok (EDeltree path) = true.
Hypothesis ok_exec : forall cmd, ok (EExec cmd) = true.
Hypothesis ok_spawn : forall cmd args stdin, ok (ESpawn cmd args stdin) = true.
Hypothesis ok_post : forall url agent headers body, ok (EPost url agent headers body) = true.
Hypothesis ok_get : forall url agent headers, ok (EGet url agent headers) = true.

Lemma emit_within e : ok e = true -> preserves I (emit e).
Proof. intros He log Hlog. simpl. apply I_ok; assumption. Qed.

Ltac within :=
  repeat (intros;
          first [ assumption
                | match goal with
                  | H : _ |- preserves _ _ => simple apply H
                  end
                | progress cbv zeta
                | apply preserves_ret
                | apply preserves_exit
                | apply preserves_throw
                | apply preserves_history
                | apply preserves_await
                | apply emit_within;
                  first [ apply ok_stderr | apply ok_json | apply ok_chunk | apply ok_chdir
                        | apply ok_write | apply ok_tmp | apply ok_mkdtemp | apply ok_deltree
                        | apply ok_exec | apply ok_spawn | apply ok_post | apply ok_get ]
                | apply preserves_bind
                | apply preserves_try_catch
                | apply preserves_try_finally
                | apply preserves_when
                | match goal with
                  | |- preserves _ (match ?x with _ => _ end) => destruct x
                  end ]).

Variable w : World.

Lemma resolve_version_within root request :
  preserves I (resolve_version w root request).
Proof. unfold resolve_version, lstat, readFile. within. Qed.

Lemma check_version_range_within request version :
  preserves I (check_version_range w request version).
Proof. unfold check_version_range, stderr_write. within. Qed.

Lemma createTmpDir_within : preserves I (createTmpDir w).
Proof. unfold createTmpDir. within. Qed.

Lemma run_exec_within cmd : preserves I (run_exec w cmd).
Proof. unfold run_exec. within. Qed.

Lemma add_dependency_repo_within root name repo :
  preserves I (add_dependency_repo w root name repo).
Proof.
  unfold add_dependency_repo, writeFile, stderr_write.
  pose proof createTmpDir_within. pose proof run_exec_within.
  within.
Qed.

Lemma add_dependency_repos_within root repos :
  preserves I (add_dependency_repos w root repos).
Proof.
  induction repos as [| [name repo] rest IH]; simpl; [within |].
  apply preserves_bind; [apply add_dependency_repo_within | intros _; exact IH].
Qed.

Lemma register_dependencies_within root request :
  preserves I (register_dependencies w root request).
Proof.
  unfold register_dependencies, stderr_write.
  pose proof add_dependency_repos_within. within.
Qed.

Lemma importGpgKey_within root gpgHome keyFile passphrase :
  preserves I (importGpgKey w root gpgHome keyFile passphrase).
Proof.
  unfold importGpgKey, stderr_write. cbv zeta.
  apply preserves_bind; [within | intros _].
  destruct (gpg w _ passphrase) as [run | report]; [| within].
  apply preserves_bind; [| within].
  induction (gpg_stdout run) as [| chunk chunks IH]; simpl; within.
Qed.

Lemma sign_chart_within root request tmpDir cmd :
  preserves I (sign_chart w root request tmpDir cmd).
Proof.
  unfold sign_chart, writeFile, deltree, stderr_write.
  pose proof importGpgKey_within. within.
Qed.

Lemma run_package_within root version chartLocation chartInfo tmpDir cmd :
  preserves I (run_package w root version chartLocation chartInfo tmpDir cmd).
Proof.
  unfold run_package, lstat, stderr_write. pose proof run_exec_within. within.
Qed.

Lemma package_chart_within root request version :
  preserves I (package_chart w root request version).
Proof.
  unfold package_chart, lstat, stderr_write.
  pose proof createTmpDir_within. pose proof run_package_within.
  pose proof sign_chart_within. within.
Qed.

Lemma inspect_chart_within chartFile version :
  preserves I (inspect_chart w chartFile version).
Proof.
  unfold inspect_chart, stderr_write. pose proof run_exec_within. within.
Qed.

Lemma upload_chart_within request agent headers body chartFile version :
  preserves I (upload_chart w request agent headers body chartFile version).
Proof. unfold upload_chart, stderr_write. within. Qed.

Lemma verify_upload_within request agent version cleanup :
  preserves I (verify_upload w request agent version cleanup).
Proof. unfold verify_upload, metadata_of, stderr_write. within. Qed.

(** The pipeline up to the upload keeps [I]; from the upload on it reaches
    [Q]. *)
Variable Q : list Event -> Prop.

Hypothesis I_Q : forall log, I log -> Q log.

Hypothesis finish :
  forall request agent headers body chartFile version cleanup,
    triple I
           (bind (upload_chart w request agent headers body chartFile version)
                 (fun _ => verify_upload w request agent version cleanup))
           Q.

Lemma publish_then root request headers agent version :
  triple I (publish w root request headers agent version) Q.
Proof.
  unfold publish.
  apply (triple_bind I I Q); [apply register_dependencies_within | exact I_Q | intros _].
  apply (triple_bind I I Q); [apply package_chart_within | exact I_Q |].
  intros [[chartFile st] cleanup].
  apply (triple_bind I I Q); [apply inspect_chart_within | exact I_Q | intros v].
  destruct (upload_payload w request headers chartFile st) as [h b].
  apply finish.
Qed.

Lemma out_then : triple I (out w) Q.
Proof.
  unfold out, stderr_write.
  apply (triple_bind I I Q); [within | exact I_Q | intros _]. cbv zeta.
  apply (triple_bind I I Q); [within | exact I_Q | intros _].
  destruct (stdin_request w) as [request |].
  2: { intros log Hlog. cbv [bind emit exit fst]. apply I_Q.
       apply I_ok; [apply ok_json |]. apply I_ok; [apply ok_stderr | exact Hlog]. }
  rewrite bind_ret_l.
  apply (triple_bind I I Q); [apply resolve_version_within | exact I_Q | intros version].
  apply (triple_bind I I Q); [apply check_version_range_within | exact I_Q | intros _].
  apply publish_then.
Qed.

End Footprint.

(* ------------------------------------------------------------------ *)
(** ** Logs *)

Lemma all_ok_emit ok e log : ok e = true -> all_ok ok log -> all_ok ok (log ++ [e]).
Proof.
  unfold all_ok. intros He Hlog. rewrite forallb_app, Hlog. simpl. rewrite He. reflexivity.
Qed.

Lemma all_ok_app ok l1 l2 : all_ok ok (l1 ++ l2) <-> all_ok ok l1 /\ all_ok ok l2.
Proof. unfold all_ok. rewrite forallb_app. apply andb_true_iff. Qed.

Lemma count_of_app p l1 l2 : count_of p (l1 ++ l2) = count_of p l1 + count_of p l2.
Proof. unfold count_of. rewrite filter_app, length_app. reflexivity. Qed.

Lemma count_of_none p l : all_ok (fun e => negb (p e)) l -> count_of p l = 0.
Proof.
  unfold all_ok, count_of. induction l as [| e l IH]; simpl; [reflexivity |].
  intros H. apply andb_true_iff in H. destruct H as [He Hl].
  apply negb_true_iff in He. rewrite He. apply IH. exact Hl.
Qed.

Lemma never_after_app first later seen l1 l2 :
  never_after first later seen (l1 ++ l2)
  = never_after first later seen l1
    && never_after first later (seen || existsb first l1) l2.
Proof.
  revert seen. induction l1 as [| e l1 IH]; intros seen; simpl.
  - rewrite orb_false_r. reflexivity.
  - rewrite IH, andb_assoc, orb_assoc. reflexivity.
Qed.

Lemma never_after_none_later first later seen l :
  all_ok (fun e => negb (later e)) l -> never_after first later seen l = true.
Proof.
  unfold all_ok. revert seen. induction l as [| e l IH]; intros seen H; simpl; [reflexivity |].
  simpl in H. apply andb_true_iff in H. destruct H as [He Hl].
  apply negb_true_iff in He. rewrite He, andb_false_r. simpl. apply IH. exact Hl.
Qed.

Lemma never_after_none_first first later l :
  all_ok (fun e => negb (first e)) l -> never_after first later false l = true.
Proof.
  unfold all_ok. induction l as [| e l IH]; intros H; simpl; [reflexivity |].
  simpl in H. apply andb_true_iff in H. destruct H as [He Hl].
  apply negb_true_iff in He. rewrite He. apply IH. exact Hl.
Qed.

Lemma none_exists p l : all_ok (fun e => negb (p e)) l -> existsb p l = false.
Proof.
  unfold all_ok. induction l as [| e l IH]; intros H; simpl; [reflexivity |].
  simpl in H. apply andb_true_iff in H. destruct H as [He Hl].
  apply negb_true_iff in He. rewrite He. apply IH. exact Hl.
Qed.

Lemma only_after_app trigger needs seen l1 l2 :
  only_after trigger needs seen (l1 ++ l2)
  = only_after trigger needs seen l1
    && only_after trigger needs (seen || existsb trigger l1) l2.
Proof.
  revert seen. induction l1 as [| e l1 IH]; intros seen; simpl.
  - rewrite orb_false_r. reflexivity.
  - rewrite IH, andb_assoc, orb_assoc. reflexivity.
Qed.

Lemma only_after_none_needs trigger needs seen l :
  all_ok (fun e => negb (needs e)) l -> only_after trigger needs seen l = true.
Proof.
  unfold all_ok. revert seen. induction l as [| e l IH]; intros seen H; simpl; [reflexivity |].
  simpl in H. apply andb_true_iff in H. destruct H as [He Hl].
  apply negb_true_iff in He. rewrite He. apply IH. exact Hl.
Qed.

Lemma only_after_seen trigger needs l : only_after trigger needs true l = true.
Proof.
  induction l as [| e l IH]; simpl; [reflexivity |].
  rewrite IH. destruct (needs e); reflexivity.
Qed.

(** Upload and verification perform no effect on the machine, and [out]
    writes nothing to standard output. *)
Lemma finish_within ok w request agent headers body chartFile version cleanup :
  (forall text, ok (EStderr text) = true) ->
  (forall times e, ok (EStderrJson times e) = true) ->
  (forall url a h b, ok (EPost url a h b) = true) ->
  (forall url a h, ok (EGet url a h) = true) ->
  preserves (all_ok ok)
            (bind (upload_chart w request agent headers body chartFile version)
                  (fun _ => verify_upload w request agent version cleanup)).
Proof.
  intros H1 H2 H3 H4. apply preserves_bind.
  - apply (upload_chart_within _ ok (all_ok_emit ok) H1 H2 H3).
  - intros _. apply (verify_upload_within _ ok (all_ok_emit ok) H1 H4).
Qed.

Lemma out_no_stdout w : all_ok (fun e => negb (is_stdout e)) (fst (out w [])).
Proof.
  apply (out_then _ (fun e => negb (is_stdout e)) (all_ok_emit _)); try reflexivity.
  - auto.
  - intros. apply finish_within; reflexivity.
Qed.

(** The upload was accepted when [upload_chart] is passed, and then its
    POST is in the log. *)
Lemma upload_chart_accepted w request agent headers body chartFile version log log1 :
  upload_chart w request agent headers body chartFile version log = (log1, Ok tt) ->
  existsb (accepted_post w) log1 = true.
Proof.
  unfold upload_chart, stderr_write, bind, try_catch, emit, await, when, ret, throw, exit.
  cbv zeta.
  set (postUrl := if is_true (Params.force (params request))
                  then server_url (source request) ++ "?force=true"
                  else server_url (source request)).
  destruct (fetch_post w postUrl agent headers body) as [resp |] eqn:Hpost; simpl;
    [| discriminate].
  destruct (Response.status resp =? 201)%Z eqn:Hs; simpl; [| discriminate].
  destruct (Response.json resp) as [reply |] eqn:Hj; simpl; [| discriminate].
  destruct (not_nullish (UploadReply.error reply)) eqn:He; simpl; [discriminate |].
  destruct (strict_neq_true (UploadReply.saved reply)) eqn:Hv; simpl; [discriminate |].
  intros [= <-]. rewrite !existsb_app. simpl. rewrite Hpost, Hs, Hj, He, Hv. simpl.
  rewrite !orb_true_r. reflexivity.
Qed.

(** The whole log of an upload and of a verification: one POST, one GET,
    and diagnostics. *)
Lemma upload_chart_log w request agent headers body chartFile version log :
  exists text url rest,
    fst (upload_chart w request agent headers body chartFile version log)
    = (log ++ EStderr text :: EPost url agent headers body :: rest)%list
    /\ all_ok (fun e => negb (is_network e)) rest.
Proof.
  unfold upload_chart, stderr_write, bind, try_catch, emit, await, when, ret, throw, exit.
  cbv zeta.
  destruct (fetch_post w _ agent headers body) as [resp |]; simpl.
  - destruct (negb (Response.status resp =? 201)%Z); simpl.
    + do 3 eexists. rewrite <- !app_assoc. simpl. split; reflexivity.
    + destruct (Response.json resp) as [reply |]; simpl.
      * destruct (not_nullish (UploadReply.error reply)); simpl;
          [| destruct (strict_neq_true (UploadReply.saved reply)); simpl];
          do 3 eexists; rewrite <- !app_assoc; simpl; split; reflexivity.
      * do 3 eexists. rewrite <- !app_assoc. simpl. split; reflexivity.
  - do 3 eexists. rewrite <- !app_assoc. simpl. split; reflexivity.
Qed.

Lemma verify_upload_log w request agent version cleanup log :
  exists text url headers rest,
    fst (verify_upload w request agent version cleanup log)
    = (log ++ EStderr text :: EGet url agent headers :: rest)%list
    /\ all_ok (fun e => negb (is_network e)) rest.
Proof.
  unfold verify_upload, metadata_of, stderr_write, bind, emit, await, when, ret, throw, exit.
  cbv zeta.
  destruct (fetch_get w _ agent (createFetchHeaders (base64 w) request)) as [resp |];
    simpl; [| do 4 eexists; rewrite <- !app_assoc; simpl; split; reflexivity].
  destruct (negb (Response.ok resp)); simpl;
    [do 4 eexists; rewrite <- !app_assoc; simpl; split; reflexivity |].
  destruct (Response.json resp) as [j |]; simpl;
    [| do 4 eexists; rewrite <- !app_assoc; simpl; split; reflexivity].
  destruct (is_true (harbor_api (source request))); simpl.
  - destruct (ChartJson.metadata j) as [m |]; simpl;
      [| do 4 eexists; rewrite <- !app_assoc; simpl; split; reflexivity].
    destruct (loose_neq version (ChartJson.m_version m)); simpl;
      do 4 eexists; rewrite <- !app_assoc; simpl; split; reflexivity.
  - destruct (loose_neq version (ChartJson.version j)); simpl;
      do 4 eexists; rewrite <- !app_assoc; simpl; split; reflexivity.
Qed.

(* ------------------------------------------------------------------ *)
(** ** The whole invocation *)

(** X1.  [out] writes nothing to standard output.  The process writes the
    response there exactly when [out] succeeds, as its last effect, and
    then exits with code 0; when [out] ends in [process.exit] nothing is
    added and that code is the exit code; when [out] throws, the exit code
    is 1 and standard output stays empty. *)
Theorem X1_stdout_only_on_success (w : World) :
  all_ok (fun e => negb (is_stdout e)) (fst (out w []))
  /\ match snd (out w []) with
     | Ok result =>
         exists diagnostics,
           fst (main w) = (diagnostics ++ [EStdout (data result)])%list
           /\ all_ok (fun e => negb (is_stdout e)) diagnostics
           /\ snd (main w) = 0%Z
     | Exit code => main w = (fst (out w []), code)
     | Throw e =>
         all_ok (fun e => negb (is_stdout e)) (fst (main w))
         /\ snd (main w) = 1%Z
     end.
Proof.
  pose proof (out_no_stdout w) as Hout. split; [exact Hout |].
  unfold main. destruct (out w []) as [log [result | code | e]]; simpl in *.
  - exists (log ++ match cleanupCallback result with
                   | Some _ => [EStderr ("Cleaning up..." ++ Js.nl)]
                   | None => []
                   end)%list.
    split; [rewrite <- app_assoc; reflexivity |]. split; [| reflexivity].
    apply all_ok_app. split; [exact Hout |].
    destruct (cleanupCallback result); reflexivity.
  - reflexivity.
  - split; [| reflexivity]. apply all_ok_app. split; [exact Hout | reflexivity].
Qed.

(** X2.  In every run of [out] the effects on the machine (working
    directory, files, temporary directories, child processes) all come
    before the first network call: once the upload is sent, only
    diagnostics and network calls follow. *)
Theorem X2_local_effects_before_network (w : World) :
  never_after is_network is_local_effect false (fst (out w [])) = true.
Proof.
  apply (out_then (all_ok (fun e => negb (is_network e))) (fun e => negb (is_network e))
                  (all_ok_emit _)); try reflexivity.
  - intros log. apply never_after_none_first.
  - intros request agent headers body chartFile version cleanup log Hlog.
    apply (never_after_none_first is_network is_local_effect) in Hlog.
    revert log Hlog.
    apply (preserves_bind (fun log => never_after is_network is_local_effect false log = true)).
    + apply (upload_chart_within _ (fun e => negb (is_local_effect e))); try reflexivity.
      intros e log He Hlog. rewrite never_after_app, Hlog. simpl.
      apply negb_true_iff in He. rewrite He, andb_false_r. reflexivity.
    + intros _.
      apply (verify_upload_within _ (fun e => negb (is_local_effect e))); try reflexivity.
      intros e log He Hlog. rewrite never_after_app, Hlog. simpl.
      apply negb_true_iff in He. rewrite He, andb_false_r. reflexivity.
Qed.

(** X3.  In every run of [out] the GET of the verification comes only
    after a POST that the server answered with status 201, no [error] and
    [saved] true: nothing is verified that was not accepted. *)
Theorem X3_verification_only_after_accepted_upload (w : World) :
  only_after (accepted_post w) is_get false (fst (out w [])) = true.
Proof.
  apply (out_then (all_ok (fun e => negb (is_get e))) (fun e => negb (is_get e))
                  (all_ok_emit _)); try reflexivity.
  - intros log. apply only_after_none_needs.
  - intros request agent headers body chartFile version cleanup log Hlog.
    assert (Hup : all_ok (fun e => negb (is_get e))
                         (fst (upload_chart w request agent headers body chartFile version log)))
      by (apply (upload_chart_within _ (fun e => negb (is_get e)) (all_ok_emit _));
          try reflexivity; exact Hlog).
    unfold bind.
    destruct (upload_chart w request agent headers body chartFile version log)
      as [log1 [[] | code | e]] eqn:Hrun; simpl in *;
      try (apply only_after_none_needs; exact Hup).
    apply upload_chart_accepted in Hrun.
    destruct (verify_upload_log w request agent version cleanup log1)
      as (text & url & h & rest & -> & _).
    rewrite only_after_app, Hrun, orb_true_r, only_after_seen, andb_true_r.
    apply only_after_none_needs. exact Hup.
Qed.

(** X4.  A run of [out] sends at most one POST and at most one GET, and no
    POST after the GET: the upload is never repeated. *)
Theorem X4_at_most_one_upload (w : World) :
  count_of is_post (fst (out w [])) <= 1
  /\ count_of is_get (fst (out w [])) <= 1
  /\ never_after is_get is_post false (fst (out w [])) = true.
Proof.
  apply (out_then (all_ok (fun e => negb (is_network e))) (fun e => negb (is_network e))
                  (all_ok_emit _)
                  ltac:(reflexivity) ltac:(reflexivity) ltac:(reflexivity) ltac:(reflexivity)
                  ltac:(reflexivity) ltac:(reflexivity) ltac:(reflexivity) ltac:(reflexivity)
                  ltac:(reflexivity) ltac:(reflexivity) w
                  (fun log => count_of is_post log <= 1
                              /\ count_of is_get log <= 1
                              /\ never_after is_get is_post false log = true)).
  3: reflexivity.
  - intros log Hlog.
    assert (Hp : all_ok (fun e => negb (is_post e)) log).
    { unfold all_ok in *. rewrite forallb_forall in *. intros e He.
      specialize (Hlog e He). destruct e; simpl in *; congruence. }
    assert (Hg : all_ok (fun e => negb (is_get e)) log).
    { unfold all_ok in *. rewrite forallb_forall in *. intros e He.
      specialize (Hlog e He). destruct e; simpl in *; congruence. }
    rewrite (count_of_none _ _ Hp), (count_of_none _ _ Hg).
    repeat split; try lia. apply never_after_none_later. exact Hp.
  - intros request agent headers body chartFile version cleanup log Hlog.
    assert (Hquiet : forall l, all_ok (fun e => negb (is_network e)) l ->
                               all_ok (fun e => negb (is_post e)) l
                               /\ all_ok (fun e => negb (is_get e)) l).
    { intros l Hl. unfold all_ok in *. rewrite !forallb_forall in *.
      split; intros e He; specialize (Hl e He); destruct e; simpl in *; congruence. }
    destruct (Hquiet log Hlog) as [Hp Hg].
    destruct (upload_chart_log w request agent headers body chartFile version log)
      as (text & url & rest & Hup & Hrest).
    destruct (Hquiet rest Hrest) as [Hrp Hrg].
    unfold bind.
    destruct (upload_chart w request agent headers body chartFile version log)
      as [log1 [[] | code | e]]; simpl in *; subst log1.
    2, 3: rewrite !count_of_app, (count_of_none _ _ Hp), (count_of_none _ _ Hg);
      change (EStderr text :: EPost url agent headers body :: rest)
        with ([EStderr text; EPost url agent headers body] ++ rest)%list;
      rewrite !count_of_app, (count_of_none _ _ Hrp), (count_of_none _ _ Hrg);
      rewrite !never_after_app, (never_after_none_later _ _ _ _ Hp),
        (never_after_none_later _ _ _ _ Hrp), (none_exists _ _ Hg);
      simpl; repeat split; lia.
    destruct (verify_upload_log w request agent version cleanup
                                (log ++ EStderr text :: EPost url agent headers body :: rest))
      as (text' & url' & h' & rest' & -> & Hrest').
    destruct (Hquiet rest' Hrest') as [Hrp' Hrg'].
    change (EStderr text :: EPost url agent headers body :: rest)
      with ([EStderr text; EPost url agent headers body] ++ rest)%list.
    change (EStderr text' :: EGet url' agent h' :: rest')
      with ([EStderr text'; EGet url' agent h'] ++ rest')%list.
    rewrite !count_of_app, (count_of_none _ _ Hp), (count_of_none _ _ Hg),
      (count_of_none _ _ Hrp), (count_of_none _ _ Hrg),
      (count_of_none _ _ Hrp'), (count_of_none _ _ Hrg').
    rewrite !never_after_app, (never_after_none_later _ _ _ _ Hp),
      (never_after_none_later _ _ _ _ Hrp), (never_after_none_later _ _ _ _ Hrp'),
      (none_exists _ _ Hg).
    simpl. repeat split; lia.
Qed.

(* ------------------------------------------------------------------ *)
(** ** Lines *)

Lemma append_assoc_string a b c : ((a ++ b) ++ c)%string = (a ++ b ++ c)%string.
Proof. induction a as [| x a IH]; simpl; [reflexivity | rewrite IH; reflexivity]. Qed.

Lemma no_line_terminator_app a b :
  Js.no_line_terminator (a ++ b) = Js.no_line_terminator a && Js.no_line_terminator b.
Proof.
  induction a as [| x a IH]; simpl; [reflexivity |]. rewrite IH, andb_assoc. reflexivity.
Qed.

Lemma no_line_terminator_head c l :
  Js.no_line_terminator (String c l) = true ->
  Ascii.eqb c Js.LF = false /\ Ascii.eqb c Js.CR = false /\ Js.no_line_terminator l = true.
Proof.
  simpl. unfold Js.is_line_terminator. intros H.
  apply andb_true_iff in H. destruct H as [Hc Hl].
  apply negb_true_iff, orb_false_iff in Hc. tauto.
Qed.

Lemma split_lines_single l :
  Js.no_line_terminator l = true -> Js.split_lines l = [l].
Proof.
  induction l as [| c l IH]; [reflexivity |]. intros H.
  apply no_line_terminator_head in H. destruct H as (Hlf & Hcr & Hl).
  simpl. rewrite Hlf, Hcr, (IH Hl). reflexivity.
Qed.

Lemma split_lines_lf l rest :
  Js.no_line_terminator l = true ->
  Js.split_lines (l ++ String Js.LF rest) = l :: Js.split_lines rest.
Proof.
  induction l as [| c l IH]; [reflexivity |]. intros H.
  apply no_line_terminator_head in H. destruct H as (Hlf & Hcr & Hl).
  simpl. rewrite Hlf, Hcr, (IH Hl). reflexivity.
Qed.

Lemma split_lines_crlf l rest :
  Js.no_line_terminator l = true ->
  Js.split_lines (l ++ String Js.CR (String Js.LF rest)) = l :: Js.split_lines rest.
Proof.
  induction l as [| c l IH]; [reflexivity |]. intros H.
  apply no_line_terminator_head in H. destruct H as (Hlf & Hcr & Hl).
  simpl. rewrite Hlf, Hcr, (IH Hl). reflexivity.
Qed.

Lemma concat_two_or_more sep l l2 lines :
  String.concat sep (l :: l2 :: lines) = (l ++ sep ++ String.concat sep (l2 :: lines))%string.
Proof. reflexivity. Qed.

(** X5.  Splitting into lines undoes joining: lines that hold no line
    terminator, joined by line feeds or by carriage return and line feed,
    are found again by [split(/\r?\n/)], the separators gone. *)
Theorem X5_split_lines_of_joined_lines (lines : list string) :
  lines <> [] ->
  Forall (fun l => Js.no_line_terminator l = true) lines ->
  Js.split_lines (Js.join Js.nl lines) = lines
  /\ Js.split_lines (Js.join (String Js.CR Js.nl) lines) = lines.
Proof.
  intros Hne Hall. unfold Js.join, Js.nl.
  induction lines as [| l lines IH]; [congruence |].
  inversion Hall as [| ? ? Hl Hrest]; subst.
  destruct lines as [| l2 lines].
  - simpl. rewrite (split_lines_single l Hl). split; reflexivity.
  - destruct (IH ltac:(discriminate) Hrest) as [IH1 IH2].
    rewrite !(concat_two_or_more _ l l2 lines). cbn [append].
    rewrite (split_lines_lf l _ Hl), (split_lines_crlf l _ Hl), IH1, IH2.
    split; reflexivity.
Qed.

Lemma X5_split_lines_witness :
  Js.split_lines (Js.join Js.nl ["name: demo"; EmptyString; "version: 1.0.0"])
  = ["name: demo"; EmptyString; "version: 1.0.0"]
  /\ Js.split_lines (Js.join (String Js.CR Js.nl) ["name: demo"; EmptyString; "version: 1.0.0"])
     = ["name: demo"; EmptyString; "version: 1.0.0"].
Proof.
  apply (X5_split_lines_of_joined_lines ["name: demo"; EmptyString; "version: 1.0.0"]).
  - discriminate.
  - repeat constructor.
Defined.

(** X6.  The version file's line break: of a text whose first line holds
    no line terminator, [replace(/\r?\n/, ...)] removes the break after that
    line, be it a line feed or a carriage return with a line feed, and
    joins the first line to whatever follows; a text without any line
    break is left as it is. *)
Theorem X6_first_line_break_removed (first rest : string) :
  Js.no_line_terminator first = true ->
  Js.remove_first_line_break (first ++ String Js.LF rest) = (first ++ rest)%string
  /\ Js.remove_first_line_break (first ++ String Js.CR (String Js.LF rest))
     = (first ++ rest)%string
  /\ Js.remove_first_line_break first = first.
Proof.
  induction first as [| c first IH]; intros H.
  - repeat split.
  - apply no_line_terminator_head in H. destruct H as (Hlf & Hcr & Hl).
    destruct (IH Hl) as (IH1 & IH2 & IH3).
    simpl. rewrite Hlf, Hcr. simpl. rewrite IH1, IH2, IH3. repeat split.
Qed.

Lemma X6_first_line_break_witness :
  Js.remove_first_line_break ("1.0.0" ++ String Js.LF ("rc" ++ Js.nl)) = "1.0.0rc" ++ Js.nl
  /\ Js.remove_first_line_break ("1.0.0" ++ String Js.CR (String Js.LF EmptyString)) = "1.0.0"
  /\ Js.remove_first_line_break "1.0.0" = "1.0.0".
Proof.
  destruct (X6_first_line_break_removed "1.0.0" ("rc" ++ Js.nl) eq_refl) as (H1 & _ & H3).
  destruct (X6_first_line_break_removed "1.0.0" EmptyString eq_refl) as (_ & H2 & _).
  split; [exact H1 | split; [exact H2 | exact H3]].
Defined.

(* ------------------------------------------------------------------ *)
(** ** The inspection report *)

Lemma drop_spaces_app ws v :
  forallb Js.is_space (list_ascii_of_string ws) = true ->
  Js.drop_spaces (ws ++ v) = Js.drop_spaces v.
Proof.
  induction ws as [| c ws IH]; simpl; [reflexivity |].
  intros H. apply andb_true_iff in H. destruct H as [Hc Hws].
  rewrite Hc. apply IH. exact Hws.
Qed.

Lemma includes_equation p s :
  Js.includes p s =
  Js.startsWith p s || match s with
                       | EmptyString => false
                       | String _ rest => Js.includes p rest
                       end.
Proof. destruct s; reflexivity. Qed.

Lemma cut_at_none label v : Js.includes label v = false -> Js.cut_at label v = None.
Proof.
  induction v as [| c v IH]; rewrite includes_equation, cut_at_equation; intros H;
    apply orb_false_iff in H; destruct H as [Hs Hr]; rewrite Hs; [reflexivity |].
  rewrite (IH Hr). reflexivity.
Qed.

Lemma split_lines_report lines last :
  Forall (fun l => Js.no_line_terminator l = true) lines ->
  Js.split_lines (report lines last) = (lines ++ Js.split_lines last)%list.
Proof.
  induction 1 as [| l lines Hl _ IH]; [reflexivity |].
  simpl. change (Js.nl ++ report lines last)%string with (String Js.LF (report lines last)).
  rewrite (split_lines_lf l _ Hl), IH. reflexivity.
Qed.

Lemma find_skips {A} (p : A -> bool) before rest :
  Forall (fun x => p x = false) before -> find p (before ++ rest) = find p rest.
Proof.
  induction 1 as [| x before Hx _ IH]; [reflexivity |]. simpl. rewrite Hx. exact IH.
Qed.

(** X7.  The version of an inspection report: when [version:] first opens
    a line after lines that hold no line terminator, the version is the
    rest of that line without the white space after the label (white space
    at its end is kept), provided the rest does not itself contain the
    label; what follows that line does not matter. *)
Theorem X7_inspected_version_of_report (before : list string) (ws v after : string) :
  Forall (fun l => Js.no_line_terminator l = true) before ->
  Forall (fun l => Js.startsWith "version:" l = false) before ->
  forallb Js.is_space (list_ascii_of_string ws) = true ->
  Js.no_line_terminator ws = true ->
  Js.no_line_terminator v = true ->
  Js.drop_spaces v = v ->
  Js.includes "version:" v = false ->
  inspected_version (report before ("version:" ++ ws ++ v ++ Js.nl ++ after)) = Some (Some v).
Proof.
  intros Hlines Hbefore Hws Hwsl Hv Hdrop Hinc. unfold inspected_version.
  rewrite (split_lines_report _ _ Hlines), (find_skips _ _ _ Hbefore).
  assert (Hline : Js.split_lines ("version:" ++ ws ++ v ++ Js.nl ++ after)
                  = ("version:" ++ ws ++ v)%string :: Js.split_lines after).
  { rewrite <- (split_lines_lf ("version:" ++ ws ++ v) after).
    - rewrite !append_assoc_string. reflexivity.
    - rewrite !no_line_terminator_app, Hwsl, Hv. reflexivity. }
  rewrite Hline. cbn [find].
  assert (Hstart : Js.startsWith "version:" ("version:" ++ ws ++ v) = true)
    by apply prefix_append.
  rewrite Hstart. f_equal.
  unfold Js.split_version_label. cbn [Js.split_version_label_aux].
  rewrite cut_at_equation, Hstart, drop_append, (drop_spaces_app ws v Hws), Hdrop.
  destruct (String.length ("version:" ++ ws ++ v)) as [| fuel];
    cbn [Js.split_version_label_aux]; [reflexivity |].
  rewrite (cut_at_none _ _ Hinc). reflexivity.
Qed.

Lemma X7_inspected_version_witness :
  inspected_version sample_report = Some (Some "1.0.0-rc.1 ").
Proof.
  apply (X7_inspected_version_of_report
           ["apiVersion: v1"; "appVersion: 3.1"; "name: demo"]
           "  " "1.0.0-rc.1 " "home: https://example.com");
    try reflexivity; repeat constructor.
Defined.

(* ------------------------------------------------------------------ *)
(** ** Headers and agent (src/index.ts) *)

(** X8.  The Authorization header: [createFetchHeaders] sets it, to Basic
    and the base64 text of user name, colon and password, only when user
    name and password are both present and not empty; the headers of the
    upload carry the same Authorization in both dialects. *)
Theorem X8_authorization_header (w : World) (request : OutRequest)
        (chartFile : string) (chartFileStat : Stats) :
  header_get "Authorization" (createFetchHeaders (base64 w) request)
  = match basic_auth_username (source request), basic_auth_password (source request) with
    | Some (String a username), Some (String b password) =>
        Some ("Basic " ++ base64 w (String a username ++ ":" ++ String b password))
    | _, _ => None
    end
  /\ header_get "Authorization"
                (fst (upload_payload w request (createFetchHeaders (base64 w) request)
                                     chartFile chartFileStat))
     = header_get "Authorization" (createFetchHeaders (base64 w) request).
Proof.
  unfold upload_payload, createFetchHeaders. split.
  - destruct (basic_auth_username (source request)) as [[| a u] |];
      destruct (basic_auth_password (source request)) as [[| b p] |]; reflexivity.
  - destruct (is_true (harbor_api (source request))); [reflexivity |].
    destruct (truthy (basic_auth_username (source request))
              && truthy (basic_auth_password (source request))); reflexivity.
Qed.

(** X9.  The agent of [createFetchAgent] never keeps connections alive,
    takes the CA certificate as it is, and has a client certificate and a
    client key only together: one without the other is dropped. *)
Theorem X9_client_certificate_needs_key (request : OutRequest) :
  keepAlive (createFetchAgent request) = false
  /\ ca (createFetchAgent request) = tls_ca_cert (source request)
  /\ match cert (createFetchAgent request), key (createFetchAgent request) with
     | Some c, Some k =>
         tls_client_cert (source request) = Some c
         /\ tls_client_key (source request) = Some k
     | None, None =>
         tls_client_cert (source request) = None \/ tls_client_key (source request) = None
     | _, _ => False
     end.
Proof.
  unfold createFetchAgent. simpl.
  destruct (tls_client_cert (source request)), (tls_client_key (source request)); simpl; auto.
Qed.

(* ------------------------------------------------------------------ *)
(** ** The start of [out] *)

(** X10.  With another number of arguments than one, the process exits
    with code 102 after one message, without changing directory and
    whatever standard input holds; with one argument and an undecodable
    request it changes into the root directory and exits with code 502. *)
Theorem X10_startup_failures (w : World) :
  List.length (argv w) <> 3%nat \/ stdin_request w = None ->
  main w =
  if (List.length (argv w) =? 3)%nat
  then ([EChdir (root_of w); EStderr no_request;
         EStderrJson 1 (NodeError "JSON.parse" EmptyString)], 502%Z)
  else ([EStderr (wrong_arguments w)], 102%Z).
Proof.
  intros H. unfold main, out, stderr_write.
  destruct (List.length (argv w) =? 3)%nat eqn:Hargv; [| reflexivity].
  apply Nat.eqb_eq in Hargv. destruct H as [H | H]; [contradiction |].
  rewrite H. reflexivity.
Qed.

Lemma X10_startup_failures_witness :
  main (with_process ["node"; "/opt/resource/out"]
                     (Some (Sample.request_of None None (Sample.params_of "chart")))
                     Sample.plain_dir)
  = ([EStderr ("Expected exactly one argument (root), got 0." ++ Js.nl)], 102%Z)
  /\ main (with_process ["node"; "/opt/resource/out"; "/work"] None Sample.plain_dir)
     = ([EChdir "/work"; EStderr no_request;
         EStderrJson 1 (NodeError "JSON.parse" EmptyString)], 502%Z).
Proof.
  split.
  - apply (X10_startup_failures
             (with_process ["node"; "/opt/resource/out"]
                           (Some (Sample.request_of None None (Sample.params_of "chart")))
                           Sample.plain_dir)).
    left. discriminate.
  - apply (X10_startup_failures
             (with_process ["node"; "/opt/resource/out"; "/work"] None Sample.plain_dir)).
    right. reflexivity.
Defined.

(** X11.  A version that is not known before packaging is not checked
    against [version_range]: with neither [version] nor a version file
    giving one, [out] changes into the root directory and goes straight on
    to packaging, inspection, upload and verification, whatever the
    range. *)
Theorem X11_unknown_version_skips_range_check (w : World) (request : OutRequest) :
  List.length (argv w) = 3%nat ->
  stdin_request w = Some request ->
  version_before_packaging w request = Ok None ->
  out w [] = publish w (root_of w) request (createFetchHeaders (base64 w) request)
                     (createFetchAgent request) None [EChdir (root_of w)].
Proof.
  intros Hargv Hreq Hv. rewrite (out_to_range_check w request Hargv Hreq), Hv. reflexivity.
Qed.

Lemma X11_unknown_version_witness :
  out declared_out_of_range_world []
  = publish declared_out_of_range_world "/work"
            (Sample.request_of (Some "^2.0.0") None (Sample.params_of "chart")) []
            (createFetchAgent (Sample.request_of None None (Sample.params_of "chart")))
            None [EChdir "/work"].
Proof.
  exact (X11_unknown_version_skips_range_check
           declared_out_of_range_world
           (Sample.request_of (Some "^2.0.0") None (Sample.params_of "chart"))
           eq_refl eq_refl eq_refl).
Defined.

(** The chart of that invocation declares 1.0.0, outside the range ^2.0.0,
    and is published. *)
Example declared_version_outside_range_is_published :
  semver_satisfies declared_out_of_range_world "1.0.0" "^2.0.0" = Some false
  /\ snd (main declared_out_of_range_world) = 0%Z.
Proof. split; reflexivity. Qed.

(* ------------------------------------------------------------------ *)
(** ** The dependency repositories *)

Lemma count_of_emit p e log :
  count_of p (log ++ [e]) = count_of p log + (if p e then 1 else 0).
Proof. rewrite count_of_app. unfold count_of. simpl. destruct (p e); reflexivity. Qed.

(** One round of the registrar runs one command, unless the temporary
    directory for its certificates cannot be made. *)
Lemma add_dependency_repo_outcome w root name repo log :
  match snd (add_dependency_repo w root name repo log) with
  | Ok _ =>
      count_of is_exec (fst (add_dependency_repo w root name repo log))
      = count_of is_exec log + 1
  | Exit code =>
      code = 193%Z
      /\ count_of is_exec (fst (add_dependency_repo w root name repo log))
         = count_of is_exec log + 1
  | Throw e =>
      e = NodeError "tmp.dir" EmptyString
      /\ count_of is_exec (fst (add_dependency_repo w root name repo log))
         = count_of is_exec log
  end.
Proof.
  unfold add_dependency_repo, createTmpDir, run_exec, writeFile, stderr_write,
    try_catch, bind, emit, history, ret, throw, exit.
  cbv zeta.
  destruct (basic_auth_username repo), (basic_auth_password repo),
    (tls_ca_cert repo), (tls_client_cert repo), (tls_client_key repo);
    repeat match goal with
           | |- context [match tmp_dir w ?n with _ => _ end] =>
               destruct (tmp_dir w n); cbn [fst snd]
           | |- context [match exec w ?c with _ => _ end] =>
               destruct (exec w c) as [? ? | [?|]]; cbn [fst snd thrown_stderr]
           end;
    rewrite ?count_of_emit; cbn [is_exec]; repeat split; lia.
Qed.

(** The effects of a log up to its first command, that command, and the
    effects after it. *)
Ltac split_at_exec l pre :=
  lazymatch l with
  | EExec ?c :: ?rest => constr:((pre, c, rest))
  | ?x :: ?rest => split_at_exec rest (pre ++ [x])%list
  end.

(** A round of the registrar that ends the process has run its command
    last, and that command has failed. *)
Lemma add_dependency_repo_exit w root name repo log code :
  snd (add_dependency_repo w root name repo log) = Exit code ->
  code = 193%Z
  /\ exists setup cmd stderr,
      fst (add_dependency_repo w root name repo log)
      = (log ++ setup ++ EExec cmd :: failure_report stderr "Adding Helm Repo failed.")%list
      /\ exec w cmd = ExecFail stderr
      /\ all_ok (fun e => negb (is_exec e)) setup.
Proof.
  unfold add_dependency_repo, createTmpDir, run_exec, writeFile, stderr_write,
    try_catch, bind, emit, history, ret, throw, exit.
  cbv zeta.
  destruct (basic_auth_username repo), (basic_auth_password repo),
    (tls_ca_cert repo), (tls_client_cert repo), (tls_client_key repo);
    repeat match goal with
           | |- context [match tmp_dir w ?n with _ => _ end] =>
               destruct (tmp_dir w n); cbn [fst snd]
           | |- context [match exec w ?c with _ => _ end] =>
               destruct (exec w c) as [? ? | [text |]] eqn:Hexec; cbn [fst snd thrown_stderr]
           end;
    intros Hc; try discriminate Hc; (split; [injection Hc; auto |]).
  all: rewrite <- ?app_assoc; cbn [app];
    match goal with
    | |- exists _ _ _, (_ ++ ?l)%list = _ /\ _ =>
        let r := split_at_exec l (@nil Event) in
        lazymatch r with
        | (?pre, ?c, _) =>
            match type of Hexec with
            | _ = ExecFail ?stderr => exists pre, c, stderr
            end
        end
    end;
    (split; [reflexivity | split; [exact Hexec | reflexivity]]).
Qed.

(** X12.  The registrar stops at the first repository whose round does not
    succeed: once the rounds of the repositories before it have succeeded,
    the registrar ends exactly as that round ends, with the same log and
    the same outcome, whatever repositories come after it; none of their
    commands is run, and what the earlier rounds did stays.  A round that
    ends the process does so with code 193, and then its command, the last
    one run, has failed.  When every round succeeds, one command was run
    for each repository. *)
Theorem X12_registrar_stops_at_first_failure (w : World) (root : string) :
  (forall before name repo after log log1,
      add_dependency_repos w root before log = (log1, Ok tt) ->
      snd (add_dependency_repo w root name repo log1) <> Ok tt ->
      add_dependency_repos w root (before ++ (name, repo) :: after)%list log
      = add_dependency_repo w root name repo log1)
  /\ (forall name repo log code,
         snd (add_dependency_repo w root name repo log) = Exit code ->
         code = 193%Z
         /\ exists setup cmd stderr,
             fst (add_dependency_repo w root name repo log)
             = (log ++ setup
                    ++ EExec cmd :: failure_report stderr "Adding Helm Repo failed.")%list
             /\ exec w cmd = ExecFail stderr
             /\ all_ok (fun e => negb (is_exec e)) setup)
  /\ (forall repos log log1,
         add_dependency_repos w root repos log = (log1, Ok tt) ->
         count_of is_exec log1 = count_of is_exec log + List.length repos).
Proof.
  split; [| split].
  - intros before. induction before as [| [n r] before IH];
      intros name repo after log log1 Hbefore Hround.
    + injection Hbefore as Heq. subst log1. cbn [app add_dependency_repos]. unfold bind.
      destruct (add_dependency_repo w root name repo log) as [l [[] | c | e]];
        [contradiction Hround |..]; reflexivity.
    + cbn [app add_dependency_repos] in *.
      apply bind_ok_inv in Hbefore. destruct Hbefore as ([] & l0 & Hfirst & Hrest).
      unfold bind at 1. rewrite Hfirst.
      apply (IH name repo after l0 log1 Hrest Hround).
  - intros name repo log code. apply add_dependency_repo_exit.
  - intros repos. induction repos as [| [n r] repos IH]; intros log log1 Hrun.
    + injection Hrun as Heq. subst log1. simpl. lia.
    + cbn [add_dependency_repos List.length] in *.
      apply bind_ok_inv in Hrun. destruct Hrun as ([] & l0 & Hfirst & Hrest).
      pose proof (add_dependency_repo_outcome w root n r log) as Hone.
      rewrite Hfirst in Hone. cbn [fst snd] in Hone.
      rewrite (IH l0 log1 Hrest). lia.
Qed.

(** X12 on three repositories of which the second cannot be added: the
    registrar ends as the round of the second does, with code 193, and the
    command of the third is not run. *)
Lemma X12_registrar_witness :
  add_dependency_repos broken_repo_world "/work"
                       [("stable", Sample.repo); ("broken", Sample.repo);
                        ("later", Sample.repo)] []
  = add_dependency_repo broken_repo_world "/work" "broken" Sample.repo
                        (fst (add_dependency_repos broken_repo_world "/work"
                                                   [("stable", Sample.repo)] []))
  /\ (exists setup cmd stderr,
         fst (add_dependency_repo broken_repo_world "/work" "broken" Sample.repo
                                  (fst (add_dependency_repos broken_repo_world "/work"
                                                             [("stable", Sample.repo)] [])))
         = (fst (add_dependency_repos broken_repo_world "/work" [("stable", Sample.repo)] [])
                ++ setup
                ++ EExec cmd :: failure_report stderr "Adding Helm Repo failed.")%list
         /\ exec broken_repo_world cmd = ExecFail stderr
         /\ all_ok (fun e => negb (is_exec e)) setup)
  /\ count_of is_exec (fst (add_dependency_repos broken_repo_world "/work"
                                                 [("stable", Sample.repo)] []))
     = 1.
Proof.
  destruct (X12_registrar_stops_at_first_failure broken_repo_world "/work")
    as (Hstop & Hexit & Hcount).
  split; [| split].
  - apply (Hstop [("stable", Sample.repo)] "broken" Sample.repo [("later", Sample.repo)] []).
    + reflexivity.
    + vm_compute. discriminate.
  - exact (proj2 (Hexit "broken" Sample.repo
                            (fst (add_dependency_repos broken_repo_world "/work"
                                                       [("stable", Sample.repo)] []))
                            193%Z eq_refl)).
  - apply (Hcount [("stable", Sample.repo)] []). reflexivity.
Defined.

(** X13.  Half a pair is ignored: a dependency repository with a user
    name and no password (or the reverse), or with a client certificate
    and no key (or the reverse), is registered exactly as the same
    repository without that half. *)
Theorem X13_registrar_ignores_half_pairs (w : World) (root name : string)
        (repo : Repository) (log : list Event) :
  add_dependency_repo w root name repo log
  = add_dependency_repo w root name (paired_only repo) log.
Proof.
  unfold add_dependency_repo, paired_only. cbn [server_url basic_auth_username
    basic_auth_password tls_ca_cert tls_client_cert tls_client_key].
  destruct (basic_auth_username repo), (basic_auth_password repo),
    (tls_client_cert repo), (tls_client_key repo); reflexivity.
Qed.

(* ------------------------------------------------------------------ *)
(** ** Packaging and inspection *)

(** X14.  A chart path that is no directory: a regular file is taken as
    the archive, with its own stats, no cleanup and no effect but one
    diagnostic; a path of another kind ends the process with code 110 after
    the not-found message; a path that does not exist makes [lstat] reject,
    so [out] throws instead of exiting with 110. *)
Theorem X14_chart_that_is_no_directory (w : World) (root : string)
        (request : OutRequest) (version : option string) (log : list Event) :
  let chartLocation := resolve w root [Params.chart (params request)] in
  let processing := EStderr ("Processing chart at " ++ Js.dq ++ chartLocation ++ Js.dq
                             ++ "..." ++ Js.nl) in
  (forall st, fs_lstat w chartLocation = Some st -> isDirectory st = false) ->
  package_chart w root request version log
  = match fs_lstat w chartLocation with
    | None => ((log ++ [processing])%list, Throw (NodeError "lstat" chartLocation))
    | Some st =>
        if isFile st
        then ((log ++ [processing])%list, Ok (chartLocation, st, None))
        else ((log ++ [processing;
                       EStderr ("Chart file (" ++ chartLocation ++ ") not found." ++ Js.nl)])%list,
              Exit 110%Z)
    end.
Proof.
  cbv zeta. intros Hkind.
  unfold package_chart, lstat, await, stderr_write, bind, emit, ret, throw, exit. cbv zeta.
  destruct (fs_lstat w (resolve w root [Params.chart (params request)])) as [st |];
    [| reflexivity].
  rewrite (Hkind st eq_refl). destruct (isFile st); [reflexivity |].
  rewrite <- app_assoc. reflexivity.
Qed.

Lemma X14_chart_that_is_no_directory_witness :
  package_chart signed_file_world "/work"
                (Sample.request_of None None
                   (Sample.with_sign (Some "KEY") None None
                                     (Sample.params_of "demo-1.0.0.tgz")))
                None []
  = ([EStderr ("Processing chart at " ++ Js.dq ++ "/work/demo-1.0.0.tgz" ++ Js.dq
               ++ "..." ++ Js.nl)],
     Ok ("/work/demo-1.0.0.tgz", Sample.file_stats 2048, None))
  /\ package_chart Sample.plain_dir "/work"
                   (Sample.request_of None None (Sample.params_of "nowhere"))
                   None []
     = ([EStderr ("Processing chart at " ++ Js.dq ++ "/work/nowhere" ++ Js.dq
                  ++ "..." ++ Js.nl)],
        Throw (NodeError "lstat" "/work/nowhere")).
Proof.
  split.
  - apply (X14_chart_that_is_no_directory
             signed_file_world "/work"
             (Sample.request_of None None
                (Sample.with_sign (Some "KEY") None None
                                  (Sample.params_of "demo-1.0.0.tgz")))
             None []).
    intros st [= <-]. reflexivity.
  - apply (X14_chart_that_is_no_directory
             Sample.plain_dir "/work"
             (Sample.request_of None None (Sample.params_of "nowhere")) None []).
    intros st H. discriminate H.
Defined.

(** The run of the packaging command, by cases. *)
Lemma run_package_run (w : World) (root : string) (version : option string)
        (chartLocation : string) (chartInfo : ChartInfo.t) (tmpDir : string)
        (cmd : list string) (log : list Event) :
  let command := package_command version chartLocation cmd in
  let archive := expected_archive w root version chartInfo tmpDir in
  let started := [EStderr ("Performing " ++ Js.dq ++ "helm package" ++ Js.dq ++ "..." ++ Js.nl);
                  EExec command] in
  run_package w root version chartLocation chartInfo tmpDir cmd log
  = match exec w command with
    | ExecFail stderr =>
        ((log ++ started ++ failure_report stderr "Packaging of chart file failed.")%list,
         Exit 121%Z)
    | ExecOk _ _ =>
        ((log ++ started)%list,
         match fs_lstat w archive with
         | Some st => Ok (archive, st, Some tmpDir)
         | None => Throw (NodeError "lstat" archive)
         end)
    end.
Proof.
  cbv zeta.
  unfold run_package, package_command, expected_archive, failure_report, run_exec, lstat,
    await, stderr_write, try_catch, bind, emit, ret, throw, exit.
  cbv zeta.
  destruct version as [v |];
    (destruct (exec w _) as [stdout stderr | [text |]]; cbn [thrown_stderr];
     [ destruct (fs_lstat w _); rewrite <- !app_assoc; reflexivity
     | rewrite <- !app_assoc; reflexivity
     | rewrite <- !app_assoc; reflexivity ]).
Qed.

(** X15.  The packaging command is the command built so far, the version
    switch when a version is known, and the chart directory.  When it
    fails, its own diagnostics are written before the failure message and
    the process exits with code 121; when it succeeds, the archive is
    expected under the name of the chart and the known version (the
    declared version when none is known) in the temporary directory, and
    its absence throws. *)
Theorem X15_packaging_command (w : World) (root : string) (version : option string)
        (chartLocation : string) (chartInfo : ChartInfo.t) (tmpDir : string)
        (cmd : list string) (log : list Event) :
  let command := package_command version chartLocation cmd in
  let archive := expected_archive w root version chartInfo tmpDir in
  let started := [EStderr ("Performing " ++ Js.dq ++ "helm package" ++ Js.dq ++ "..." ++ Js.nl);
                  EExec command] in
  run_package w root version chartLocation chartInfo tmpDir cmd log
  = match exec w command with
    | ExecFail stderr =>
        ((log ++ started ++ failure_report stderr "Packaging of chart file failed.")%list,
         Exit 121%Z)
    | ExecOk _ _ =>
        ((log ++ started)%list,
         match fs_lstat w archive with
         | Some st => Ok (archive, st, Some tmpDir)
         | None => Throw (NodeError "lstat" archive)
         end)
    end.
Proof. apply run_package_run. Qed.

(** X16.  The inspection never throws: it ends with exit code 120 when the
    inspection command fails, with exit code 121 when no line of its output
    starts with the version label, and otherwise in the version read from
    that output; it runs exactly one command. *)
Theorem X16_inspection_outcomes (w : World) (chartFile : string)
        (version : option string) (log : list Event) :
  snd (inspect_chart w chartFile version log)
  = match exec w ("helm inspect chart " ++ chartFile) with
    | ExecFail _ => Exit 120%Z
    | ExecOk stdout _ =>
        match inspected_version stdout with
        | None => Exit 121%Z
        | Some v => Ok v
        end
    end
  /\ count_of is_exec (fst (inspect_chart w chartFile version log))
     = count_of is_exec log + 1.
Proof.
  unfold inspect_chart, run_exec, stderr_write, try_catch, bind, emit, when, ret, throw, exit.
  destruct (exec w ("helm inspect chart " ++ chartFile)) as [stdout [text |] | stderr];
    [destruct (0 <? String.length text)%nat | |];
    try destruct (inspected_version stdout);
    cbn [fst snd]; rewrite ?count_of_emit; cbn [is_exec]; split; try reflexivity; lia.
Qed.

(* ------------------------------------------------------------------ *)
(** ** Failures of the network *)

(** X17.  The upload goes to the server URL, with [?force=true] appended
    exactly when [force] is true.  When the POST itself fails, the failure
    is reported and the process exits with code 124; when the server
    answers 201 with a body that does not decode, [out] throws, with
    neither of the exit codes of an unsaved chart. *)
Theorem X17_upload_transport_failures (w : World) (request : OutRequest) (agent : Agent)
        (headers : Headers) (body : Body) (chartFile : string)
        (version : option string) (log : list Event) :
  (fetch_post w (post_url request) agent headers body = None ->
   upload_chart w request agent headers body chartFile version log
   = ((log ++ uploading request agent headers body chartFile
           ++ [EStderr ("Upload of chart file to " ++ Js.dq ++ server_url (source request)
                        ++ Js.dq ++ " has failed." ++ Js.nl);
               EStderrJson 2 (NodeError "fetch" (post_url request))])%list,
      Exit 124%Z))
  /\ (forall postResult,
         fetch_post w (post_url request) agent headers body = Some postResult ->
         Response.status postResult = 201%Z ->
         Response.json postResult = None ->
         upload_chart w request agent headers body chartFile version log
         = ((log ++ uploading request agent headers body chartFile)%list,
            Throw (NodeError "json" EmptyString))).
Proof.
  unfold upload_chart, uploading, post_url, stderr_write, bind, try_catch, emit, await,
    when, ret, throw, exit.
  cbv zeta. split.
  - intros ->. simpl. rewrite <- !app_assoc. reflexivity.
  - intros postResult -> Hs ->. simpl. rewrite Hs. simpl. rewrite <- !app_assoc. reflexivity.
Qed.

Lemma X17_upload_transport_failures_witness :
  snd (upload_chart (with_network None None Sample.plain_dir)
                    (Sample.request_of None None (Sample.params_of "chart"))
                    (createFetchAgent (Sample.request_of None None (Sample.params_of "chart")))
                    [] (StreamBody "a.tgz") "a.tgz" (Some "1.0.0") [])
  = Exit 124%Z
  /\ snd (upload_chart (with_network (Some (undecodable 201 "created")) None Sample.plain_dir)
                       (Sample.request_of None None (Sample.params_of "chart"))
                       (createFetchAgent (Sample.request_of None None (Sample.params_of "chart")))
                       [] (StreamBody "a.tgz") "a.tgz" (Some "1.0.0") [])
     = Throw (NodeError "json" EmptyString).
Proof.
  split.
  - destruct (X17_upload_transport_failures
                (with_network None None Sample.plain_dir)
                (Sample.request_of None None (Sample.params_of "chart"))
                (createFetchAgent (Sample.request_of None None (Sample.params_of "chart")))
                [] (StreamBody "a.tgz") "a.tgz" (Some "1.0.0") []) as [H _].
    rewrite (H eq_refl). reflexivity.
  - destruct (X17_upload_transport_failures
                (with_network (Some (undecodable 201 "created")) None Sample.plain_dir)
                (Sample.request_of None None (Sample.params_of "chart"))
                (createFetchAgent (Sample.request_of None None (Sample.params_of "chart")))
                [] (StreamBody "a.tgz") "a.tgz" (Some "1.0.0") []) as [_ H].
    rewrite (H (undecodable 201 "created") eq_refl eq_refl eq_refl). reflexivity.
Defined.

(** X18.  The verification fails in three ways before any comparison: a
    GET that itself fails makes [out] throw; an answer outside the status
    codes 200 to 299 has its body written to standard error and ends the
    process with code 710; an answer inside them whose body does not decode
    makes [out] throw. *)
Theorem X18_verification_fetch_failures (w : World) (request : OutRequest) (agent : Agent)
        (version : option string) (cleanup : option string) (log : list Event) :
  let headers := createFetchHeaders (base64 w) request in
  let chartInfoUrl := server_url (source request) ++ "/" ++ chart_name (source request)
                      ++ "/" ++ tpl version in
  let run := verify_upload w request agent version cleanup log in
  (fetch_get w chartInfoUrl agent headers = None ->
   run = ((log ++ fetching request agent headers version)%list,
          Throw (NodeError "fetch" chartInfoUrl)))
  /\ (forall chartResp,
         fetch_get w chartInfoUrl agent headers = Some chartResp ->
         (Response.status chartResp < 200 \/ 300 <= Response.status chartResp)%Z ->
         run = ((log ++ fetching request agent headers version
                     ++ [EStderr ("Download of chart information failed." ++ Js.nl);
                         EStderr (Response.text chartResp)])%list,
                Exit 710%Z))
  /\ (forall chartResp,
         fetch_get w chartInfoUrl agent headers = Some chartResp ->
         (200 <= Response.status chartResp < 300)%Z ->
         Response.json chartResp = None ->
         run = ((log ++ fetching request agent headers version)%list,
                Throw (NodeError "json" EmptyString))).
Proof.
  cbv zeta.
  unfold verify_upload, fetching, metadata_of, stderr_write, bind, emit, await, when,
    ret, throw, exit.
  cbv zeta. split; [| split].
  - intros ->. simpl. rewrite <- !app_assoc. reflexivity.
  - intros chartResp -> Hs. simpl.
    assert (Hok : Response.ok chartResp = false).
    { unfold Response.ok. apply andb_false_iff.
      destruct Hs; [left; apply Z.leb_gt | right; apply Z.ltb_ge]; lia. }
    rewrite Hok. simpl. rewrite <- !app_assoc. reflexivity.
  - intros chartResp -> Hs ->. simpl.
    assert (Hok : Response.ok chartResp = true).
    { unfold Response.ok. apply andb_true_iff.
      split; [apply Z.leb_le | apply Z.ltb_lt]; lia. }
    rewrite Hok. simpl. rewrite <- !app_assoc. reflexivity.
Qed.

Lemma X18_verification_fetch_failures_witness :
  snd (verify_upload (with_network None None Sample.plain_dir)
                     (Sample.request_of None None (Sample.params_of "chart"))
                     (createFetchAgent (Sample.request_of None None (Sample.params_of "chart")))
                     (Some "1.0.0") None [])
  = Throw (NodeError "fetch" "https://charts.example.com/api/charts/demo/1.0.0")
  /\ snd (verify_upload (with_network None (Some (undecodable 404 "not found"))
                                      Sample.plain_dir)
                        (Sample.request_of None None (Sample.params_of "chart"))
                        (createFetchAgent (Sample.request_of None None (Sample.params_of "chart")))
                        (Some "1.0.0") None [])
     = Exit 710%Z
  /\ snd (verify_upload (with_network None (Some (undecodable 200 "<html>"))
                                      Sample.plain_dir)
                        (Sample.request_of None None (Sample.params_of "chart"))
                        (createFetchAgent (Sample.request_of None None (Sample.params_of "chart")))
                        (Some "1.0.0") None [])
     = Throw (NodeError "json" EmptyString).
Proof.
  split; [| split].
  - destruct (X18_verification_fetch_failures
                (with_network None None Sample.plain_dir)
                (Sample.request_of None None (Sample.params_of "chart"))
                (createFetchAgent (Sample.request_of None None (Sample.params_of "chart")))
                (Some "1.0.0") None []) as (H & _).
    rewrite (H eq_refl). reflexivity.
  - destruct (X18_verification_fetch_failures
                (with_network None (Some (undecodable 404 "not found")) Sample.plain_dir)
                (Sample.request_of None None (Sample.params_of "chart"))
                (createFetchAgent (Sample.request_of None None (Sample.params_of "chart")))
                (Some "1.0.0") None []) as (_ & H & _).
    rewrite (H (undecodable 404 "not found") eq_refl); [reflexivity |].
    right. simpl. lia.
  - destruct (X18_verification_fetch_failures
                (with_network None (Some (undecodable 200 "<html>")) Sample.plain_dir)
                (Sample.request_of None None (Sample.params_of "chart"))
                (createFetchAgent (Sample.request_of None None (Sample.params_of "chart")))
                (Some "1.0.0") None []) as (_ & _ & H).
    rewrite (H (undecodable 200 "<html>") eq_refl); [reflexivity | simpl; lia | reflexivity].
Defined.

(* ------------------------------------------------------------------ *)
(** ** The signed package *)

(** X19.  A signed package: when the [gpg] child runs to its [close]
    event, the key import succeeds and the keyring directory is removed,
    the packaging command carries the signing switches with the imported
    key's identifier and a keyring file inside the temporary keyring
    directory, and it runs after that directory has been removed. *)
Theorem X19_signed_package_command (w : World) (root : string) (request : OutRequest)
        (version : option string) (log : list Event) (st : Stats)
        (chartInfo : ChartInfo.t) (tmpDir keyId : string) (run : GpgRun) :
  let chartLocation := resolve w root [Params.chart (params request)] in
  let gpgHome := resolve w root [keyring_created w root] in
  let base := if is_true (Params.dependency_update (params request))
              then ["helm"; "package"; "--destination"; tmpDir; "--dependency-update"]
              else ["helm"; "package"; "--destination"; tmpDir] in
  let command :=
    package_command version chartLocation
                    (base ++ ["--sign"; "--key"; keyId; "--keyring";
                              (Js.dq ++ resolve w root [gpgHome; "secring.gpg"] ++ Js.dq)%string])%list in
  fs_lstat w chartLocation = Some st ->
  isDirectory st = true ->
  yaml_load w (resolve w root [chartLocation; "Chart.yaml"]) = Some chartInfo ->
  tmp_dir w (tmp_dirs_made log) = Some tmpDir ->
  is_true (Params.sign (params request)) = true ->
  Params.key_data (params request) <> None \/ Params.key_file (params request) <> None ->
  signing_run w root request tmpDir = Closed run ->
  import_close (gpg_code run) (gpg_stderr run) = inr keyId ->
  rimraf w gpgHome = true ->
  exists before after,
    fst (package_chart w root request version log)
    = (before ++ EDeltree gpgHome :: after)%list
    /\ In (EExec command) after.
Proof.
  cbv zeta. intros Hst Hdir Hyaml Htmp Hsign Hkey Hrun Himport Hrm.
  rewrite (package_chart_enters_signing w root request version log st chartInfo tmpDir
                                        Hst Hdir Hyaml Htmp Hsign).
  unfold bind. rewrite (sign_chart_run _ _ _ _ _ _ Hkey).
  unfold sign_outcome. cbv zeta. rewrite Hrun, Hrm, Himport.
  rewrite run_package_run.
  destruct (sign_events_shape w root request tmpDir run Hrun Hrm)
    as (b & between & after & -> & _).
  match goal with
  | |- context [(?l ++ b ++ EMkdtemp ?c :: between ++ ?s :: after ++ [EDeltree ?g])%list] =>
      exists (l ++ b ++ EMkdtemp c :: between ++ s :: after)%list
  end.
  destruct (exec w _) as [stdout stderr | stderr]; cbn [fst];
    match goal with
    | |- exists _, (_ ++ ?tail)%list = _ /\ _ => exists tail
    end;
    (split; [| right; left; reflexivity]);
    repeat (progress (rewrite <- ?app_assoc; cbn [app])); reflexivity.
Qed.

Lemma X19_signed_package_command_witness :
  exists before after,
    fst (package_chart (signing_world Sample.gpg_imported) "/work"
                       (Sample.request_of None None
                          (Sample.with_sign (Some "KEY") None None (Sample.params_of "chart")))
                       None [])
    = (before ++ EDeltree "/tmp/concourse-gpg-keyring-k3Yr1n" :: after)%list
    /\ In (EExec ("helm package --destination /tmp/tmp-0 --sign --key 1A2B3C4D --keyring "
                  ++ Js.dq ++ "/tmp/concourse-gpg-keyring-k3Yr1n/secring.gpg" ++ Js.dq
                  ++ " /work/chart"))
          after.
Proof.
  apply (X19_signed_package_command
           (signing_world Sample.gpg_imported) "/work"
           (Sample.request_of None None
              (Sample.with_sign (Some "KEY") None None (Sample.params_of "chart")))
           None [] Sample.dir_stats
           {| ChartInfo.name := "demo"; ChartInfo.version := "1.0.0" |}
           "/tmp/tmp-0" "1A2B3C4D" Sample.gpg_imported); try reflexivity.
  left. discriminate.
Defined.

(* ================================================================== *)
(** ** The [in] operation *)

Lemma prefix_app_long p : forall x y,
  (String.length p <= String.length x)%nat ->
  String.prefix p (x ++ y) = String.prefix p x.
Proof.
  induction p as [| a p IH]; intros x y Hlen.
  - destruct x; [destruct y |]; reflexivity.
  - destruct x as [| b x]; simpl in Hlen; [lia |].
    simpl. destruct (ascii_dec a b); [apply IH; lia | reflexivity].
Qed.

Lemma prefix_self_app p : forall y, String.prefix p (p ++ y) = true.
Proof.
  induction p as [| a p IH]; intros y; simpl.
  - destruct y; reflexivity.
  - destruct (ascii_dec a a); [apply IH | congruence].
Qed.

Lemma drop_length_app p : forall y, Js.drop (String.length p) (p ++ y) = y.
Proof.
  induction p as [| a p IH]; intros y; simpl; [destruct y; reflexivity | apply IH].
Qed.

Lemma length_app_string a : forall b,
  String.length (a ++ b) = (String.length a + String.length b)%nat.
Proof. induction a as [| c a IH]; intros b; simpl; [reflexivity | rewrite IH; reflexivity]. Qed.

(** The leftmost occurrence is the one that is cut: [stem] followed by [c]
    is the pattern, and it does not begin inside [a]. *)
Lemma cut_at_first stem c b : forall a,
  Js.includes (stem ++ String c EmptyString) (a ++ stem) = false ->
  Js.cut_at (stem ++ String c EmptyString) (a ++ (stem ++ String c EmptyString) ++ b)
  = Some (a, b).
Proof.
  induction a as [| x a IH]; intros H; rewrite cut_at_equation; unfold Js.startsWith.
  - change (EmptyString ++ (stem ++ String c EmptyString) ++ b)
      with ((stem ++ String c EmptyString) ++ b).
    rewrite prefix_self_app, drop_length_app. reflexivity.
  - rewrite includes_equation in H. apply orb_false_iff in H. destruct H as [Hs Hr].
    unfold Js.startsWith in Hs.
    assert (Hp : String.prefix (stem ++ String c EmptyString)
                               (String x a ++ (stem ++ String c EmptyString) ++ b) = false).
    { rewrite (append_assoc_string stem), <- (append_assoc_string (String x a)).
      rewrite prefix_app_long; [exact Hs |].
      rewrite !length_app_string. simpl. lia. }
    rewrite Hp. change (String x a ++ (stem ++ String c EmptyString) ++ b)
      with (String x (a ++ (stem ++ String c EmptyString) ++ b)).
    cbv beta iota. rewrite (IH Hr). reflexivity.
Qed.

(** Every run of the script either stops early, with no file written and
    nothing printed, or goes through [download]. *)
Ltac in_cases :=
  repeat match goal with
         | |- context [match ?x with _ => _ end] =>
             lazymatch x with
             | context [match _ with _ => _ end] => fail
             | _ => destruct x eqn:?
             end
         end.

(** X20 (in.ts 34-39, 55-60, 64-69, 88-93): a [target_basename] in the
    parameters names the three files of a finished run, in the order
    archive, provenance file, metadata: each path is [path.resolve] of the
    destination and the base name with its extension.  The name and the
    version of the chart play no part in the file names, and nothing
    confines them to the destination. *)
Theorem X20_target_basename_names_the_files (w : In.World) (request : In.Request.t)
        (basename : string) :
  In.stdin_request w = Some request ->
  In.Request.params request = Some (Some basename) ->
  snd (In.main w) = In.Finished ->
  let destination := In.path_resolve w (In.cwd w) [nth 2 (In.argv w) "undefined"] in
  In.written (fst (In.main w))
  = [ In.path_resolve w (In.cwd w) [destination; (basename ++ ".tgz")%string];
      In.path_resolve w (In.cwd w) [destination; (basename ++ ".tgz.prov")%string];
      In.path_resolve w (In.cwd w) [destination; (basename ++ ".json")%string] ].
Proof.
  intros Hreq Hpar. unfold In.main, In.download, In.target_basename.
  rewrite Hreq, Hpar. in_cases; simpl; intros H; try discriminate H; reflexivity.
Qed.

Lemma X20_target_basename_witness :
  In.written (fst (In.main (In.harbor_world (Some (Some "chart")))))
  = [ "/dest/chart.tgz"; "/dest/chart.tgz.prov"; "/dest/chart.json" ].
Proof.
  exact (X20_target_basename_names_the_files
           (In.harbor_world (Some (Some "chart")))
           (In.harbor_request (Some (Some "chart"))) "chart" eq_refl eq_refl eq_refl).
Defined.

(** An absolute [target_basename] takes the three files out of the
    destination. *)
Example target_basename_is_not_confined :
  In.written (fst (In.main (In.harbor_world (Some (Some "/etc/cron.d/job")))))
  = [ "/etc/cron.d/job.tgz"; "/etc/cron.d/job.tgz.prov"; "/etc/cron.d/job.json" ].
Proof. reflexivity. Qed.

(** X21 (in.ts 29-30, 54-58, 87-91): the script never looks at the status
    of an answer.  Against a server that gives every answer another
    status, the run is the same: the same requests, the same files with
    the same contents, the same response. *)
Theorem X21_status_is_not_examined (w : In.World) (status : Z) :
  In.main (In.with_status status w) = In.main w.
Proof.
  unfold In.main, In.download.
  cbn [In.with_status In.argv In.cwd In.stdin_request In.path_resolve In.base64 In.fetch].
  in_cases; cbn [Response.json Response.text] in *; try congruence; try reflexivity.
Qed.

(** X22 (in.ts 52, 85): the download address is the server address with
    its first [api/] taken out, and only the first; an address without
    [api/] is used as it is. *)
Theorem X22_first_api_segment_removed :
  (forall a b : string,
      Js.includes "api/" (a ++ "api") = false ->
      In.remove_first "api/" (a ++ "api/" ++ b) = (a ++ b)%string)
  /\ (forall s : string,
         Js.includes "api/" s = false -> In.remove_first "api/" s = s).
Proof.
  split.
  - intros a b H. unfold In.remove_first.
    change "api/"%string with ("api" ++ String "/" EmptyString)%string.
    rewrite (cut_at_first "api" "/" b a H). reflexivity.
  - intros s H. unfold In.remove_first. rewrite (cut_at_none _ _ H). reflexivity.
Qed.

Lemma X22_first_api_segment_witness :
  In.remove_first "api/" "https://harbor.example.com/api/chartrepo/api/charts"
  = "https://harbor.example.com/chartrepo/api/charts"%string
  /\ In.remove_first "api/" "https://charts.example.com" = "https://charts.example.com"%string.
Proof.
  destruct X22_first_api_segment_removed as [Hfirst Hnone]. split.
  - exact (Hfirst "https://harbor.example.com/" "chartrepo/api/charts" eq_refl).
  - exact (Hnone "https://charts.example.com" eq_refl).
Defined.

(** X23 (in.ts 15-97): the response is the last thing a run does.  A
    finished run has written the archive and the provenance file, then the
    metadata file, and then printed one response; a run that ends in any
    other way has printed nothing and has written no metadata file. *)
Theorem X23_response_after_the_files (w : In.World) :
  (snd (In.main w) = In.Finished ->
   exists before path chartJson response,
     fst (In.main w) = (before ++ [In.WriteJson path chartJson; In.Stdout response])%list
     /\ forallb (fun e => negb (In.is_stdout e || In.is_metadata_file e)) before = true
     /\ List.length (In.written before) = 2%nat)
  /\ (snd (In.main w) <> In.Finished ->
      forallb (fun e => negb (In.is_stdout e || In.is_metadata_file e)) (fst (In.main w))
      = true).
Proof.
  unfold In.main, In.download.
  in_cases; simpl; (split; [intros H; try discriminate H | intros H; try congruence; try reflexivity]).
  all: eexists [_; _; _; _; _]; do 3 eexists; split; [reflexivity | split; reflexivity].
Qed.

Lemma X23_response_after_the_files_witness :
  (exists before path chartJson response,
      fst (In.main (In.harbor_world None))
      = (before ++ [In.WriteJson path chartJson; In.Stdout response])%list
      /\ forallb (fun e => negb (In.is_stdout e || In.is_metadata_file e)) before = true
      /\ List.length (In.written before) = 2%nat)
  /\ forallb (fun e => negb (In.is_stdout e || In.is_metadata_file e))
             (fst (In.main (In.offline (In.harbor_world None)))) = true.
Proof.
  split.
  - destruct (X23_response_after_the_files (In.harbor_world None)) as [H _].
    apply H. reflexivity.
  - destruct (X23_response_after_the_files (In.offline (In.harbor_world None))) as [_ H].
    apply H. vm_compute. discriminate.
Defined.

Lemma prov_address a b c :
  ((a ++ "/" ++ b ++ "-" ++ c ++ ".tgz") ++ ".prov")%string
  = (a ++ "/" ++ b ++ "-" ++ c ++ ".tgz.prov")%string.
Proof. rewrite !append_assoc_string. reflexivity. Qed.

(** X24 (in.ts 41-57, 71-90): the archive a finished run has downloaded is
    the one of the version it reports: the version in the response is the
    version in the address of the archive and of the provenance file, in
    both dialects. *)
Theorem X24_archive_of_reported_version (w : In.World) :
  snd (In.main w) = In.Finished ->
  exists request before response,
    In.stdin_request w = Some request
    /\ fst (In.main w) = (before ++ [In.Stdout response])%list
    /\ let address := (In.remove_first "api/" (server_url (In.Request.source request))
                       ++ "/" ++ chart_name (In.Request.source request) ++ "-"
                       ++ tpl (OutResponse.version (OutResponse.version_of response))
                       ++ ".tgz")%string in
       In (In.Fetch address (In.createFetchHeaders (In.base64 w) request)) before
       /\ In (In.Fetch (address ++ ".prov") (In.createFetchHeaders (In.base64 w) request))
             before.
Proof.
  unfold In.main, In.download.
  in_cases; cbn [fst snd]; intros H; try discriminate H.
  all: eexists; eexists [_; _; _; _; _; _]; eexists; split; [reflexivity |];
    (split; [reflexivity |]); cbv zeta; split;
    [ right; left; reflexivity
    | do 3 right; left; f_equal; symmetry; apply prov_address ].
Qed.

Lemma X24_archive_of_reported_version_witness :
  exists request before response,
    In.stdin_request (In.harbor_world None) = Some request
    /\ fst (In.main (In.harbor_world None)) = (before ++ [In.Stdout response])%list
    /\ let address := (In.remove_first "api/" (server_url (In.Request.source request))
                       ++ "/" ++ chart_name (In.Request.source request) ++ "-"
                       ++ tpl (OutResponse.version (OutResponse.version_of response))
                       ++ ".tgz")%string in
       In (In.Fetch address
                    (In.createFetchHeaders (In.base64 (In.harbor_world None)) request)) before
       /\ In (In.Fetch (address ++ ".prov")
                       (In.createFetchHeaders (In.base64 (In.harbor_world None)) request))
             before.
Proof. exact (X24_archive_of_reported_version (In.harbor_world None) eq_refl). Defined.
